(** * Segment display mappings (mpf/core/segment_mappings.py)

    A shallow embedding of the text-to-segment mapper, the [Segment] class
    hierarchy with its reflective copy and equality, the byte encoders and
    the per-family character tables, followed by the properties proved
    about them. *)

From Stdlib Require Import ZArith Lia.
From stdpp Require Import base option list gmap strings.

Local Open Scope Z_scope.

(** ** Python values and exceptions *)

Module Py.

(** Exceptions the embedded code can raise. *)
Inductive exn := KeyError | IndexError | ValueError | TypeError | AttributeError.

(** Outcome of running a piece of Python: a value, a raised exception, or
    a loop that was cut off by its step budget. *)
Inductive result (A : Type) :=
| Ok (a : A)
| Raise (e : exn)
| OutOfFuel.
Arguments Ok {A} a.
Arguments Raise {A} e.
Arguments OutOfFuel {A}.

#[export] Instance result_ret : MRet result := fun A a => Ok a.
#[export] Instance result_bind : MBind result := fun A B k r =>
  match r with
  | Ok a => k a
  | Raise e => Raise e
  | OutOfFuel => OutOfFuel
  end.

(** A [str] is the sequence of its code points; [ord] of a one-character
    string is that code point and [chr] builds the one-character string. *)
Abbreviation str := (list Z).
Definition chr (i : Z) : str := [i].

(** [seq[i]] for a non-negative index. *)
Definition getitem {A} (seq : list A) (i : nat) : result A :=
  match seq !! i with
  | Some x => Ok x
  | None => Raise IndexError
  end.

(** [seq[start:]]: a negative [start] counts from the end and is clamped
    at the front; a non-negative one is clamped at the end. *)
Definition slice_from {A} (seq : list A) (start : Z) : list A :=
  if start <? 0
  then drop (Z.to_nat (Z.max 0 (Z.of_nat (length seq) + start))) seq
  else drop (Z.to_nat start) seq.

(** [len(seq)] *)
Definition len {A} (seq : list A) : Z := Z.of_nat (length seq).

(** [bytes([...])]: every element must be in [range(256)]. *)
Definition bytes (l : list Z) : result (list Z) :=
  if forallb (fun x => (0 <=? x) && (x <? 256)) l then Ok l else Raise ValueError.

(** Attribute values found on a segment object. *)
Inductive val := VInt (z : Z) | VStr (s : str).

#[export] Instance val_eq_dec : EqDecision val.
Proof. solve_decision. Defined.

(** Truth value of an int in a condition. *)
Definition truthy (z : Z) : bool := negb (z =? 0).

End Py.
Import Py.

(** ** The Segment classes *)

(** One constructor per concrete class; the arguments are those of the
    class's [__init__], in its order. *)
Inductive Segment :=
| BcdSegments (dp x3 x2 x1 x0 : Z) (char : str)
| SevenSegments (dp g f e d c b a : Z) (char : str)
| EightSegments (dp h g f e d c b a : Z) (char : str)
| FourteenSegments (dp l m n k j h g2 g1 f e d c b a : Z) (char : str)
| SixteenSegments (dp u t s r p m n k h g f e d c b a : Z) (char : str)
| AsciiSegment (dp ascii_value : Z) (char : str).

#[export] Instance Segment_eq_dec : EqDecision Segment.
Proof. solve_decision. Defined.

(** [self.__class__] *)
Inductive class := CBcd | CSeven | CEight | CFourteen | CSixteen | CAscii.

Definition class_of (self : Segment) : class :=
  match self with
  | BcdSegments _ _ _ _ _ _ => CBcd
  | SevenSegments _ _ _ _ _ _ _ _ _ => CSeven
  | EightSegments _ _ _ _ _ _ _ _ _ _ => CEight
  | FourteenSegments _ _ _ _ _ _ _ _ _ _ _ _ _ _ _ _ => CFourteen
  | SixteenSegments _ _ _ _ _ _ _ _ _ _ _ _ _ _ _ _ _ _ => CSixteen
  | AsciiSegment _ _ _ => CAscii
  end.

(** [self.dp] and [self.char], the two slots of the base class. *)
Definition dp (self : Segment) : Z :=
  match self with
  | BcdSegments dp _ _ _ _ _ => dp
  | SevenSegments dp _ _ _ _ _ _ _ _ => dp
  | EightSegments dp _ _ _ _ _ _ _ _ _ => dp
  | FourteenSegments dp _ _ _ _ _ _ _ _ _ _ _ _ _ _ _ => dp
  | SixteenSegments dp _ _ _ _ _ _ _ _ _ _ _ _ _ _ _ _ _ => dp
  | AsciiSegment dp _ _ => dp
  end.

Definition char (self : Segment) : str :=
  match self with
  | BcdSegments _ _ _ _ _ char => char
  | SevenSegments _ _ _ _ _ _ _ _ char => char
  | EightSegments _ _ _ _ _ _ _ _ _ char => char
  | FourteenSegments _ _ _ _ _ _ _ _ _ _ _ _ _ _ _ char => char
  | SixteenSegments _ _ _ _ _ _ _ _ _ _ _ _ _ _ _ _ _ char => char
  | AsciiSegment _ _ char => char
  end.

(** The dictionary comprehension shared by [copy_with_dp_on] and [__eq__]:
    every attribute listed by [dir(self)] whose name does not start with a
    double underscore and whose value is not callable, that is, the slots
    of the object's class and of the base class. *)
Definition attrs (self : Segment) : gmap string val :=
  match self with
  | BcdSegments dp x3 x2 x1 x0 char =>
      list_to_map [("dp", VInt dp); ("char", VStr char);
                   ("x3", VInt x3); ("x2", VInt x2); ("x1", VInt x1); ("x0", VInt x0)]
  | SevenSegments dp g f e d c b a char =>
      list_to_map [("dp", VInt dp); ("char", VStr char);
                   ("g", VInt g); ("f", VInt f); ("e", VInt e); ("d", VInt d);
                   ("c", VInt c); ("b", VInt b); ("a", VInt a)]
  | EightSegments dp h g f e d c b a char =>
      list_to_map [("dp", VInt dp); ("char", VStr char);
                   ("h", VInt h); ("g", VInt g); ("f", VInt f); ("e", VInt e);
                   ("d", VInt d); ("c", VInt c); ("b", VInt b); ("a", VInt a)]
  | FourteenSegments dp l m n k j h g2 g1 f e d c b a char =>
      list_to_map [("dp", VInt dp); ("char", VStr char);
                   ("l", VInt l); ("m", VInt m); ("n", VInt n); ("k", VInt k);
                   ("j", VInt j); ("h", VInt h); ("g2", VInt g2); ("g1", VInt g1);
                   ("f", VInt f); ("e", VInt e); ("d", VInt d); ("c", VInt c);
                   ("b", VInt b); ("a", VInt a)]
  | SixteenSegments dp u t s r p m n k h g f e d c b a char =>
      list_to_map [("dp", VInt dp); ("char", VStr char);
                   ("u", VInt u); ("t", VInt t); ("s", VInt s); ("r", VInt r);
                   ("p", VInt p); ("m", VInt m); ("n", VInt n); ("k", VInt k);
                   ("h", VInt h); ("g", VInt g); ("f", VInt f); ("e", VInt e);
                   ("d", VInt d); ("c", VInt c); ("b", VInt b); ("a", VInt a)]
  | AsciiSegment dp ascii_value char =>
      list_to_map [("dp", VInt dp); ("char", VStr char); ("ascii_value", VInt ascii_value)]
  end.

(** Parameter names of each class's [__init__]. *)
Definition init_params (cls : class) : list string :=
  match cls with
  | CBcd => ["dp"; "x3"; "x2"; "x1"; "x0"; "char"]
  | CSeven => ["dp"; "g"; "f"; "e"; "d"; "c"; "b"; "a"; "char"]
  | CEight => ["dp"; "h"; "g"; "f"; "e"; "d"; "c"; "b"; "a"; "char"]
  | CFourteen => ["dp"; "l"; "m"; "n"; "k"; "j"; "h"; "g2"; "g1"; "f"; "e"; "d"; "c"; "b"; "a"; "char"]
  | CSixteen => ["dp"; "u"; "t"; "s"; "r"; "p"; "m"; "n"; "k"; "h"; "g"; "f"; "e"; "d"; "c"; "b"; "a"; "char"]
  | CAscii => ["dp"; "ascii_value"; "char"]
  end%string.

(** A keyword argument read as a segment flag or as the label. *)
Definition kw_int (kw : gmap string val) (name : string) : result Z :=
  match kw !! name with
  | Some (VInt z) => Ok z
  | _ => Raise TypeError
  end.

Definition kw_str (kw : gmap string val) (name : string) : result str :=
  match kw !! name with
  | Some (VStr s) => Ok s
  | _ => Raise TypeError
  end.

(** The call of class [cls] with the keyword dictionary [kw]: it fails with
    [TypeError] on a missing or an unexpected keyword; otherwise [__init__]
    stores every argument. *)
Definition new (cls : class) (kw : gmap string val) : result Segment :=
  if bool_decide (dom kw = list_to_set (C := gset string) (init_params cls)) then
    match cls with
    | CBcd =>
        dp ← kw_int kw "dp"; x3 ← kw_int kw "x3"; x2 ← kw_int kw "x2";
        x1 ← kw_int kw "x1"; x0 ← kw_int kw "x0"; char ← kw_str kw "char";
        Ok (BcdSegments dp x3 x2 x1 x0 char)
    | CSeven =>
        dp ← kw_int kw "dp"; g ← kw_int kw "g"; f ← kw_int kw "f"; e ← kw_int kw "e";
        d ← kw_int kw "d"; c ← kw_int kw "c"; b ← kw_int kw "b"; a ← kw_int kw "a";
        char ← kw_str kw "char";
        Ok (SevenSegments dp g f e d c b a char)
    | CEight =>
        dp ← kw_int kw "dp"; h ← kw_int kw "h"; g ← kw_int kw "g"; f ← kw_int kw "f";
        e ← kw_int kw "e"; d ← kw_int kw "d"; c ← kw_int kw "c"; b ← kw_int kw "b";
        a ← kw_int kw "a"; char ← kw_str kw "char";
        Ok (EightSegments dp h g f e d c b a char)
    | CFourteen =>
        dp ← kw_int kw "dp"; l ← kw_int kw "l"; m ← kw_int kw "m"; n ← kw_int kw "n";
        k ← kw_int kw "k"; j ← kw_int kw "j"; h ← kw_int kw "h"; g2 ← kw_int kw "g2";
        g1 ← kw_int kw "g1"; f ← kw_int kw "f"; e ← kw_int kw "e"; d ← kw_int kw "d";
        c ← kw_int kw "c"; b ← kw_int kw "b"; a ← kw_int kw "a"; char ← kw_str kw "char";
        Ok (FourteenSegments dp l m n k j h g2 g1 f e d c b a char)
    | CSixteen =>
        dp ← kw_int kw "dp"; u ← kw_int kw "u"; t ← kw_int kw "t"; s ← kw_int kw "s";
        r ← kw_int kw "r"; p ← kw_int kw "p"; m ← kw_int kw "m"; n ← kw_int kw "n";
        k ← kw_int kw "k"; h ← kw_int kw "h"; g ← kw_int kw "g"; f ← kw_int kw "f";
        e ← kw_int kw "e"; d ← kw_int kw "d"; c ← kw_int kw "c"; b ← kw_int kw "b";
        a ← kw_int kw "a"; char ← kw_str kw "char";
        Ok (SixteenSegments dp u t s r p m n k h g f e d c b a char)
    | CAscii =>
        dp ← kw_int kw "dp"; ascii_value ← kw_int kw "ascii_value"; char ← kw_str kw "char";
        Ok (AsciiSegment dp ascii_value char)
    end
  else Raise TypeError.

(** [Segment.copy_with_dp_on] *)
Definition copy_with_dp_on (self : Segment) : result Segment :=
  let attr := attrs self in
  let attr := <["dp" := VInt 1]> attr in
  new (class_of self) attr.

(** [Segment.__eq__] *)
Definition __eq__ (self other : Segment) : bool :=
  let attr_self := attrs self in
  let attr_other := attrs other in
  bool_decide (attr_self = attr_other).

(** ** Encoders *)

Notation "x << n" := (Z.shiftl x n) (at level 30, no associativity) : Z_scope.
Notation "x .| y" := (Z.lor x y) (at level 41, left associativity) : Z_scope.

(** [BcdSegments.get_dpx4x3x2x1_encoding] *)
Definition get_dpx4x3x2x1_encoding (self : Segment) : result (list Z) :=
  match self with
  | BcdSegments dp x3 x2 x1 x0 _ =>
      bytes [(dp << 7) .| (x3 << 3) .| (x2 << 2) .| (x1 << 1) .| x0]
  | _ => Raise AttributeError
  end.

(** [BcdSegments.get_x4x3x2x1_encoding] *)
Definition get_x4x3x2x1_encoding (self : Segment) : result (list Z) :=
  match self with
  | BcdSegments dp x3 x2 x1 x0 _ =>
      bytes [(x3 << 3) .| (x2 << 2) .| (x1 << 1) .| x0]
  | _ => Raise AttributeError
  end.

(** [SevenSegments.get_gfedcba_encoding] *)
Definition get_gfedcba_encoding (self : Segment) : result (list Z) :=
  match self with
  | SevenSegments dp g f e d c b a _ =>
      bytes [(g << 6) .| (f << 5) .| (e << 4) .| (d << 3) .| (c << 2) .| (b << 1) .| a]
  | _ => Raise AttributeError
  end.

(** [SevenSegments.get_dpgfedcba_encoding] *)
Definition get_dpgfedcba_encoding (self : Segment) : result (list Z) :=
  match self with
  | SevenSegments dp g f e d c b a _ =>
      bytes [(dp << 7) .| (g << 6) .| (f << 5) .| (e << 4) .| (d << 3) .| (c << 2) .|
             (b << 1) .| a]
  | _ => Raise AttributeError
  end.

(** [SevenSegments.get_dpgfeabcd_encoding] *)
Definition get_dpgfeabcd_encoding (self : Segment) : result (list Z) :=
  match self with
  | SevenSegments dp g f e d c b a _ =>
      bytes [(dp << 7) .| (g << 6) .| (f << 5) .| (e << 4) .| (a << 3) .| (b << 2) .|
             (c << 1) .| d]
  | _ => Raise AttributeError
  end.

(** [EightSegments.get_hgfedcba_encoding] *)
Definition get_hgfedcba_encoding (self : Segment) : result (list Z) :=
  match self with
  | EightSegments dp h g f e d c b a _ =>
      bytes [(h << 7) .| (g << 6) .| (f << 5) .| (e << 4) .| (d << 3) .| (c << 2) .|
             (b << 1) .| a]
  | _ => Raise AttributeError
  end.

(** [FourteenSegments.get_pinmame_encoding] *)
Definition get_pinmame_encoding (self : Segment) : result (list Z) :=
  match self with
  | FourteenSegments dp l m n k j h g2 g1 f e d c b a _ =>
      bytes [
        (g1 << 6) .| (f << 5) .| (e << 4) .| (d << 3) .| (c << 2) .| (b << 1) .| a;
        (dp << 7) .| (l << 6) .| (m << 5) .| (n << 4) .| (g2 << 3) .| (k << 2) .|
        (j << 1) .| h]
  | _ => Raise AttributeError
  end.

(** [FourteenSegments.get_apc_encoding] *)
Definition get_apc_encoding (self : Segment) : result (list Z) :=
  match self with
  | FourteenSegments dp l m n k j h g2 g1 f e d c b a _ =>
      bytes [
        (dp << 7) .| (g1 << 6) .| (f << 5) .| (e << 4) .| (a << 3) .| (b << 2) .|
        (c << 1) .| d;
        (l << 7) .| (dp << 6) .| (n << 5) .| (m << 4) .| (k << 3) .| (g2 << 2) .|
        (h << 1) .| j]
  | _ => Raise AttributeError
  end.

(** [FourteenSegments.get_vpe_encoding] *)
Definition get_vpe_encoding (self : Segment) : result (list Z) :=
  match self with
  | FourteenSegments dp l m n k j h g2 g1 f e d c b a _ =>
      bytes [
        a .| (b << 1) .| (c << 2) .| (d << 3) .| (e << 4) .| (f << 5) .|
        (g1 << 6) .| (h << 7);
        j .| (k << 1) .| (g2 << 2) .| (n << 3) .| (m << 4) .|
        (l << 5) .| (dp << 6)]
  | _ => Raise AttributeError
  end.

(** [AsciiSegment.get_ascii_encoding] *)
Definition get_ascii_encoding (self : Segment) : result (list Z) :=
  match self with
  | AsciiSegment dp ascii_value _ => bytes [ascii_value]
  | _ => Raise AttributeError
  end.

(** [AsciiSegment.get_ascii_with_dp_encoding] *)
Definition get_ascii_with_dp_encoding (self : Segment) : result (list Z) :=
  match self with
  | AsciiSegment dp ascii_value _ => bytes [ascii_value + (if truthy dp then 128 else 0)]
  | _ => Raise AttributeError
  end.

(** [self.ascii_value] *)
Definition ascii_value (self : Segment) : result Z :=
  match self with
  | AsciiSegment _ ascii_value _ => Ok ascii_value
  | _ => Raise AttributeError
  end.

(** ** Character tables

    Each table is a dict keyed by a character code or by [None], the key of
    the entry used for codes without a mapping. *)

Definition BCD_SEGMENTS : gmap (option Z) Segment :=
  list_to_map [
    (None, BcdSegments 0 0 0 0 0 (chr 63));
    (Some 33, BcdSegments 1 0 0 0 1 (chr 33));
    (Some 48, BcdSegments 0 0 0 0 0 (chr 48));
    (Some 49, BcdSegments 0 0 0 0 1 (chr 49));
    (Some 50, BcdSegments 0 0 0 1 0 (chr 50));
    (Some 51, BcdSegments 0 0 0 1 1 (chr 51));
    (Some 52, BcdSegments 0 0 1 0 0 (chr 52));
    (Some 53, BcdSegments 0 0 1 0 1 (chr 53));
    (Some 54, BcdSegments 0 0 1 1 0 (chr 54));
    (Some 55, BcdSegments 0 0 1 1 1 (chr 55));
    (Some 56, BcdSegments 0 1 0 0 0 (chr 56));
    (Some 57, BcdSegments 0 1 0 0 1 (chr 57));
    (Some 63, BcdSegments 1 0 0 1 0 (chr 63));
    (Some 65, BcdSegments 0 1 0 1 0 (chr 65));
    (Some 66, BcdSegments 0 1 0 1 1 (chr 66));
    (Some 67, BcdSegments 0 1 1 0 0 (chr 67));
    (Some 68, BcdSegments 0 1 1 0 1 (chr 68));
    (Some 69, BcdSegments 0 1 1 1 0 (chr 69));
    (Some 70, BcdSegments 0 1 1 1 1 (chr 70));
    (Some 97, BcdSegments 0 1 0 1 0 (chr 97));
    (Some 98, BcdSegments 0 1 0 1 1 (chr 98));
    (Some 99, BcdSegments 0 1 1 0 0 (chr 99));
    (Some 100, BcdSegments 0 1 1 0 1 (chr 100));
    (Some 101, BcdSegments 0 1 1 1 0 (chr 101));
    (Some 102, BcdSegments 0 1 1 1 1 (chr 102))
  ]%Z.

Definition SEVEN_SEGMENTS : gmap (option Z) Segment :=
  list_to_map [
    (None, SevenSegments 0 0 0 0 0 0 0 0 (chr 63));
    (Some 32, SevenSegments 0 0 0 0 0 0 0 0 (chr 32));
    (Some 33, SevenSegments 1 0 0 0 0 1 1 0 (chr 33));
    (Some 34, SevenSegments 0 0 1 0 0 0 1 0 (chr 34));
    (Some 35, SevenSegments 0 1 1 1 1 1 1 0 (chr 35));
    (Some 36, SevenSegments 0 1 1 0 1 1 0 1 (chr 36));
    (Some 37, SevenSegments 1 1 0 1 0 0 1 0 (chr 37));
    (Some 38, SevenSegments 0 1 0 0 0 1 1 0 (chr 38));
    (Some 39, SevenSegments 0 0 1 0 0 0 0 0 (chr 39));
    (Some 40, SevenSegments 0 0 1 0 1 0 0 1 (chr 40));
    (Some 41, SevenSegments 0 0 0 0 1 0 1 1 (chr 41));
    (Some 42, SevenSegments 0 0 1 0 0 0 0 1 (chr 42));
    (Some 43, SevenSegments 0 1 1 1 0 0 0 0 (chr 43));
    (Some 44, SevenSegments 0 0 0 1 0 0 0 0 (chr 44));
    (Some 45, SevenSegments 0 1 0 0 0 0 0 0 (chr 45));
    (Some 46, SevenSegments 1 0 0 0 0 0 0 0 (chr 46));
    (Some 47, SevenSegments 0 1 0 1 0 0 1 0 (chr 47));
    (Some 48, SevenSegments 0 0 1 1 1 1 1 1 (chr 48));
    (Some 49, SevenSegments 0 0 0 0 0 1 1 0 (chr 49));
    (Some 50, SevenSegments 0 1 0 1 1 0 1 1 (chr 50));
    (Some 51, SevenSegments 0 1 0 0 1 1 1 1 (chr 51));
    (Some 52, SevenSegments 0 1 1 0 0 1 1 0 (chr 52));
    (Some 53, SevenSegments 0 1 1 0 1 1 0 1 (chr 53));
    (Some 54, SevenSegments 0 1 1 1 1 1 0 1 (chr 54));
    (Some 55, SevenSegments 0 0 0 0 0 1 1 1 (chr 55));
    (Some 56, SevenSegments 0 1 1 1 1 1 1 1 (chr 56));
    (Some 57, SevenSegments 0 1 1 0 1 1 1 1 (chr 57));
    (Some 58, SevenSegments 0 0 0 0 1 0 0 1 (chr 58));
    (Some 59, SevenSegments 0 0 0 0 1 1 0 1 (chr 59));
    (Some 60, SevenSegments 0 1 1 0 0 0 0 1 (chr 60));
    (Some 61, SevenSegments 0 1 0 0 1 0 0 0 (chr 61));
    (Some 62, SevenSegments 0 1 0 0 0 0 1 1 (chr 62));
    (Some 63, SevenSegments 1 1 0 1 0 0 1 1 (chr 63));
    (Some 64, SevenSegments 0 1 0 1 1 1 1 1 (chr 64));
    (Some 65, SevenSegments 0 1 1 1 0 1 1 1 (chr 65));
    (Some 66, SevenSegments 0 1 1 1 1 1 0 0 (chr 66));
    (Some 67, SevenSegments 0 0 1 1 1 0 0 1 (chr 67));
    (Some 68, SevenSegments 0 1 0 1 1 1 1 0 (chr 68));
    (Some 69, SevenSegments 0 1 1 1 1 0 0 1 (chr 69));
    (Some 70, SevenSegments 0 1 1 1 0 0 0 1 (chr 70));
    (Some 71, SevenSegments 0 0 1 1 1 1 0 1 (chr 71));
    (Some 72, SevenSegments 0 1 1 1 0 1 1 0 (chr 72));
    (Some 73, SevenSegments 0 0 1 1 0 0 0 0 (chr 73));
    (Some 74, SevenSegments 0 0 0 1 1 1 1 0 (chr 74));
    (Some 75, SevenSegments 0 1 1 1 0 1 0 1 (chr 75));
    (Some 76, SevenSegments 0 0 1 1 1 0 0 0 (chr 76));
    (Some 77, SevenSegments 0 0 0 1 0 1 0 1 (chr 77));
    (Some 78, SevenSegments 0 0 1 1 0 1 1 1 (chr 78));
    (Some 79, SevenSegments 0 0 1 1 1 1 1 1 (chr 79));
    (Some 80, SevenSegments 0 1 1 1 0 0 1 1 (chr 80));
    (Some 81, SevenSegments 0 1 1 0 1 0 1 1 (chr 81));
    (Some 82, SevenSegments 0 0 1 1 0 0 1 1 (chr 82));
    (Some 83, SevenSegments 0 1 1 0 1 1 0 1 (chr 83));
    (Some 84, SevenSegments 0 1 1 1 1 0 0 0 (chr 84));
    (Some 85, SevenSegments 0 0 1 1 1 1 1 0 (chr 85));
    (Some 86, SevenSegments 0 0 1 1 1 1 1 0 (chr 86));
    (Some 87, SevenSegments 0 0 1 0 1 0 1 0 (chr 87));
    (Some 88, SevenSegments 0 1 1 1 0 1 1 0 (chr 88));
    (Some 89, SevenSegments 0 1 1 0 1 1 1 0 (chr 89));
    (Some 90, SevenSegments 0 1 0 1 1 0 1 1 (chr 90));
    (Some 91, SevenSegments 0 0 1 1 1 0 0 1 (chr 91));
    (Some 92, SevenSegments 0 1 1 0 0 1 0 0 (chr 34));
    (Some 93, SevenSegments 0 0 0 0 1 1 1 1 (chr 93));
    (Some 94, SevenSegments 0 0 1 0 0 0 1 1 (chr 94));
    (Some 95, SevenSegments 0 0 0 0 1 0 0 0 (chr 95));
    (Some 96, SevenSegments 0 0 0 0 0 0 1 0 (chr 96));
    (Some 97, SevenSegments 0 1 0 1 1 1 1 1 (chr 97));
    (Some 98, SevenSegments 0 1 1 1 1 1 0 0 (chr 98));
    (Some 99, SevenSegments 0 1 0 1 1 0 0 0 (chr 99));
    (Some 100, SevenSegments 0 1 0 1 1 1 1 0 (chr 100));
    (Some 101, SevenSegments 0 1 1 1 1 0 1 1 (chr 101));
    (Some 102, SevenSegments 0 1 1 1 0 0 0 1 (chr 102));
    (Some 103, SevenSegments 0 1 1 0 1 1 1 1 (chr 103));
    (Some 104, SevenSegments 0 1 1 1 0 1 0 0 (chr 104));
    (Some 105, SevenSegments 0 0 0 1 0 0 0 0 (chr 105));
    (Some 106, SevenSegments 0 0 0 0 1 1 0 0 (chr 106));
    (Some 107, SevenSegments 0 1 1 1 0 1 0 1 (chr 107));
    (Some 108, SevenSegments 0 0 1 1 0 0 0 0 (chr 108));
    (Some 109, SevenSegments 0 0 0 1 0 1 0 0 (chr 109));
    (Some 110, SevenSegments 0 1 0 1 0 1 0 0 (chr 110));
    (Some 111, SevenSegments 0 1 0 1 1 1 0 0 (chr 111));
    (Some 112, SevenSegments 0 1 1 1 0 0 1 1 (chr 112));
    (Some 113, SevenSegments 0 1 1 0 0 1 1 1 (chr 113));
    (Some 114, SevenSegments 0 1 0 1 0 0 0 0 (chr 114));
    (Some 115, SevenSegments 0 1 1 0 1 1 0 1 (chr 115));
    (Some 116, SevenSegments 0 1 1 1 1 0 0 0 (chr 116));
    (Some 117, SevenSegments 0 0 0 1 1 1 0 0 (chr 117));
    (Some 118, SevenSegments 0 0 0 1 1 1 0 0 (chr 118));
    (Some 119, SevenSegments 0 0 0 1 0 1 0 0 (chr 119));
    (Some 120, SevenSegments 0 1 1 1 0 1 1 0 (chr 120));
    (Some 121, SevenSegments 0 1 1 0 1 1 1 0 (chr 121));
    (Some 122, SevenSegments 0 1 0 1 1 0 1 1 (chr 122));
    (Some 123, SevenSegments 0 1 0 0 0 1 1 0 (chr 123));
    (Some 124, SevenSegments 0 0 1 1 0 0 0 0 (chr 124));
    (Some 125, SevenSegments 0 1 1 1 0 0 0 0 (chr 125));
    (Some 126, SevenSegments 0 0 0 0 0 0 0 1 (chr 126))
  ]%Z.

Definition EIGHT_SEGMENTS : gmap (option Z) Segment :=
  list_to_map [
    (None, EightSegments 0 0 0 0 0 0 0 0 0 (chr 63));
    (Some 32, EightSegments 0 0 0 0 0 0 0 0 0 (chr 32));
    (Some 33, EightSegments 1 0 0 0 0 0 1 1 0 (chr 33));
    (Some 34, EightSegments 0 0 0 1 0 0 0 1 0 (chr 34));
    (Some 35, EightSegments 0 0 1 1 1 1 1 1 0 (chr 35));
    (Some 36, EightSegments 0 1 1 1 0 1 1 0 1 (chr 36));
    (Some 37, EightSegments 1 0 1 0 1 0 0 1 0 (chr 37));
    (Some 38, EightSegments 0 0 1 0 0 0 1 1 0 (chr 38));
    (Some 39, EightSegments 0 0 0 1 0 0 0 0 0 (chr 39));
    (Some 40, EightSegments 0 0 0 1 0 1 0 0 1 (chr 40));
    (Some 41, EightSegments 0 0 0 0 0 1 0 1 1 (chr 41));
    (Some 42, EightSegments 0 0 0 1 0 0 0 0 1 (chr 42));
    (Some 43, EightSegments 0 1 1 0 0 0 0 0 0 (chr 43));
    (Some 44, EightSegments 0 0 0 0 1 0 0 0 0 (chr 44));
    (Some 45, EightSegments 0 0 1 0 0 0 0 0 0 (chr 45));
    (Some 46, EightSegments 1 0 0 0 0 0 0 0 0 (chr 46));
    (Some 47, EightSegments 0 0 1 0 1 0 0 1 0 (chr 47));
    (Some 48, EightSegments 0 0 0 1 1 1 1 1 1 (chr 48));
    (Some 49, EightSegments 0 1 0 0 0 0 0 0 0 (chr 49));
    (Some 50, EightSegments 0 0 1 0 1 1 0 1 1 (chr 50));
    (Some 51, EightSegments 0 0 1 0 0 1 1 1 1 (chr 51));
    (Some 52, EightSegments 0 0 1 1 0 0 1 1 0 (chr 52));
    (Some 53, EightSegments 0 0 1 1 0 1 1 0 1 (chr 53));
    (Some 54, EightSegments 0 0 1 1 1 1 1 0 1 (chr 54));
    (Some 55, EightSegments 0 0 0 0 0 0 1 1 1 (chr 55));
    (Some 56, EightSegments 0 0 1 1 1 1 1 1 1 (chr 56));
    (Some 57, EightSegments 0 0 1 1 0 1 1 1 1 (chr 57));
    (Some 58, EightSegments 0 0 0 0 0 1 0 0 1 (chr 58));
    (Some 59, EightSegments 0 0 0 0 0 1 1 0 1 (chr 59));
    (Some 60, EightSegments 0 0 1 1 0 0 0 0 1 (chr 60));
    (Some 61, EightSegments 0 0 1 0 0 1 0 0 0 (chr 61));
    (Some 62, EightSegments 0 0 1 0 0 0 0 1 1 (chr 62));
    (Some 63, EightSegments 1 0 1 0 1 0 0 1 1 (chr 63));
    (Some 64, EightSegments 0 0 1 0 1 1 1 1 1 (chr 64));
    (Some 65, EightSegments 0 0 1 1 1 0 1 1 1 (chr 65));
    (Some 66, EightSegments 0 1 1 0 0 1 1 0 0 (chr 66));
    (Some 67, EightSegments 0 0 0 1 1 1 0 0 1 (chr 67));
    (Some 68, EightSegments 0 1 0 0 0 1 1 1 1 (chr 68));
    (Some 69, EightSegments 0 0 1 1 1 1 0 0 1 (chr 69));
    (Some 70, EightSegments 0 0 1 1 1 0 0 0 1 (chr 70));
    (Some 71, EightSegments 0 0 0 1 1 1 1 0 1 (chr 71));
    (Some 72, EightSegments 0 0 1 1 1 0 1 1 0 (chr 72));
    (Some 73, EightSegments 0 1 0 0 0 1 0 0 1 (chr 73));
    (Some 74, EightSegments 0 0 0 0 1 1 1 1 0 (chr 74));
    (Some 75, EightSegments 0 1 1 1 1 0 0 0 0 (chr 75));
    (Some 76, EightSegments 0 0 0 1 1 1 0 0 0 (chr 76));
    (Some 77, EightSegments 0 1 0 1 1 0 1 1 1 (chr 77));
    (Some 78, EightSegments 0 0 0 1 1 0 1 1 1 (chr 78));
    (Some 79, EightSegments 0 0 0 1 1 1 1 1 1 (chr 79));
    (Some 80, EightSegments 0 0 1 1 1 0 0 1 1 (chr 80));
    (Some 81, EightSegments 0 0 1 1 0 1 0 1 1 (chr 81));
    (Some 82, EightSegments 0 0 0 1 1 0 0 1 1 (chr 82));
    (Some 83, EightSegments 0 0 1 1 0 1 1 0 1 (chr 83));
    (Some 84, EightSegments 0 1 0 0 0 0 0 0 1 (chr 84));
    (Some 85, EightSegments 0 0 0 1 1 1 1 1 0 (chr 85));
    (Some 86, EightSegments 0 0 0 1 1 1 1 1 0 (chr 86));
    (Some 87, EightSegments 0 1 0 1 1 1 1 1 0 (chr 87));
    (Some 88, EightSegments 0 1 1 1 0 0 1 0 0 (chr 88));
    (Some 89, EightSegments 0 0 1 1 0 1 1 1 0 (chr 89));
    (Some 90, EightSegments 0 0 1 0 1 1 0 1 1 (chr 90));
    (Some 91, EightSegments 0 0 0 1 1 1 0 0 1 (chr 91));
    (Some 92, EightSegments 0 0 1 1 0 0 1 0 0 (chr 34));
    (Some 93, EightSegments 0 0 0 0 0 1 1 1 1 (chr 93));
    (Some 94, EightSegments 0 0 0 1 0 0 0 1 1 (chr 94));
    (Some 95, EightSegments 0 0 0 0 0 1 0 0 0 (chr 95));
    (Some 96, EightSegments 0 0 0 0 0 0 0 1 0 (chr 96));
    (Some 97, EightSegments 0 0 1 0 1 1 1 1 1 (chr 97));
    (Some 98, EightSegments 0 0 1 1 1 1 1 0 0 (chr 98));
    (Some 99, EightSegments 0 0 1 0 1 1 0 0 0 (chr 99));
    (Some 100, EightSegments 0 0 1 0 1 1 1 1 0 (chr 100));
    (Some 101, EightSegments 0 0 1 1 1 1 0 1 1 (chr 101));
    (Some 102, EightSegments 0 0 1 1 1 0 0 0 1 (chr 102));
    (Some 103, EightSegments 0 0 1 1 0 1 1 1 1 (chr 103));
    (Some 104, EightSegments 0 0 1 1 1 0 1 0 0 (chr 104));
    (Some 105, EightSegments 0 0 0 0 1 0 0 0 0 (chr 105));
    (Some 106, EightSegments 0 0 0 0 0 1 1 0 0 (chr 106));
    (Some 107, EightSegments 0 0 1 1 1 0 1 0 1 (chr 107));
    (Some 108, EightSegments 0 0 0 1 1 0 0 0 0 (chr 108));
    (Some 109, EightSegments 0 0 0 0 1 0 1 0 0 (chr 109));
    (Some 110, EightSegments 0 0 1 0 1 0 1 0 0 (chr 110));
    (Some 111, EightSegments 0 0 1 0 1 1 1 0 0 (chr 111));
    (Some 112, EightSegments 0 0 1 1 1 0 0 1 1 (chr 112));
    (Some 113, EightSegments 0 0 1 1 0 0 1 1 1 (chr 113));
    (Some 114, EightSegments 0 0 1 0 1 0 0 0 0 (chr 114));
    (Some 115, EightSegments 0 0 1 1 0 1 1 0 1 (chr 115));
    (Some 116, EightSegments 0 0 1 1 1 1 0 0 0 (chr 116));
    (Some 117, EightSegments 0 0 0 0 1 1 1 0 0 (chr 117));
    (Some 118, EightSegments 0 0 0 0 1 1 1 0 0 (chr 118));
    (Some 119, EightSegments 0 0 0 0 1 0 1 0 0 (chr 119));
    (Some 120, EightSegments 0 1 1 1 0 0 1 0 0 (chr 120));
    (Some 121, EightSegments 0 0 1 1 0 1 1 1 0 (chr 121));
    (Some 122, EightSegments 0 0 1 0 1 1 0 1 1 (chr 122));
    (Some 123, EightSegments 0 0 1 0 0 0 1 1 0 (chr 123));
    (Some 124, EightSegments 0 1 0 0 0 0 0 0 0 (chr 124));
    (Some 125, EightSegments 0 0 1 1 1 0 0 0 0 (chr 125));
    (Some 126, EightSegments 0 0 0 0 0 0 0 0 1 (chr 126))
  ]%Z.

Definition FOURTEEN_SEGMENTS : gmap (option Z) Segment :=
  list_to_map [
    (None, FourteenSegments 0 0 0 0 0 0 0 0 0 0 0 0 0 0 0 (chr 63));
    (Some 32, FourteenSegments 0 0 0 0 0 0 0 0 0 0 0 0 0 0 0 (chr 32));
    (Some 33, FourteenSegments 1 0 0 0 0 0 0 0 0 0 0 0 1 1 0 (chr 33));
    (Some 34, FourteenSegments 0 0 0 0 0 1 0 0 0 0 0 0 0 1 0 (chr 34));
    (Some 35, FourteenSegments 0 0 1 0 0 1 0 1 1 0 0 1 1 1 0 (chr 35));
    (Some 36, FourteenSegments 0 0 1 0 0 1 0 1 1 1 0 1 1 0 1 (chr 36));
    (Some 37, FourteenSegments 0 1 0 1 1 0 1 1 1 1 0 0 1 0 0 (chr 37));
    (Some 38, FourteenSegments 0 1 0 0 0 1 1 0 1 0 1 1 0 0 1 (chr 38));
    (Some 39, FourteenSegments 0 0 0 0 0 1 0 0 0 0 0 0 0 0 0 (chr 39));
    (Some 40, FourteenSegments 0 1 0 0 1 0 0 0 0 0 0 0 0 0 0 (chr 40));
    (Some 41, FourteenSegments 0 0 0 1 0 0 1 0 0 0 0 0 0 0 0 (chr 41));
    (Some 42, FourteenSegments 0 1 1 1 1 1 1 1 1 0 0 0 0 0 0 (chr 42));
    (Some 43, FourteenSegments 0 0 1 0 0 1 0 1 1 0 0 0 0 0 0 (chr 43));
    (Some 44, FourteenSegments 0 0 0 1 0 0 0 0 0 0 0 0 0 0 0 (chr 44));
    (Some 45, FourteenSegments 0 0 0 0 0 0 0 1 1 0 0 0 0 0 0 (chr 45));
    (Some 46, FourteenSegments 1 0 0 0 0 0 0 0 0 0 0 0 0 0 0 (chr 46));
    (Some 47, FourteenSegments 0 0 0 1 1 0 0 0 0 0 0 0 0 0 0 (chr 47));
    (Some 48, FourteenSegments 0 0 0 1 1 0 0 0 0 1 1 1 1 1 1 (chr 48));
    (Some 49, FourteenSegments 0 0 0 0 1 0 0 0 0 0 0 0 1 1 0 (chr 49));
    (Some 50, FourteenSegments 0 0 0 0 0 0 0 1 1 0 1 1 0 1 1 (chr 50));
    (Some 51, FourteenSegments 0 0 0 0 0 0 0 1 0 0 0 1 1 1 1 (chr 51));
    (Some 52, FourteenSegments 0 0 0 0 0 0 0 1 1 1 0 0 1 1 0 (chr 52));
    (Some 53, FourteenSegments 0 1 0 0 0 0 0 0 1 1 0 1 0 0 1 (chr 53));
    (Some 54, FourteenSegments 0 0 0 0 0 0 0 1 1 1 1 1 1 0 1 (chr 54));
    (Some 55, FourteenSegments 0 0 0 0 0 0 0 0 0 0 0 0 1 1 1 (chr 55));
    (Some 56, FourteenSegments 0 0 0 0 0 0 0 1 1 1 1 1 1 1 1 (chr 56));
    (Some 57, FourteenSegments 0 0 0 0 0 0 0 1 1 1 0 1 1 1 1 (chr 57));
    (Some 58, FourteenSegments 0 0 1 0 0 1 0 0 0 0 0 0 0 0 0 (chr 58));
    (Some 59, FourteenSegments 0 0 0 1 0 1 0 0 0 0 0 0 0 0 0 (chr 59));
    (Some 60, FourteenSegments 0 1 0 0 1 0 0 0 1 0 0 0 0 0 0 (chr 60));
    (Some 61, FourteenSegments 0 0 0 0 0 0 0 1 1 0 0 1 0 0 0 (chr 61));
    (Some 62, FourteenSegments 0 0 0 1 0 0 1 1 0 0 0 0 0 0 0 (chr 62));
    (Some 63, FourteenSegments 1 0 1 0 0 0 0 1 0 0 0 0 0 1 1 (chr 63));
    (Some 64, FourteenSegments 0 0 1 0 0 0 0 0 1 0 1 1 1 1 1 (chr 64));
    (Some 65, FourteenSegments 0 0 0 0 0 0 0 1 1 1 1 0 1 1 1 (chr 65));
    (Some 66, FourteenSegments 0 0 1 0 0 1 0 1 0 0 0 1 1 1 1 (chr 66));
    (Some 67, FourteenSegments 0 0 0 0 0 0 0 0 0 1 1 1 0 0 1 (chr 67));
    (Some 68, FourteenSegments 0 0 1 0 0 1 0 0 0 0 0 1 1 1 1 (chr 68));
    (Some 69, FourteenSegments 0 0 0 0 0 0 0 0 1 1 1 1 0 0 1 (chr 69));
    (Some 70, FourteenSegments 0 0 0 0 0 0 0 0 1 1 1 0 0 0 1 (chr 70));
    (Some 71, FourteenSegments 0 0 0 0 0 0 0 1 0 1 1 1 1 0 1 (chr 71));
    (Some 72, FourteenSegments 0 0 0 0 0 0 0 1 1 1 1 0 1 1 0 (chr 72));
    (Some 73, FourteenSegments 0 0 1 0 0 1 0 0 0 0 0 1 0 0 1 (chr 73));
    (Some 74, FourteenSegments 0 0 0 0 0 0 0 0 0 0 1 1 1 1 0 (chr 74));
    (Some 75, FourteenSegments 0 1 0 0 1 0 0 0 1 1 1 0 0 0 0 (chr 75));
    (Some 76, FourteenSegments 0 0 0 0 0 0 0 0 0 1 1 1 0 0 0 (chr 76));
    (Some 77, FourteenSegments 0 0 0 0 1 0 1 0 0 1 1 0 1 1 0 (chr 77));
    (Some 78, FourteenSegments 0 1 0 0 0 0 1 0 0 1 1 0 1 1 0 (chr 78));
    (Some 79, FourteenSegments 0 0 0 0 0 0 0 0 0 1 1 1 1 1 1 (chr 79));
    (Some 80, FourteenSegments 0 0 0 0 0 0 0 1 1 1 1 0 0 1 1 (chr 80));
    (Some 81, FourteenSegments 0 1 0 0 0 0 0 0 0 1 1 1 1 1 1 (chr 81));
    (Some 82, FourteenSegments 0 1 0 0 0 0 0 1 1 1 1 0 0 1 1 (chr 82));
    (Some 83, FourteenSegments 0 0 0 0 0 0 0 1 1 1 0 1 1 0 1 (chr 83));
    (Some 84, FourteenSegments 0 0 1 0 0 1 0 0 0 0 0 0 0 0 1 (chr 84));
    (Some 85, FourteenSegments 0 0 0 0 0 0 0 0 0 1 1 1 1 1 0 (chr 85));
    (Some 86, FourteenSegments 0 0 0 1 1 0 0 0 0 1 1 0 0 0 0 (chr 86));
    (Some 87, FourteenSegments 0 1 0 1 0 0 0 0 0 1 1 0 1 1 0 (chr 87));
    (Some 88, FourteenSegments 0 1 0 1 1 0 1 0 0 0 0 0 0 0 0 (chr 88));
    (Some 89, FourteenSegments 0 0 0 0 0 0 0 1 1 1 0 1 1 1 0 (chr 89));
    (Some 90, FourteenSegments 0 0 0 1 1 0 0 0 0 0 0 1 0 0 1 (chr 90));
    (Some 91, FourteenSegments 0 0 0 0 0 0 0 0 0 1 1 1 0 0 1 (chr 91));
    (Some 92, FourteenSegments 0 1 0 0 0 0 1 0 0 0 0 0 0 0 0 (chr 34));
    (Some 93, FourteenSegments 0 0 0 0 0 0 0 0 0 0 0 1 1 1 1 (chr 93));
    (Some 94, FourteenSegments 0 1 0 1 0 0 0 0 0 0 0 0 0 0 0 (chr 94));
    (Some 95, FourteenSegments 0 0 0 0 0 0 0 0 0 0 0 1 0 0 0 (chr 95));
    (Some 96, FourteenSegments 0 0 0 0 0 0 1 0 0 0 0 0 0 0 0 (chr 96));
    (Some 97, FourteenSegments 0 0 1 0 0 0 0 0 1 0 1 1 0 0 0 (chr 97));
    (Some 98, FourteenSegments 0 1 0 0 0 0 0 0 1 1 1 1 0 0 0 (chr 98));
    (Some 99, FourteenSegments 0 0 0 0 0 0 0 1 1 0 1 1 0 0 0 (chr 99));
    (Some 100, FourteenSegments 0 0 0 1 0 0 0 1 0 0 0 1 1 1 0 (chr 100));
    (Some 101, FourteenSegments 0 0 0 1 0 0 0 0 1 0 1 1 0 0 0 (chr 101));
    (Some 102, FourteenSegments 0 0 1 0 1 0 0 1 1 0 0 0 0 0 0 (chr 102));
    (Some 103, FourteenSegments 0 0 0 0 0 0 1 1 0 0 0 1 1 1 1 (chr 103));
    (Some 104, FourteenSegments 0 0 0 0 0 0 0 1 1 1 1 0 1 0 0 (chr 104));
    (Some 105, FourteenSegments 0 0 1 0 0 0 0 0 0 0 0 0 0 0 0 (chr 105));
    (Some 106, FourteenSegments 0 0 0 1 0 1 0 0 0 0 1 0 0 0 0 (chr 106));
    (Some 107, FourteenSegments 0 1 1 0 1 1 0 0 0 0 0 0 0 0 0 (chr 107));
    (Some 108, FourteenSegments 0 0 1 0 0 1 0 0 0 0 0 0 0 0 0 (chr 108));
    (Some 109, FourteenSegments 0 0 1 0 0 0 0 1 1 0 1 0 1 0 0 (chr 109));
    (Some 110, FourteenSegments 0 0 0 0 0 0 0 1 1 0 1 0 1 0 0 (chr 110));
    (Some 111, FourteenSegments 0 0 0 0 0 0 0 1 1 0 1 1 1 0 0 (chr 111));
    (Some 112, FourteenSegments 0 0 0 0 1 0 0 0 1 1 1 0 0 0 1 (chr 112));
    (Some 113, FourteenSegments 0 0 0 0 0 0 1 1 0 0 0 0 1 1 1 (chr 113));
    (Some 114, FourteenSegments 0 0 0 0 0 0 0 1 1 0 1 0 0 0 0 (chr 114));
    (Some 115, FourteenSegments 0 1 0 0 0 0 0 1 0 0 0 1 0 0 0 (chr 115));
    (Some 116, FourteenSegments 0 0 0 0 0 0 0 0 1 1 1 1 0 0 0 (chr 116));
    (Some 117, FourteenSegments 0 0 0 0 0 0 0 0 0 0 1 1 1 0 0 (chr 117));
    (Some 118, FourteenSegments 0 0 0 1 0 0 0 0 0 0 1 0 0 0 0 (chr 118));
    (Some 119, FourteenSegments 0 0 1 0 0 0 0 0 0 0 1 1 1 0 0 (chr 119));
    (Some 120, FourteenSegments 0 1 0 1 1 0 1 0 0 0 0 0 0 0 0 (chr 120));
    (Some 121, FourteenSegments 0 0 0 0 0 1 0 1 0 0 0 1 1 1 0 (chr 121));
    (Some 122, FourteenSegments 0 0 0 1 0 0 0 0 1 0 0 1 0 0 0 (chr 122));
    (Some 123, FourteenSegments 0 0 0 1 0 0 1 0 1 0 0 1 0 0 1 (chr 123));
    (Some 124, FourteenSegments 0 0 1 0 0 1 0 0 0 0 0 0 0 0 0 (chr 124));
    (Some 125, FourteenSegments 0 1 0 0 1 0 0 1 0 0 0 1 0 0 1 (chr 125));
    (Some 126, FourteenSegments 0 0 0 1 1 0 0 1 1 0 0 0 0 0 0 (chr 126))
  ]%Z.

Definition SIXTEEN_SEGMENTS : gmap (option Z) Segment :=
  list_to_map [
    (None, SixteenSegments 0 0 0 0 0 0 0 0 0 0 0 0 0 0 0 0 0 (chr 63));
    (Some 32, SixteenSegments 0 0 0 0 0 0 0 0 0 0 0 0 0 0 0 0 0 (chr 32));
    (Some 33, SixteenSegments 1 0 0 0 0 0 0 0 0 0 0 0 0 1 1 0 0 (chr 33));
    (Some 34, SixteenSegments 0 0 0 0 0 0 1 0 0 0 0 0 0 0 1 0 0 (chr 34));
    (Some 35, SixteenSegments 0 1 0 1 0 1 1 0 0 0 0 1 1 1 1 0 0 (chr 35));
    (Some 36, SixteenSegments 0 1 0 1 0 1 1 0 0 1 0 1 1 1 0 1 1 (chr 36));
    (Some 37, SixteenSegments 0 1 1 1 0 1 1 1 0 1 0 0 1 1 0 0 1 (chr 37));
    (Some 38, SixteenSegments 0 1 0 0 1 0 1 0 1 0 1 1 1 1 0 0 1 (chr 38));
    (Some 39, SixteenSegments 0 0 0 0 0 0 1 0 0 0 0 0 0 0 0 0 0 (chr 39));
    (Some 40, SixteenSegments 0 0 0 0 1 0 0 1 0 0 0 0 0 0 0 0 0 (chr 40));
    (Some 41, SixteenSegments 0 0 1 0 0 0 0 0 1 0 0 0 0 0 0 0 0 (chr 41));
    (Some 42, SixteenSegments 0 1 1 1 1 1 1 1 1 0 0 0 0 0 0 0 0 (chr 42));
    (Some 43, SixteenSegments 0 1 0 1 0 1 1 0 0 0 0 0 0 0 0 0 0 (chr 43));
    (Some 44, SixteenSegments 0 0 1 0 0 0 0 0 0 0 0 0 0 0 0 0 0 (chr 44));
    (Some 45, SixteenSegments 0 1 0 0 0 1 0 0 0 0 0 0 0 0 0 0 0 (chr 45));
    (Some 46, SixteenSegments 1 0 0 0 0 0 0 0 0 0 0 0 0 0 0 0 0 (chr 46));
    (Some 47, SixteenSegments 0 0 1 0 0 0 0 1 0 0 0 0 0 0 0 0 0 (chr 47));
    (Some 48, SixteenSegments 0 0 1 0 0 0 0 1 0 1 1 1 1 1 1 1 1 (chr 48));
    (Some 49, SixteenSegments 0 0 0 0 0 0 0 1 0 0 0 0 0 1 1 0 0 (chr 49));
    (Some 50, SixteenSegments 0 1 0 0 0 1 0 0 0 0 1 1 1 0 1 1 1 (chr 50));
    (Some 51, SixteenSegments 0 0 0 0 0 1 0 0 0 0 0 1 1 1 1 1 1 (chr 51));
    (Some 52, SixteenSegments 0 1 0 0 0 1 0 0 0 1 0 0 0 1 1 0 0 (chr 52));
    (Some 53, SixteenSegments 0 1 0 0 1 0 0 0 0 1 0 1 1 0 0 1 1 (chr 53));
    (Some 54, SixteenSegments 0 1 0 0 0 1 0 0 0 1 1 1 1 1 0 1 1 (chr 54));
    (Some 55, SixteenSegments 0 0 0 0 0 0 0 0 0 0 0 0 0 1 1 1 1 (chr 55));
    (Some 56, SixteenSegments 0 1 0 0 0 1 0 0 0 1 1 1 1 1 1 1 1 (chr 56));
    (Some 57, SixteenSegments 0 1 0 0 0 1 0 0 0 1 0 1 1 1 1 1 1 (chr 57));
    (Some 58, SixteenSegments 0 1 0 0 0 0 0 0 0 0 0 1 0 0 0 0 0 (chr 58));
    (Some 59, SixteenSegments 0 0 1 0 0 0 1 0 0 0 0 0 0 0 0 0 0 (chr 59));
    (Some 60, SixteenSegments 0 1 0 0 1 0 0 1 0 0 0 0 0 0 0 0 0 (chr 60));
    (Some 61, SixteenSegments 0 1 0 0 0 1 0 0 0 0 0 1 1 0 0 0 0 (chr 61));
    (Some 62, SixteenSegments 0 0 1 0 0 1 0 0 1 0 0 0 0 0 0 0 0 (chr 62));
    (Some 63, SixteenSegments 1 0 0 1 0 1 0 0 0 0 0 0 0 0 1 1 1 (chr 63));
    (Some 64, SixteenSegments 0 1 0 1 0 0 0 0 0 0 1 1 1 1 1 1 1 (chr 64));
    (Some 65, SixteenSegments 0 1 0 0 0 1 0 0 0 1 1 0 0 1 1 1 1 (chr 65));
    (Some 66, SixteenSegments 0 0 0 1 0 1 1 0 0 0 0 1 1 1 1 1 1 (chr 66));
    (Some 67, SixteenSegments 0 0 0 0 0 0 0 0 0 1 1 1 1 0 0 1 1 (chr 67));
    (Some 68, SixteenSegments 0 0 0 1 0 0 1 0 0 0 0 1 1 1 1 1 1 (chr 68));
    (Some 69, SixteenSegments 0 1 0 0 0 0 0 0 0 1 1 1 1 0 0 1 1 (chr 69));
    (Some 70, SixteenSegments 0 1 0 0 0 0 0 0 0 1 1 0 0 0 0 1 1 (chr 70));
    (Some 71, SixteenSegments 0 0 0 0 0 1 0 0 0 1 1 1 1 1 0 1 1 (chr 71));
    (Some 72, SixteenSegments 0 1 0 0 0 1 0 0 0 1 1 0 0 1 1 0 0 (chr 72));
    (Some 73, SixteenSegments 0 0 0 1 0 0 1 0 0 0 0 1 1 0 0 1 1 (chr 73));
    (Some 74, SixteenSegments 0 0 0 0 0 0 0 0 0 0 1 1 1 1 1 0 0 (chr 74));
    (Some 75, SixteenSegments 0 1 0 0 1 0 0 1 0 1 1 0 0 0 0 0 0 (chr 75));
    (Some 76, SixteenSegments 0 0 0 0 0 0 0 0 0 1 1 1 1 0 0 0 0 (chr 76));
    (Some 77, SixteenSegments 0 0 0 0 0 0 0 1 1 1 1 0 0 1 1 0 0 (chr 77));
    (Some 78, SixteenSegments 0 0 0 0 1 0 0 0 1 1 1 0 0 1 1 0 0 (chr 78));
    (Some 79, SixteenSegments 0 0 0 0 0 0 0 0 0 1 1 1 1 1 1 1 1 (chr 79));
    (Some 80, SixteenSegments 0 1 0 0 0 1 0 0 0 1 1 0 0 0 1 1 1 (chr 80));
    (Some 81, SixteenSegments 0 0 0 0 1 0 0 0 0 1 1 1 1 1 1 1 1 (chr 81));
    (Some 82, SixteenSegments 0 1 0 0 1 1 0 0 0 1 1 0 0 0 1 1 1 (chr 82));
    (Some 83, SixteenSegments 0 1 0 0 0 1 0 0 0 1 0 1 1 1 0 1 1 (chr 83));
    (Some 84, SixteenSegments 0 0 0 1 0 0 1 0 0 0 0 0 0 0 0 1 1 (chr 84));
    (Some 85, SixteenSegments 0 0 0 0 0 0 0 0 0 1 1 1 1 1 1 0 0 (chr 85));
    (Some 86, SixteenSegments 0 0 1 0 0 0 0 1 0 1 1 0 0 0 0 0 0 (chr 86));
    (Some 87, SixteenSegments 0 0 1 0 1 0 0 0 0 1 1 0 0 1 1 0 0 (chr 87));
    (Some 88, SixteenSegments 0 0 1 0 1 0 0 1 1 0 0 0 0 0 0 0 0 (chr 88));
    (Some 89, SixteenSegments 0 1 0 0 0 1 0 0 0 1 0 1 1 1 1 0 0 (chr 89));
    (Some 90, SixteenSegments 0 1 1 0 0 1 0 1 0 0 0 1 1 0 0 1 1 (chr 90));
    (Some 91, SixteenSegments 0 0 0 1 0 0 1 0 0 0 0 0 1 0 0 1 0 (chr 91));
    (Some 92, SixteenSegments 0 0 0 0 1 0 0 0 1 0 0 0 0 0 0 0 0 (chr 34));
    (Some 93, SixteenSegments 0 0 0 1 0 0 1 0 0 0 0 1 0 0 0 0 1 (chr 93));
    (Some 94, SixteenSegments 0 0 1 0 1 0 0 0 0 0 0 0 0 0 0 0 0 (chr 94));
    (Some 95, SixteenSegments 0 0 0 0 0 0 0 0 0 0 0 1 1 0 0 0 0 (chr 95));
    (Some 96, SixteenSegments 0 0 0 0 0 0 0 0 1 0 0 0 0 0 0 0 0 (chr 96));
    (Some 97, SixteenSegments 0 1 0 1 0 0 0 0 0 0 1 1 1 0 0 0 0 (chr 97));
    (Some 98, SixteenSegments 0 1 0 0 0 1 0 0 0 1 1 1 1 1 0 0 0 (chr 98));
    (Some 99, SixteenSegments 0 1 0 0 0 1 0 0 0 0 1 1 1 0 0 0 0 (chr 99));
    (Some 100, SixteenSegments 0 1 0 0 0 1 0 0 0 0 1 1 1 1 1 0 0 (chr 100));
    (Some 101, SixteenSegments 0 1 1 0 0 0 0 0 0 0 1 1 0 0 0 0 0 (chr 101));
    (Some 102, SixteenSegments 0 1 0 1 0 1 1 0 0 0 0 0 0 0 0 1 0 (chr 102));
    (Some 103, SixteenSegments 0 1 0 1 0 0 1 0 0 1 0 1 0 0 0 0 1 (chr 103));
    (Some 104, SixteenSegments 0 1 0 0 0 1 0 0 0 1 1 0 0 1 0 0 0 (chr 104));
    (Some 105, SixteenSegments 0 0 0 1 0 0 0 0 0 0 0 0 0 0 0 1 0 (chr 105));
    (Some 106, SixteenSegments 0 0 0 1 0 0 1 0 0 0 1 1 0 0 0 0 0 (chr 106));
    (Some 107, SixteenSegments 0 0 0 1 1 0 1 1 0 0 0 0 0 0 0 0 0 (chr 107));
    (Some 108, SixteenSegments 0 0 0 1 0 0 1 0 0 0 0 0 1 0 0 0 0 (chr 108));
    (Some 109, SixteenSegments 0 1 0 1 0 1 0 0 0 0 1 0 0 1 0 0 0 (chr 109));
    (Some 110, SixteenSegments 0 1 0 0 0 1 0 0 0 0 1 0 0 1 0 0 0 (chr 110));
    (Some 111, SixteenSegments 0 1 0 0 0 1 0 0 0 0 1 1 1 1 0 0 0 (chr 111));
    (Some 112, SixteenSegments 0 0 0 1 0 1 1 0 0 0 0 0 0 0 1 1 0 (chr 112));
    (Some 113, SixteenSegments 0 1 0 1 0 0 1 0 0 1 0 0 1 0 0 0 1 (chr 113));
    (Some 114, SixteenSegments 0 1 0 0 0 1 0 0 0 0 1 0 0 0 0 0 0 (chr 114));
    (Some 115, SixteenSegments 0 1 0 1 0 0 0 0 0 1 0 1 0 0 0 0 1 (chr 115));
    (Some 116, SixteenSegments 0 1 0 1 0 1 1 0 0 0 0 0 1 0 0 0 0 (chr 116));
    (Some 117, SixteenSegments 0 0 0 0 0 0 0 0 0 0 1 1 1 1 0 0 0 (chr 117));
    (Some 118, SixteenSegments 0 0 1 0 0 0 0 0 0 0 1 0 0 0 0 0 0 (chr 118));
    (Some 119, SixteenSegments 0 0 0 1 0 0 0 0 0 0 1 1 1 1 0 0 0 (chr 119));
    (Some 120, SixteenSegments 0 0 1 0 1 0 0 1 1 0 0 0 0 0 0 0 0 (chr 120));
    (Some 121, SixteenSegments 0 1 0 1 0 0 1 0 0 1 0 1 0 0 0 0 0 (chr 121));
    (Some 122, SixteenSegments 0 1 1 0 0 0 0 0 0 0 0 1 0 0 0 0 0 (chr 122));
    (Some 123, SixteenSegments 0 1 0 1 0 0 1 0 0 0 0 0 1 0 0 1 0 (chr 123));
    (Some 124, SixteenSegments 0 0 0 1 0 0 1 0 0 0 0 0 0 0 0 0 0 (chr 124));
    (Some 125, SixteenSegments 0 0 0 1 0 1 1 0 0 0 0 1 0 0 0 0 1 (chr 125));
    (Some 126, SixteenSegments 0 1 1 0 0 1 0 1 0 0 0 0 0 0 0 0 0 (chr 126));
    (Some 161, SixteenSegments 0 0 0 0 0 0 0 0 0 1 1 0 0 0 0 1 0 (chr 161));
    (Some 162, SixteenSegments 0 1 0 0 0 1 1 0 0 1 0 0 0 0 0 1 1 (chr 162));
    (Some 163, SixteenSegments 0 1 1 0 0 1 1 0 0 0 0 1 1 0 0 1 0 (chr 163));
    (Some 164, SixteenSegments 0 1 0 0 0 1 0 0 0 1 0 0 0 0 1 1 1 (chr 164));
    (Some 165, SixteenSegments 0 1 0 1 0 1 0 1 1 0 0 0 0 0 0 0 0 (chr 165));
    (Some 166, SixteenSegments 0 0 0 1 0 0 1 0 0 0 0 0 0 0 0 0 0 (chr 166));
    (Some 167, SixteenSegments 0 1 0 0 1 1 0 0 1 0 0 0 1 0 0 0 1 (chr 167));
    (Some 168, SixteenSegments 0 0 0 0 0 0 0 1 1 0 0 0 0 0 0 0 0 (chr 168));
    (Some 169, SixteenSegments 0 1 0 0 0 0 0 0 0 1 0 1 1 1 1 0 1 (chr 169));
    (Some 170, SixteenSegments 0 1 0 0 0 1 1 0 0 1 0 0 0 0 0 0 1 (chr 170));
    (Some 171, SixteenSegments 0 0 0 0 1 0 0 1 0 1 1 0 0 0 0 0 0 (chr 171));
    (Some 172, SixteenSegments 0 1 0 0 0 1 0 0 0 0 0 0 0 1 0 0 0 (chr 172));
    (Some 174, SixteenSegments 0 0 0 1 1 1 1 0 0 0 0 0 0 0 1 1 0 (chr 174));
    (Some 175, SixteenSegments 0 0 0 0 0 0 0 0 0 0 0 0 0 0 0 1 1 (chr 175));
    (Some 176, SixteenSegments 0 1 0 0 0 0 1 0 0 1 0 0 0 0 0 0 1 (chr 176));
    (Some 177, SixteenSegments 0 1 0 1 0 1 1 0 0 0 0 1 1 0 0 0 0 (chr 177));
    (Some 178, SixteenSegments 0 0 0 0 0 1 0 1 0 0 0 0 0 0 0 1 0 (chr 178));
    (Some 179, SixteenSegments 0 0 0 0 0 1 0 0 0 0 0 0 1 1 1 1 0 (chr 179));
    (Some 180, SixteenSegments 0 0 0 0 0 0 0 1 0 0 0 0 0 0 0 0 0 (chr 180));
    (Some 181, SixteenSegments 0 1 0 0 0 1 1 0 0 1 1 0 0 0 0 0 0 (chr 181));
    (Some 182, SixteenSegments 0 1 0 1 0 0 1 0 0 1 0 0 0 1 1 1 1 (chr 182));
    (Some 183, SixteenSegments 0 1 0 0 0 0 0 0 0 0 0 0 0 0 0 0 0 (chr 183));
    (Some 184, SixteenSegments 0 0 0 0 1 0 0 0 0 0 0 0 1 0 0 0 0 (chr 184));
    (Some 185, SixteenSegments 0 0 0 0 0 0 0 0 0 0 0 0 0 0 1 0 0 (chr 185));
    (Some 186, SixteenSegments 0 0 0 0 0 1 1 0 0 0 0 0 0 0 1 1 0 (chr 186));
    (Some 187, SixteenSegments 0 0 1 0 0 0 0 0 1 0 0 0 0 1 1 0 0 (chr 187));
    (Some 191, SixteenSegments 0 1 0 0 0 0 1 0 0 0 1 1 1 0 0 0 0 (chr 191));
    (Some 192, SixteenSegments 0 1 0 0 0 1 0 0 0 1 1 0 0 1 1 1 1 (chr 192));
    (Some 193, SixteenSegments 0 1 0 0 0 1 0 0 0 1 1 0 0 1 1 1 1 (chr 193));
    (Some 194, SixteenSegments 0 1 0 0 0 1 0 0 0 1 1 0 0 1 1 1 1 (chr 194));
    (Some 195, SixteenSegments 0 1 0 0 0 1 0 0 0 1 1 0 0 1 1 1 1 (chr 195));
    (Some 196, SixteenSegments 0 1 0 0 0 1 0 0 0 1 1 0 0 1 1 1 1 (chr 196));
    (Some 197, SixteenSegments 0 1 0 0 0 1 0 0 0 1 1 0 0 1 1 1 1 (chr 197));
    (Some 198, SixteenSegments 0 1 0 1 0 1 1 0 0 1 1 0 1 0 0 1 1 (chr 198));
    (Some 199, SixteenSegments 0 0 0 1 0 0 0 0 0 1 1 1 1 0 0 1 1 (chr 199));
    (Some 200, SixteenSegments 0 1 0 0 0 0 0 0 0 1 1 1 1 0 0 1 1 (chr 200));
    (Some 201, SixteenSegments 0 1 0 0 0 0 0 0 0 1 1 1 1 0 0 1 1 (chr 201));
    (Some 202, SixteenSegments 0 1 0 0 0 0 0 0 0 1 1 1 1 0 0 1 1 (chr 202));
    (Some 203, SixteenSegments 0 1 0 0 0 0 0 0 0 1 1 1 1 0 0 1 1 (chr 203));
    (Some 204, SixteenSegments 0 0 0 1 0 0 1 0 0 0 0 1 1 0 0 1 1 (chr 204));
    (Some 205, SixteenSegments 0 0 0 1 0 0 1 0 0 0 0 1 1 0 0 1 1 (chr 205));
    (Some 206, SixteenSegments 0 0 0 1 0 0 1 0 0 0 0 1 1 0 0 1 1 (chr 206));
    (Some 207, SixteenSegments 0 0 0 1 0 0 1 0 0 0 0 1 1 0 0 1 1 (chr 207));
    (Some 208, SixteenSegments 0 1 0 1 0 0 1 0 0 0 0 1 1 1 1 1 1 (chr 208));
    (Some 209, SixteenSegments 0 0 0 0 1 0 0 0 1 1 1 0 0 1 1 0 0 (chr 209));
    (Some 210, SixteenSegments 0 0 0 0 0 0 0 0 0 1 1 1 1 1 1 1 1 (chr 210));
    (Some 211, SixteenSegments 0 0 0 0 0 0 0 0 0 1 1 1 1 1 1 1 1 (chr 211));
    (Some 212, SixteenSegments 0 0 0 0 0 0 0 0 0 1 1 1 1 1 1 1 1 (chr 212));
    (Some 213, SixteenSegments 0 0 0 0 0 0 0 0 0 1 1 1 1 1 1 1 1 (chr 213));
    (Some 214, SixteenSegments 0 0 0 0 0 0 0 0 0 1 1 1 1 1 1 1 1 (chr 214));
    (Some 215, SixteenSegments 0 0 1 0 1 0 0 1 1 0 0 0 0 0 0 0 0 (chr 215));
    (Some 216, SixteenSegments 0 0 0 1 0 0 1 0 0 1 1 1 1 1 1 1 1 (chr 216));
    (Some 217, SixteenSegments 0 0 0 0 0 0 0 0 0 1 1 1 1 1 1 0 0 (chr 217));
    (Some 218, SixteenSegments 0 0 0 0 0 0 0 0 0 1 1 1 1 1 1 0 0 (chr 218));
    (Some 219, SixteenSegments 0 0 0 0 0 0 0 0 0 1 1 1 1 1 1 0 0 (chr 219));
    (Some 220, SixteenSegments 0 0 0 0 0 0 0 0 0 1 1 1 1 1 1 0 0 (chr 220));
    (Some 221, SixteenSegments 0 1 0 0 0 1 0 0 0 1 0 1 1 1 1 0 0 (chr 221));
    (Some 222, SixteenSegments 0 1 0 1 0 1 1 0 0 0 0 0 0 0 1 1 1 (chr 222));
    (Some 223, SixteenSegments 0 1 0 0 1 0 1 0 0 1 1 0 1 0 0 0 1 (chr 223));
    (Some 224, SixteenSegments 0 1 0 1 0 0 0 0 1 0 1 1 1 0 0 0 0 (chr 224));
    (Some 225, SixteenSegments 0 1 0 1 0 0 0 1 0 0 1 1 1 0 0 0 0 (chr 225));
    (Some 226, SixteenSegments 0 1 0 1 0 0 0 1 0 0 1 1 1 0 1 0 0 (chr 226));
    (Some 227, SixteenSegments 0 1 0 1 0 0 0 0 0 0 1 1 1 0 0 1 1 (chr 227));
    (Some 228, SixteenSegments 0 1 0 1 0 0 0 1 1 0 1 1 1 0 0 0 0 (chr 228));
    (Some 229, SixteenSegments 0 1 0 1 0 1 1 0 0 0 1 1 1 0 1 1 0 (chr 229));
    (Some 230, SixteenSegments 0 1 0 1 0 1 1 0 0 0 1 1 1 0 0 1 0 (chr 230));
    (Some 231, SixteenSegments 0 1 0 0 1 1 0 0 0 1 0 0 1 0 0 1 1 (chr 231));
    (Some 232, SixteenSegments 0 1 1 0 0 0 0 0 1 0 1 1 0 0 0 0 0 (chr 232));
    (Some 233, SixteenSegments 0 1 1 0 0 0 0 1 0 0 1 1 0 0 0 0 0 (chr 233));
    (Some 234, SixteenSegments 0 1 1 0 0 0 0 1 0 0 1 1 0 0 1 0 0 (chr 234));
    (Some 235, SixteenSegments 0 1 1 0 0 0 0 1 1 0 1 1 0 0 0 0 0 (chr 235));
    (Some 236, SixteenSegments 0 0 0 1 0 0 0 0 1 0 0 0 0 0 0 0 0 (chr 236));
    (Some 237, SixteenSegments 0 0 0 1 0 0 0 1 0 0 0 0 0 0 0 0 0 (chr 237));
    (Some 238, SixteenSegments 0 0 0 1 0 0 0 1 0 0 0 0 0 0 1 0 0 (chr 238));
    (Some 239, SixteenSegments 0 0 0 1 0 0 0 1 1 0 0 0 0 0 0 0 0 (chr 239));
    (Some 240, SixteenSegments 0 1 0 1 0 0 1 1 0 0 1 1 0 0 0 0 0 (chr 240));
    (Some 241, SixteenSegments 0 1 0 0 0 1 0 0 0 0 1 0 0 1 0 1 1 (chr 241));
    (Some 242, SixteenSegments 0 1 0 0 0 1 0 0 1 0 1 1 1 1 0 0 0 (chr 242));
    (Some 243, SixteenSegments 0 1 0 0 0 1 0 1 0 0 1 1 1 1 0 0 0 (chr 243));
    (Some 244, SixteenSegments 0 1 0 0 0 1 0 1 0 0 1 1 1 1 1 0 0 (chr 244));
    (Some 245, SixteenSegments 0 1 0 0 0 1 0 0 0 0 1 1 1 1 0 1 1 (chr 245));
    (Some 246, SixteenSegments 0 1 0 0 0 1 0 1 1 0 1 1 1 1 0 0 0 (chr 246));
    (Some 247, SixteenSegments 0 1 0 0 0 1 0 0 0 0 0 0 1 0 0 0 1 (chr 247));
    (Some 248, SixteenSegments 0 1 0 1 0 1 0 0 0 0 1 1 1 1 0 0 0 (chr 248));
    (Some 249, SixteenSegments 0 0 0 0 0 0 0 0 1 0 1 1 1 1 0 0 0 (chr 249));
    (Some 250, SixteenSegments 0 0 0 0 0 0 0 1 0 0 1 1 1 1 0 0 0 (chr 250));
    (Some 251, SixteenSegments 0 0 0 0 0 0 0 1 0 0 1 1 1 1 1 0 0 (chr 251));
    (Some 252, SixteenSegments 0 0 0 0 0 0 0 1 1 0 1 1 1 1 0 0 0 (chr 252));
    (Some 253, SixteenSegments 0 1 0 1 0 0 1 0 0 1 0 1 0 0 0 0 0 (chr 253));
    (Some 254, SixteenSegments 0 1 0 1 0 1 1 0 0 0 0 1 1 1 0 0 0 (chr 254));
    (Some 255, SixteenSegments 0 1 0 1 0 0 1 0 0 1 0 1 0 0 0 0 0 (chr 255))
  ]%Z.

(** The Ascii table starts from its [None] entry, [ord(" ")] being 32, and
    is filled by the loop over [range(128)]. *)
Definition ASCII_SEGMENTS : gmap (option Z) Segment :=
  foldl (fun d i => <[Some i := AsciiSegment 0 i (chr i)]> d)
        {[None := AsciiSegment 0 32 (chr 32)]}
        (seqZ 0 128).

(** ** TextToSegmentMapper *)

(** [segment_mapping[key]] *)
Definition dict_getitem (segment_mapping : gmap (option Z) Segment) (key : option Z)
  : result Segment :=
  match segment_mapping !! key with
  | Some v => Ok v
  | None => Raise KeyError
  end.

(** [segment_mapping.get(code, segment_mapping[None])]: the default is an
    argument of the call, so the [None] entry is read first. *)
Definition lookup_segment (segment_mapping : gmap (option Z) Segment) (code : Z)
  : result Segment :=
  fallback ← dict_getitem segment_mapping None;
  Ok (default fallback (segment_mapping !! Some code)).

(** [ord(" ")] and [ord(".")] *)
Definition SPACE : Z := 32.
Definition PERIOD : Z := 46.

(** The two statements that end each of the three mapper methods. First
    [if display_width < len(segments): segments = segments[-display_width:]]. *)
Definition remove_leading {A} (display_width : Z) (segments : list A) : list A :=
  if display_width <? len segments
  then slice_from segments (- display_width)
  else segments.

(** Then [while display_width > len(segments): segments.insert(0, space)],
    where the expression [space] is evaluated at each turn of the loop. *)
Fixpoint prepend_spaces {A} (fuel : nat) (display_width : Z) (space : result A)
    (segments : list A) : result (list A) :=
  if len segments <? display_width then
    match fuel with
    | O => OutOfFuel
    | S fuel =>
        sp ← space;
        prepend_spaces fuel display_width space (sp :: segments)
    end
  else Ok segments.

Definition fit_width {A} (display_width : Z) (space : result A) (segments : list A)
  : result (list A) :=
  prepend_spaces (Z.to_nat display_width) display_width space
                 (remove_leading display_width segments).

(** One character of a [SegmentDisplayText]: its code, its dot and its
    color. Colors come from [mpf.core.rgb_color]. *)
Record Cell (Color : Type) := { char_code : Z; dot : bool; color : Color }.
Arguments Build_Cell {Color} _ _ _.
Arguments char_code {Color} _.
Arguments dot {Color} _.
Arguments color {Color} _.

Section TextToSegmentMapper.

Context {Color : Type}.

(** The [for char in text] loop of [map_segment_text_to_segments]. *)
Fixpoint for_char_in (text : list (Cell Color))
    (segment_mapping : gmap (option Z) Segment) (segments : list Segment)
  : result (list Segment) :=
  match text with
  | [] => Ok segments
  | char :: text =>
      mapping ← lookup_segment segment_mapping (char_code char);
      mapping ← (if dot char then copy_with_dp_on mapping else Ok mapping);
      for_char_in text segment_mapping (segments ++ [mapping])
  end.

Definition map_segment_text_to_segments (text : list (Cell Color)) (display_width : Z)
    (segment_mapping : gmap (option Z) Segment) : result (list Segment) :=
  segments ← for_char_in text segment_mapping [];
  fit_width display_width (lookup_segment segment_mapping SPACE) segments.

(** [white] stands for [NAMED_RGB_COLORS["white"]]. *)
Variable white : Color.

(** The [for char in text] loop of [map_segment_text_to_segments_with_color]. *)
Fixpoint for_char_in_with_color (text : list (Cell Color))
    (segment_mapping : gmap (option Z) Segment) (segments : list (Segment * Color))
  : result (list (Segment * Color)) :=
  match text with
  | [] => Ok segments
  | char :: text =>
      mapping ← lookup_segment segment_mapping (char_code char);
      mapping ← (if dot char then copy_with_dp_on mapping else Ok mapping);
      for_char_in_with_color text segment_mapping (segments ++ [(mapping, color char)])
  end.

Definition map_segment_text_to_segments_with_color (text : list (Cell Color))
    (display_width : Z) (segment_mapping : gmap (option Z) Segment)
  : result (list (Segment * Color)) :=
  segments ← for_char_in_with_color text segment_mapping [];
  fit_width display_width
            (sp ← lookup_segment segment_mapping SPACE; Ok (sp, white))
            segments.

End TextToSegmentMapper.

(** One turn of the [while text_position < len(text)] loop of
    [map_text_to_segments], on the loop state [(text_position, segments)]. *)
Definition scan_char (text : str) (segment_mapping : gmap (option Z) Segment)
    (embed_dots : bool) (st : nat * list Segment) : result (nat * list Segment) :=
  let '(text_position, segments) := st in
  char ← getitem text text_position;
  let text_position := S text_position in
  mapping ← lookup_segment segment_mapping char;
  if embed_dots && negb (truthy (dp mapping)) then
    let next_char := default SPACE (text !! text_position) in
    if next_char =? PERIOD then
      mapping ← copy_with_dp_on mapping;
      let text_position := S text_position in
      Ok (text_position, segments ++ [mapping])
    else Ok (text_position, segments ++ [mapping])
  else Ok (text_position, segments ++ [mapping]).

Fixpoint scan_text (fuel : nat) (text : str) (segment_mapping : gmap (option Z) Segment)
    (embed_dots : bool) (st : nat * list Segment) : result (nat * list Segment) :=
  if (st.1 <? length text)%nat then
    match fuel with
    | O => OutOfFuel
    | S fuel =>
        st ← scan_char text segment_mapping embed_dots st;
        scan_text fuel text segment_mapping embed_dots st
    end
  else Ok st.

Definition map_text_to_segments (text : str) (display_width : Z)
    (segment_mapping : gmap (option Z) Segment) (embed_dots : bool)
  : result (list Segment) :=
  st ← scan_text (length text) text segment_mapping embed_dots (0%nat, []);
  fit_width display_width (lookup_segment segment_mapping SPACE) st.2.

(** [copy_with_dp_on] on objects held in a heap: the object at [self] is
    read, and the copy is a new object behind the existing ones. *)
Definition copy_with_dp_on_ref (heap : list Segment) (self : nat)
  : result (list Segment * nat) :=
  obj ← getitem heap self;
  new_segment ← copy_with_dp_on obj;
  Ok (heap ++ [new_segment], length heap).

(** ** Reference definitions used in the statements *)

(** [with_dot_on value]: the value with its dot forced on and every other
    field kept, as the specification words the copy. *)
Definition with_dot_on (value : Segment) : Segment :=
  match value with
  | BcdSegments _ x3 x2 x1 x0 char => BcdSegments 1 x3 x2 x1 x0 char
  | SevenSegments _ g f e d c b a char => SevenSegments 1 g f e d c b a char
  | EightSegments _ h g f e d c b a char => EightSegments 1 h g f e d c b a char
  | FourteenSegments _ l m n k j h g2 g1 f e d c b a char =>
      FourteenSegments 1 l m n k j h g2 g1 f e d c b a char
  | SixteenSegments _ u t s r p m n k h g f e d c b a char =>
      SixteenSegments 1 u t s r p m n k h g f e d c b a char
  | AsciiSegment _ ascii_value char => AsciiSegment 1 ascii_value char
  end.

(** What one iteration of the cell loops appends, on a table whose [None]
    entry is [fallback]. *)
Definition cell_segment {Color : Type} (segment_mapping : gmap (option Z) Segment)
    (fallback : Segment) (char : Cell Color) : Segment :=
  let mapping := default fallback (segment_mapping !! Some (char_code char)) in
  if dot char then with_dot_on mapping else mapping.

(** The entry put in front by the padding loop. *)
Definition space_segment_of (segment_mapping : gmap (option Z) Segment)
    (fallback : Segment) : Segment :=
  default fallback (segment_mapping !! Some SPACE).

(** The bits of a byte, from bit 7 down to bit 0. *)
Definition bits_7_to_0 (byte : Z) : list bool :=
  map (Z.testbit byte) [7; 6; 5; 4; 3; 2; 1; 0].

(** A segment flag is the int 0 or 1; [lit] reads it as a bit. *)
Definition is_flag (x : Z) : Prop := x = 0 \/ x = 1.
Definition lit (x : Z) : bool := x =? 1.

(** The per-character result of the text loop, by recursion on the text:
    with [embed_dots] on, a period that follows a character whose entry has
    its dot off is merged into that character. *)
Fixpoint text_cells (segment_mapping : gmap (option Z) Segment) (fallback : Segment)
    (embed_dots : bool) (text : str) : list Segment :=
  match text with
  | [] => []
  | c :: rest =>
      let mapping := default fallback (segment_mapping !! Some c) in
      if embed_dots && negb (truthy (dp mapping)) then
        match rest with
        | next :: rest' =>
            if next =? PERIOD
            then with_dot_on mapping :: text_cells segment_mapping fallback embed_dots rest'
            else mapping :: text_cells segment_mapping fallback embed_dots rest
        | [] => [mapping]
        end
      else mapping :: text_cells segment_mapping fallback embed_dots rest
  end.

(** The int slots of a segment object, the dot first. *)
Definition flags (self : Segment) : list Z :=
  match self with
  | BcdSegments dp x3 x2 x1 x0 _ => [dp; x3; x2; x1; x0]
  | SevenSegments dp g f e d c b a _ => [dp; g; f; e; d; c; b; a]
  | EightSegments dp h g f e d c b a _ => [dp; h; g; f; e; d; c; b; a]
  | FourteenSegments dp l m n k j h g2 g1 f e d c b a _ =>
      [dp; l; m; n; k; j; h; g2; g1; f; e; d; c; b; a]
  | SixteenSegments dp u t s r p m n k h g f e d c b a _ =>
      [dp; u; t; s; r; p; m; n; k; h; g; f; e; d; c; b; a]
  | AsciiSegment dp ascii_value _ => [dp; ascii_value]
  end.

(** Checks used on whole tables: every int slot is 0 or 1; the object is
    of class [cls]; the label is the one expected at the key. *)
Definition flag_valued (self : Segment) : bool :=
  forallb (fun x => (x =? 0) || (x =? 1)) (flags self).

Definition of_class (cls : class) (self : Segment) : bool :=
  match cls, class_of self with
  | CBcd, CBcd | CSeven, CSeven | CEight, CEight
  | CFourteen, CFourteen | CSixteen, CSixteen | CAscii, CAscii => true
  | _, _ => false
  end.

Definition label_ok (label : Z -> str) (key : option Z) (self : Segment) : bool :=
  match key with
  | Some code => bool_decide (char self = label code)
  | None => true
  end.

(** [x] is an entry of the table or such an entry with its dot turned on. *)
Definition from_table (segment_mapping : gmap (option Z) Segment) (x : Segment) : Prop :=
  exists key entry,
    segment_mapping !! key = Some entry /\ (x = entry \/ copy_with_dp_on entry = Ok x).

(** [encoder] returns [n] bytes on [self]. *)
Definition encodes_to (n : nat) (encoder : Segment -> result (list Z)) (self : Segment)
  : Prop :=
  exists bytes, encoder self = Ok bytes /\ length bytes = n
                /\ Forall (fun byte => 0 <= byte < 256) bytes.

(** The check run on every entry of a table of class [cls]. *)
Definition entry_ok (cls : class) (key : option Z) (self : Segment) : bool :=
  of_class cls self && flag_valued self.

(** The label expected at a key of the tables taken from the segment font:
    the character of the key, except at key 92. *)
Definition font_label (code : Z) : str := if code =? 92 then chr 34 else chr code.

(** ** Properties *)

Lemma copy_with_dp_on_eq (self : Segment) :
  copy_with_dp_on self = Ok (with_dot_on self).
Proof. destruct self; vm_compute; reflexivity. Qed.

(** *** Slices and the width post-step *)

Lemma bind_Ok {A B} (k : A -> result B) (a : A) : (Ok a ≫= k) = k a.
Proof. reflexivity. Qed.

Lemma slice_from_last {A} (seq : list A) (n : Z) :
  0 < n <= len seq ->
  slice_from seq (- n) = drop (length seq - Z.to_nat n) seq.
Proof.
  intros Hn. unfold slice_from, len in *.
  destruct (Z.ltb_spec (- n) 0) as [_|Hge]; [|lia].
  f_equal. lia.
Qed.

Lemma slice_from_zero {A} (seq : list A) : slice_from seq (- 0) = seq.
Proof. reflexivity. Qed.

Lemma remove_leading_long {A} (display_width : Z) (segments : list A) :
  0 < display_width < len segments ->
  remove_leading display_width segments
  = drop (length segments - Z.to_nat display_width) segments.
Proof.
  intros Hw. unfold remove_leading.
  destruct (Z.ltb_spec display_width (len segments)) as [_|Hge]; [|lia].
  apply slice_from_last. lia.
Qed.

Lemma remove_leading_short {A} (display_width : Z) (segments : list A) :
  len segments <= display_width ->
  remove_leading display_width segments = segments.
Proof.
  intros Hw. unfold remove_leading.
  destruct (Z.ltb_spec display_width (len segments)) as [Hlt|_]; [lia|reflexivity].
Qed.

Lemma remove_leading_zero {A} (segments : list A) :
  remove_leading 0 segments = segments.
Proof.
  unfold remove_leading. destruct (0 <? len segments); reflexivity.
Qed.

Lemma replicate_snoc_cons {A} (n : nat) (x : A) (l : list A) :
  replicate n x ++ x :: l = x :: replicate n x ++ l.
Proof. induction n as [|n IH]; simpl; [reflexivity|]. now rewrite IH. Qed.

Lemma prepend_spaces_done {A} fuel (display_width : Z) (space : result A)
    (segments : list A) :
  display_width <= len segments ->
  prepend_spaces fuel display_width space segments = Ok segments.
Proof.
  intros Hw.
  destruct fuel; simpl;
    (destruct (Z.ltb_spec (len segments) display_width); [lia|reflexivity]).
Qed.

Lemma prepend_spaces_fill {A} fuel (display_width : Z) (space : result A) (sp : A)
    (segments : list A) :
  space = Ok sp ->
  (Z.to_nat (display_width - len segments) <= fuel)%nat ->
  prepend_spaces fuel display_width space segments
  = Ok (replicate (Z.to_nat (display_width - len segments)) sp ++ segments).
Proof.
  intros ->. revert segments.
  induction fuel as [|fuel IH]; intros segments Hfuel.
  - rewrite prepend_spaces_done by lia.
    now replace (Z.to_nat (display_width - len segments)) with 0%nat by lia.
  - simpl. destruct (Z.ltb_spec (len segments) display_width) as [Hlt|Hge].
    + rewrite IH by (unfold len in *; simpl length; lia).
      f_equal. unfold len in *. simpl length.
      replace (Z.to_nat (display_width - Z.of_nat (length segments)))
        with (S (Z.to_nat (display_width - Z.of_nat (S (length segments))))) by lia.
      simpl. now rewrite replicate_snoc_cons.
    + now replace (Z.to_nat (display_width - len segments)) with 0%nat by lia.
Qed.

(** Longer than the width: the trailing [display_width] elements remain. *)
Lemma fit_width_long {A} (display_width : Z) (space : result A) (segments : list A) :
  0 < display_width < len segments ->
  fit_width display_width space segments
  = Ok (drop (length segments - Z.to_nat display_width) segments).
Proof.
  intros Hw. unfold fit_width. rewrite remove_leading_long by assumption.
  apply prepend_spaces_done. unfold len in *. rewrite length_drop. lia.
Qed.

(** Shorter than the width: spaces are put in front. *)
Lemma fit_width_short {A} (display_width : Z) (space : result A) (sp : A)
    (segments : list A) :
  space = Ok sp ->
  len segments < display_width ->
  fit_width display_width space segments
  = Ok (replicate (Z.to_nat display_width - length segments) sp ++ segments).
Proof.
  intros Hsp Hw. unfold fit_width. rewrite remove_leading_short by lia.
  rewrite (prepend_spaces_fill _ _ _ sp) by (assumption || (unfold len in *; lia)).
  unfold len in *.
  now replace (Z.to_nat (display_width - Z.of_nat (length segments)))
    with (Z.to_nat display_width - length segments)%nat by lia.
Qed.

Lemma fit_width_same {A} (display_width : Z) (space : result A) (segments : list A) :
  len segments = display_width ->
  fit_width display_width space segments = Ok segments.
Proof.
  intros Hw. unfold fit_width. rewrite remove_leading_short by lia.
  apply prepend_spaces_done. lia.
Qed.

(** Width 0: the slice [segments[-0:]] is the whole list, so nothing is
    removed, whatever the length. *)
Lemma fit_width_zero {A} (space : result A) (segments : list A) :
  fit_width 0 space segments = Ok segments.
Proof.
  unfold fit_width. rewrite remove_leading_zero.
  apply prepend_spaces_done. unfold len. lia.
Qed.

(** For a positive width the result has exactly [display_width] elements. *)
Lemma fit_width_length {A} (display_width : Z) (space : result A) (sp : A)
    (segments : list A) :
  space = Ok sp ->
  0 < display_width ->
  exists out, fit_width display_width space segments = Ok out
              /\ len out = display_width.
Proof.
  intros Hsp Hw.
  destruct (Z.lt_trichotomy (len segments) display_width) as [Hlt|[Heq|Hgt]].
  - eexists. split; [apply (fit_width_short _ _ sp); assumption|].
    unfold len in *. rewrite length_app, length_replicate. lia.
  - eexists. split; [apply fit_width_same; assumption|assumption].
  - eexists. split; [apply fit_width_long; lia|].
    unfold len in *. rewrite length_drop. lia.
Qed.

(** *** Table lookup *)

Lemma lookup_segment_fallback (segment_mapping : gmap (option Z) Segment)
    (fallback : Segment) (code : Z) :
  segment_mapping !! None = Some fallback ->
  lookup_segment segment_mapping code
  = Ok (default fallback (segment_mapping !! Some code)).
Proof.
  intros Hfb. unfold lookup_segment, dict_getitem. now rewrite Hfb.
Qed.

(** Without the [None] entry the lookup raises, also for a mapped code. *)
Lemma lookup_segment_no_fallback (segment_mapping : gmap (option Z) Segment) (code : Z) :
  segment_mapping !! None = None ->
  lookup_segment segment_mapping code = Raise KeyError.
Proof.
  intros Hfb. unfold lookup_segment, dict_getitem. now rewrite Hfb.
Qed.

Lemma tables_have_fallback :
  BCD_SEGMENTS !! None = Some (BcdSegments 0 0 0 0 0 (chr 63))
  /\ SEVEN_SEGMENTS !! None = Some (SevenSegments 0 0 0 0 0 0 0 0 (chr 63))
  /\ EIGHT_SEGMENTS !! None = Some (EightSegments 0 0 0 0 0 0 0 0 0 (chr 63))
  /\ FOURTEEN_SEGMENTS !! None
     = Some (FourteenSegments 0 0 0 0 0 0 0 0 0 0 0 0 0 0 0 (chr 63))
  /\ SIXTEEN_SEGMENTS !! None
     = Some (SixteenSegments 0 0 0 0 0 0 0 0 0 0 0 0 0 0 0 0 0 (chr 63))
  /\ ASCII_SEGMENTS !! None = Some (AsciiSegment 0 32 (chr 32)).
Proof. repeat split; vm_compute; reflexivity. Qed.

(** *** The per-character loops *)

Section Loops.

Context {Color : Type}.
Variable segment_mapping : gmap (option Z) Segment.
Variable fallback : Segment.
Hypothesis Hfallback : segment_mapping !! None = Some fallback.

Lemma cell_step {B} (char : Cell Color) (k : Segment -> result B) :
  (mapping ← lookup_segment segment_mapping (char_code char);
   mapping ← (if dot char then copy_with_dp_on mapping else Ok mapping);
   k mapping)
  = k (cell_segment segment_mapping fallback char).
Proof using Hfallback.
  rewrite (lookup_segment_fallback _ fallback), bind_Ok by assumption.
  unfold cell_segment.
  destruct (dot char); [rewrite copy_with_dp_on_eq|]; reflexivity.
Qed.

Lemma for_char_in_eq (text : list (Cell Color)) (segments : list Segment) :
  for_char_in text segment_mapping segments
  = Ok (segments ++ map (cell_segment segment_mapping fallback) text).
Proof using Hfallback.
  revert segments. induction text as [|char text IH]; intros segments.
  - simpl. now rewrite app_nil_r.
  - cbn [for_char_in map]. rewrite cell_step, IH, <- app_assoc. reflexivity.
Qed.

Lemma for_char_in_with_color_eq (text : list (Cell Color))
    (segments : list (Segment * Color)) :
  for_char_in_with_color text segment_mapping segments
  = Ok (segments
        ++ map (fun char => (cell_segment segment_mapping fallback char, color char))
               text).
Proof using Hfallback.
  revert segments. induction text as [|char text IH]; intros segments.
  - simpl. now rewrite app_nil_r.
  - cbn [for_char_in_with_color map].
    rewrite cell_step, IH, <- app_assoc. reflexivity.
Qed.

(** One turn of the text loop succeeds, appends one segment and moves
    the cursor forward. *)
Lemma scan_char_progress (text : str) (embed_dots : bool) (pos : nat)
    (segments : list Segment) :
  (pos < length text)%nat ->
  exists pos' mapping,
    scan_char text segment_mapping embed_dots (pos, segments)
    = Ok (pos', segments ++ [mapping])
    /\ (pos < pos')%nat.
Proof using Hfallback.
  intros Hpos. destruct (lookup_lt_is_Some_2 text pos Hpos) as [c Hc].
  unfold scan_char, getitem. rewrite Hc. simpl.
  rewrite (lookup_segment_fallback _ fallback) by assumption. simpl.
  destruct (embed_dots && negb (truthy (dp _))).
  - destruct (_ =? PERIOD).
    + rewrite copy_with_dp_on_eq. simpl. do 2 eexists. split; [reflexivity|lia].
    + do 2 eexists. split; [reflexivity|lia].
  - do 2 eexists. split; [reflexivity|lia].
Qed.

(** The text loop ends within [len(text)] turns. *)
Lemma scan_text_total (fuel : nat) (text : str) (embed_dots : bool) (pos : nat)
    (segments : list Segment) :
  (length text - pos <= fuel)%nat ->
  exists pos' segments',
    scan_text fuel text segment_mapping embed_dots (pos, segments)
    = Ok (pos', segments').
Proof using Hfallback.
  revert pos segments. induction fuel as [|fuel IH]; intros pos segments Hfuel.
  - simpl. destruct (Nat.ltb_spec pos (length text)); [lia|]. eauto.
  - cbn [scan_text fst].
    destruct (Nat.ltb_spec pos (length text)) as [Hlt|Hge]; [|eauto].
    destruct (scan_char_progress text embed_dots pos segments Hlt)
      as (pos' & mapping & -> & Hpos').
    rewrite bind_Ok. apply IH. lia.
Qed.

End Loops.

(** *** Copy and equality of segments *)

Lemma attrs_with_dot_on (self : Segment) :
  attrs (with_dot_on self) = <["dp" := VInt 1]> (attrs self).
Proof.
  destruct self; unfold with_dot_on, attrs;
    rewrite !(list_to_map_cons _ "dp"), insert_insert_eq; reflexivity.
Qed.

Lemma dp_with_dot_on (self : Segment) : dp (with_dot_on self) = 1.
Proof. destruct self; reflexivity. Qed.

Lemma with_dot_on_idemp (self : Segment) :
  with_dot_on (with_dot_on self) = with_dot_on self.
Proof. destruct self; reflexivity. Qed.

(** Reads the attribute [name] on both sides of an equation between two
    attribute dictionaries. *)
Ltac read_attr H name :=
  let Hname := fresh "Hattr" in
  pose proof (f_equal (fun d : gmap string val => d !! name) H) as Hname;
  vm_compute in Hname.

Ltac read_all_attrs H :=
  read_attr H "dp"%string; read_attr H "char"%string;
  read_attr H "x3"%string; read_attr H "x2"%string; read_attr H "x1"%string;
  read_attr H "x0"%string; read_attr H "a"%string; read_attr H "b"%string;
  read_attr H "c"%string; read_attr H "d"%string; read_attr H "e"%string;
  read_attr H "f"%string; read_attr H "g"%string; read_attr H "h"%string;
  read_attr H "g1"%string; read_attr H "g2"%string; read_attr H "j"%string;
  read_attr H "k"%string; read_attr H "l"%string; read_attr H "m"%string;
  read_attr H "n"%string; read_attr H "p"%string; read_attr H "r"%string;
  read_attr H "s"%string; read_attr H "t"%string; read_attr H "u"%string;
  read_attr H "ascii_value"%string.

Lemma attrs_inj (self other : Segment) : attrs self = attrs other -> self = other.
Proof.
  intros H. destruct self, other; read_all_attrs H; clear H; simplify_eq; reflexivity.
Qed.

Lemma eq_iff_same (self other : Segment) : __eq__ self other = true <-> self = other.
Proof.
  unfold __eq__. rewrite bool_decide_eq_true. split.
  - apply attrs_inj.
  - now intros ->.
Qed.

(** *** Claims on segment values *)

(** C5 — For every segment value [v], [copy_with_dp_on] returns a new value
    whose dot flag is on (the int 1) and whose class and every other
    attribute are those of [v]; the object [v] is still in place, unchanged,
    after the call, which only adds the copy as a new object; and the copy
    of the copy is the copy again. *)
Theorem C5_copy_with_dp_on (v : Segment) :
  exists v',
    copy_with_dp_on v = Ok v'
    /\ dp v' = 1
    /\ class_of v' = class_of v
    /\ (forall name : string, name <> "dp"%string -> attrs v' !! name = attrs v !! name)
    /\ copy_with_dp_on v' = Ok v'
    /\ (forall (heap : list Segment) (self : nat),
          heap !! self = Some v ->
          copy_with_dp_on_ref heap self = Ok (heap ++ [v'], length heap)
          /\ (heap ++ [v']) !! self = Some v
          /\ (forall i obj, heap !! i = Some obj -> (heap ++ [v']) !! i = Some obj)).
Proof.
  exists (with_dot_on v). repeat split.
  - apply copy_with_dp_on_eq.
  - apply dp_with_dot_on.
  - destruct v; reflexivity.
  - intros name Hname. rewrite attrs_with_dot_on. now apply lookup_insert_ne.
  - rewrite copy_with_dp_on_eq. now rewrite with_dot_on_idemp.
  - unfold copy_with_dp_on_ref, getitem. rewrite H. simpl.
    now rewrite copy_with_dp_on_eq.
  - now apply lookup_app_l_Some.
  - intros i obj Hi. now apply lookup_app_l_Some.
Qed.

(** The theorem above used on the Seven-segment entry of the digit one,
    held as object 0 of a one-object heap. *)
Lemma C5_copy_with_dp_on_witness :
  let one := SevenSegments 0 0 0 0 0 1 1 0 (chr 49) in
  copy_with_dp_on_ref [one] 0 = Ok ([one; SevenSegments 1 0 0 0 0 1 1 0 (chr 49)], 1%nat).
Proof.
  intros one.
  destruct (C5_copy_with_dp_on one) as (v' & Hcopy & _ & _ & _ & _ & Hheap).
  destruct (Hheap [one] 0%nat eq_refl) as (Hret & _ & _).
  rewrite Hret. vm_compute in Hcopy. injection Hcopy as <-. reflexivity.
Defined.

(** C9 — Two segment values compare equal exactly when they are the same
    value, field by field and of the same class; the label is part of the
    comparison, so values with the same flags and different labels are not
    equal. *)
Theorem C9_eq_is_structural (self other : Segment) :
  (__eq__ self other = true <-> self = other)
  /\ (char self <> char other -> __eq__ self other = false).
Proof.
  split; [apply eq_iff_same|].
  intros Hchar. apply not_true_is_false. rewrite eq_iff_same. congruence.
Qed.

(** The Seven-segment entries of [U] and [V] light the same segments and
    differ only in their label. *)
Lemma C9_eq_is_structural_witness :
  __eq__ (SevenSegments 0 0 1 1 1 1 1 0 (chr 85)) (SevenSegments 0 0 1 1 1 1 1 0 (chr 86))
  = false.
Proof.
  apply (proj2 (C9_eq_is_structural _ _)). discriminate.
Defined.

(** *** Claims on lookup and the tables *)

(** C4 — On a table that has its [None] entry, the lookup of any character
    code succeeds: it returns the entry of the code when the code is a key,
    and the [None] entry otherwise. *)
Theorem C4_lookup_total (segment_mapping : gmap (option Z) Segment)
    (fallback : Segment) (code : Z) :
  segment_mapping !! None = Some fallback ->
  exists v,
    lookup_segment segment_mapping code = Ok v
    /\ (forall entry, segment_mapping !! Some code = Some entry -> v = entry)
    /\ (segment_mapping !! Some code = None -> v = fallback).
Proof.
  intros Hfb. exists (default fallback (segment_mapping !! Some code)).
  split; [now apply lookup_segment_fallback|].
  split.
  - now intros entry ->.
  - now intros ->.
Qed.

(** The theorem above on the Seven-segment table, at a code without an
    entry (200). *)
Lemma C4_lookup_total_witness :
  lookup_segment SEVEN_SEGMENTS 200 = Ok (SevenSegments 0 0 0 0 0 0 0 0 (chr 63)).
Proof.
  destruct (C4_lookup_total SEVEN_SEGMENTS (SevenSegments 0 0 0 0 0 0 0 0 (chr 63)) 200)
    as (v & Hv & _ & Hnone); [vm_compute; reflexivity|].
  rewrite Hv. f_equal. apply Hnone. vm_compute. reflexivity.
Defined.

Lemma ascii_fill_lookup (codes : list Z) (d : gmap (option Z) Segment) (c : Z) :
  foldl (fun d i => <[Some i := AsciiSegment 0 i (chr i)]> d) d codes !! Some c
  = if decide (c ∈ codes) then Some (AsciiSegment 0 c (chr c)) else d !! Some c.
Proof.
  revert d. induction codes as [|i codes IH]; intros d; simpl.
  - destruct (decide (c ∈ [])) as [Hin|_]; [|reflexivity].
    now apply elem_of_nil in Hin.
  - rewrite IH.
    destruct (decide (c ∈ codes)) as [Hin|Hnin].
    + rewrite decide_True by (now right). reflexivity.
    + destruct (decide (i = c)) as [->|Hne].
      * rewrite decide_True by (now left). apply lookup_insert_eq.
      * rewrite decide_False by (rewrite elem_of_cons; intuition congruence).
        apply lookup_insert_ne. congruence.
Qed.

Lemma ascii_fill_fallback (codes : list Z) (d : gmap (option Z) Segment) :
  foldl (fun d i => <[Some i := AsciiSegment 0 i (chr i)]> d) d codes !! None
  = d !! None.
Proof.
  revert d. induction codes as [|i codes IH]; intros d; simpl; [reflexivity|].
  rewrite IH. now apply lookup_insert_ne.
Qed.

Lemma ascii_lookup (c : Z) :
  ASCII_SEGMENTS !! Some c
  = if decide (0 <= c < 128) then Some (AsciiSegment 0 c (chr c)) else None.
Proof.
  unfold ASCII_SEGMENTS. rewrite ascii_fill_lookup.
  destruct (decide (c ∈ seqZ 0 128)) as [Hin|Hnin]; rewrite elem_of_seqZ in *.
  - rewrite decide_True by lia. reflexivity.
  - rewrite decide_False by lia. apply lookup_singleton_ne. discriminate.
Qed.

(** C10 — The Ascii table maps every code from 0 to 127 to the value with
    that raw code, the dot off and the character as label; its [None] entry
    is the space; so every lookup in it returns a value with the dot off
    and a raw code from 0 to 127. *)
Theorem C10_ascii_table :
  (forall c, 0 <= c < 128 ->
     ASCII_SEGMENTS !! Some c = Some (AsciiSegment 0 c (chr c)))
  /\ ASCII_SEGMENTS !! None = Some (AsciiSegment 0 32 (chr 32))
  /\ (forall code, exists v raw,
        lookup_segment ASCII_SEGMENTS code = Ok v
        /\ dp v = 0
        /\ ascii_value v = Ok raw
        /\ 0 <= raw < 128).
Proof.
  assert (Hfb : ASCII_SEGMENTS !! None = Some (AsciiSegment 0 32 (chr 32))).
  { unfold ASCII_SEGMENTS. rewrite ascii_fill_fallback. apply lookup_singleton_eq. }
  split; [|split; [exact Hfb|]].
  - intros c Hc. rewrite ascii_lookup. now rewrite decide_True by lia.
  - intros code. rewrite (lookup_segment_fallback _ _ _ Hfb), ascii_lookup.
    destruct (decide (0 <= code < 128)) as [Hin|Hout]; simpl.
    + exists (AsciiSegment 0 code (chr code)), code. repeat split; lia.
    + exists (AsciiSegment 0 32 (chr 32)), 32. repeat split; lia.
Qed.

(** The theorem above at the last mapped code. *)
Lemma C10_ascii_table_witness :
  ASCII_SEGMENTS !! Some 127 = Some (AsciiSegment 0 127 (chr 127)).
Proof.
  apply (proj1 C10_ascii_table 127). lia.
Defined.

(** *** Claims on the encoders *)

(** C3 — For the Seven-segment entry of the digit zero the g-f-e-d-c-b-a
    encoder gives the single byte 0b0111111 (63); for the entry of the
    exclamation mark (dot, c and b on) the dp-g-f-e-d-c-b-a encoder gives
    the single byte with bit 7, bit 2 and bit 1 set and all others clear
    (134). *)
Theorem C3_seven_segment_bytes :
  (v ← dict_getitem SEVEN_SEGMENTS (Some 48); get_gfedcba_encoding v) = Ok [63]
  /\ bits_7_to_0 63 = [false; false; true; true; true; true; true; true]
  /\ dict_getitem SEVEN_SEGMENTS (Some 33) = Ok (SevenSegments 1 0 0 0 0 1 1 0 (chr 33))
  /\ (v ← dict_getitem SEVEN_SEGMENTS (Some 33); get_dpgfedcba_encoding v) = Ok [134]
  /\ bits_7_to_0 134 = [true; false; false; false; false; true; true; false].
Proof. repeat split; vm_compute; reflexivity. Qed.

(** One byte put together from eight flags holds them at bits 7 to 0. *)
Lemma byte_of_flags (b7 b6 b5 b4 b3 b2 b1 b0 : Z) :
  Forall is_flag [b7; b6; b5; b4; b3; b2; b1; b0] ->
  let byte := (b7 << 7) .| (b6 << 6) .| (b5 << 5) .| (b4 << 4) .| (b3 << 3)
              .| (b2 << 2) .| (b1 << 1) .| b0 in
  (0 <=? byte) && (byte <? 256) = true
  /\ bits_7_to_0 byte = map lit [b7; b6; b5; b4; b3; b2; b1; b0].
Proof.
  intros Hflags. rewrite !Forall_cons in Hflags.
  destruct Hflags as
    ([->| ->] & [->| ->] & [->| ->] & [->| ->] & [->| ->] & [->| ->] & [->| ->] & [->| ->] & _);
    split; reflexivity.
Qed.

(** C8 — For every FourteenSegments value whose flags are 0 or 1, the apc
    encoder returns exactly two bytes: byte 0 holds dp, g1, f, e, a, b, c, d
    at bits 7 down to 0 and byte 1 holds l, dp, n, m, k, g2, h, j at bits 7
    down to 0, the dot being packed into both. *)
Theorem C8_apc_encoding (dp l m n k j h g2 g1 f e d c b a : Z) (char : str) :
  Forall is_flag [dp; l; m; n; k; j; h; g2; g1; f; e; d; c; b; a] ->
  exists byte0 byte1,
    get_apc_encoding (FourteenSegments dp l m n k j h g2 g1 f e d c b a char)
    = Ok [byte0; byte1]
    /\ bits_7_to_0 byte0 = map lit [dp; g1; f; e; a; b; c; d]
    /\ bits_7_to_0 byte1 = map lit [l; dp; n; m; k; g2; h; j].
Proof.
  intros Hflags. rewrite !Forall_cons in Hflags.
  destruct Hflags as
    (Hdp & Hl & Hm & Hn & Hk & Hj & Hh & Hg2 & Hg1 & Hf & He & Hd & Hc & Hb & Ha & _).
  destruct (byte_of_flags dp g1 f e a b c d) as [Hr0 Hb0];
    [repeat (constructor; [assumption|]); constructor|].
  destruct (byte_of_flags l dp n m k g2 h j) as [Hr1 Hb1];
    [repeat (constructor; [assumption|]); constructor|].
  do 2 eexists. split; [|split; [exact Hb0|exact Hb1]].
  unfold get_apc_encoding, bytes. cbn [forallb]. now rewrite Hr0, Hr1.
Qed.

(** The theorem above on the Fourteen-segment entry of the exclamation
    mark: the dot shows up at bit 7 of byte 0 and at bit 6 of byte 1. *)
Lemma C8_apc_encoding_witness :
  get_apc_encoding (FourteenSegments 1 0 0 0 0 0 0 0 0 0 0 0 1 1 0 (chr 33))
  = Ok [134; 64].
Proof.
  destruct (C8_apc_encoding 1 0 0 0 0 0 0 0 0 0 0 0 1 1 0 (chr 33))
    as (byte0 & byte1 & Henc & _ & _).
  - repeat (constructor; [(left; reflexivity) || (right; reflexivity)|]). constructor.
  - rewrite Henc. vm_compute in Henc. injection Henc as <- <-. reflexivity.
Defined.

(** *** Claims on the mapper *)

(** Whole runs: a period after a digit is merged into it; a period after
    the exclamation mark, whose table entry has its dot on, gets a cell of
    its own. *)
Example map_text_one_period :
  map_text_to_segments [49; 46] 1 SEVEN_SEGMENTS true
  = Ok [SevenSegments 1 0 0 0 0 1 1 0 (chr 49)].
Proof. vm_compute. reflexivity. Qed.

Example map_text_exclamation_period :
  map_text_to_segments [33; 46] 2 SEVEN_SEGMENTS true
  = Ok [SevenSegments 1 0 0 0 0 1 1 0 (chr 33); SevenSegments 1 0 0 0 0 0 0 0 (chr 46)].
Proof. vm_compute. reflexivity. Qed.

Section Width.

Context {Color : Type}.
Variable white : Color.
Variable segment_mapping : gmap (option Z) Segment.
Variable fallback : Segment.
Hypothesis Hfallback : segment_mapping !! None = Some fallback.

Local Abbreviation space := (space_segment_of segment_mapping fallback).

Lemma space_segment : lookup_segment segment_mapping SPACE = Ok space.
Proof using Hfallback. now apply lookup_segment_fallback. Qed.

Lemma space_segment_white :
  (sp ← lookup_segment segment_mapping SPACE; Ok (sp, white)) = Ok (space, white).
Proof using Hfallback. now rewrite space_segment. Qed.

(** The per-character result of the text loop exists. *)
Lemma scan_text_result (text : str) (embed_dots : bool) :
  exists pos segments,
    scan_text (length text) text segment_mapping embed_dots (0%nat, [])
    = Ok (pos, segments).
Proof using Hfallback. apply (scan_text_total _ fallback Hfallback). lia. Qed.

(** For a positive width each mapper returns exactly [display_width]
    elements. *)
Lemma mappers_length (display_width : Z) :
  0 < display_width ->
  (forall text embed_dots, exists out,
      map_text_to_segments text display_width segment_mapping embed_dots = Ok out
      /\ len out = display_width)
  /\ (forall text : list (Cell Color), exists out,
      map_segment_text_to_segments text display_width segment_mapping = Ok out
      /\ len out = display_width)
  /\ (forall text : list (Cell Color), exists out,
      map_segment_text_to_segments_with_color white text display_width segment_mapping
      = Ok out
      /\ len out = display_width).
Proof using Hfallback.
  intros Hw. repeat split.
  - intros text embed_dots.
    destruct (scan_text_result text embed_dots) as (pos & segments & Hscan).
    unfold map_text_to_segments. rewrite Hscan, bind_Ok.
    now apply (fit_width_length _ _ space); [apply space_segment|].
  - intros text. unfold map_segment_text_to_segments.
    rewrite (for_char_in_eq _ fallback Hfallback), bind_Ok.
    now apply (fit_width_length _ _ space); [apply space_segment|].
  - intros text. unfold map_segment_text_to_segments_with_color.
    rewrite (for_char_in_with_color_eq _ fallback Hfallback), bind_Ok.
    now apply (fit_width_length _ _ (space, white)); [apply space_segment_white|].
Qed.

End Width.

(** C6 — For a positive width and a per-character result longer than the
    width, each of the three mappers returns the trailing [display_width]
    elements of that result, in their order: the elements in front are
    dropped. *)
Theorem C6_right_aligned_truncation {Color : Type} (white : Color)
    (segment_mapping : gmap (option Z) Segment) (fallback : Segment)
    (display_width : Z) :
  segment_mapping !! None = Some fallback ->
  0 < display_width ->
  (forall text embed_dots, exists pos segments,
      scan_text (length text) text segment_mapping embed_dots (0%nat, [])
      = Ok (pos, segments)
      /\ (display_width < len segments ->
          map_text_to_segments text display_width segment_mapping embed_dots
          = Ok (drop (length segments - Z.to_nat display_width) segments)))
  /\ (forall text : list (Cell Color), exists segments,
      for_char_in text segment_mapping [] = Ok segments
      /\ (display_width < len segments ->
          map_segment_text_to_segments text display_width segment_mapping
          = Ok (drop (length segments - Z.to_nat display_width) segments)))
  /\ (forall text : list (Cell Color), exists segments,
      for_char_in_with_color text segment_mapping [] = Ok segments
      /\ (display_width < len segments ->
          map_segment_text_to_segments_with_color white text display_width
                                                  segment_mapping
          = Ok (drop (length segments - Z.to_nat display_width) segments))).
Proof.
  intros Hfb Hw. repeat split.
  - intros text embed_dots.
    destruct (scan_text_result segment_mapping fallback Hfb text embed_dots)
      as (pos & segments & Hscan).
    exists pos, segments. split; [exact Hscan|]. intros Hlong.
    unfold map_text_to_segments. rewrite Hscan, bind_Ok.
    apply fit_width_long. simpl. lia.
  - intros text. eexists. split; [apply (for_char_in_eq _ fallback Hfb)|].
    intros Hlong. unfold map_segment_text_to_segments.
    rewrite (for_char_in_eq _ fallback Hfb), bind_Ok.
    apply fit_width_long. lia.
  - intros text. eexists. split; [apply (for_char_in_with_color_eq _ fallback Hfb)|].
    intros Hlong. unfold map_segment_text_to_segments_with_color.
    rewrite (for_char_in_with_color_eq _ fallback Hfb), bind_Ok.
    apply fit_width_long. lia.
Qed.

(** The theorem above on a text of five digits and width 3, with the
    Seven-segment table: the values of the last three digits remain. *)
Lemma C6_right_aligned_truncation_witness :
  map_text_to_segments [49; 50; 51; 52; 53] 3 SEVEN_SEGMENTS true
  = Ok [SevenSegments 0 1 0 0 1 1 1 1 (chr 51);
        SevenSegments 0 1 1 0 0 1 1 0 (chr 52);
        SevenSegments 0 1 1 0 1 1 0 1 (chr 53)].
Proof.
  destruct (C6_right_aligned_truncation tt SEVEN_SEGMENTS
              (SevenSegments 0 0 0 0 0 0 0 0 (chr 63)) 3 eq_refl eq_refl)
    as (Htext & _ & _).
  destruct (Htext [49; 50; 51; 52; 53] true) as (pos & segments & Hscan & Hcut).
  vm_compute in Hscan. injection Hscan as <- <-.
  rewrite Hcut; [reflexivity|]. vm_compute. reflexivity.
Defined.

(** C7 — For a per-character result shorter than the width, each of the
    three mappers puts entries of the space character (the [None] entry
    when the table has no entry for the space) in front of the result until
    its length is the width; the colored mapper pairs each of them with
    white. *)
Theorem C7_left_padding {Color : Type} (white : Color)
    (segment_mapping : gmap (option Z) Segment) (fallback : Segment)
    (display_width : Z) :
  segment_mapping !! None = Some fallback ->
  let space := default fallback (segment_mapping !! Some SPACE) in
  lookup_segment segment_mapping SPACE = Ok space
  /\ (forall text embed_dots, exists pos segments,
      scan_text (length text) text segment_mapping embed_dots (0%nat, [])
      = Ok (pos, segments)
      /\ (len segments < display_width ->
          map_text_to_segments text display_width segment_mapping embed_dots
          = Ok (replicate (Z.to_nat display_width - length segments) space
                ++ segments)))
  /\ (forall text : list (Cell Color), exists segments,
      for_char_in text segment_mapping [] = Ok segments
      /\ (len segments < display_width ->
          map_segment_text_to_segments text display_width segment_mapping
          = Ok (replicate (Z.to_nat display_width - length segments) space
                ++ segments)))
  /\ (forall text : list (Cell Color), exists segments,
      for_char_in_with_color text segment_mapping [] = Ok segments
      /\ (len segments < display_width ->
          map_segment_text_to_segments_with_color white text display_width
                                                  segment_mapping
          = Ok (replicate (Z.to_nat display_width - length segments) (space, white)
                ++ segments))).
Proof.
  intros Hfb space.
  pose proof (space_segment segment_mapping fallback Hfb) as Hsp.
  pose proof (space_segment_white white segment_mapping fallback Hfb) as Hspw.
  split; [exact Hsp|]. repeat split.
  - intros text embed_dots.
    destruct (scan_text_result segment_mapping fallback Hfb text embed_dots)
      as (pos & segments & Hscan).
    exists pos, segments. split; [exact Hscan|]. intros Hshort.
    unfold map_text_to_segments. rewrite Hscan, bind_Ok.
    now apply fit_width_short.
  - intros text. eexists. split; [apply (for_char_in_eq _ fallback Hfb)|].
    intros Hshort. unfold map_segment_text_to_segments.
    rewrite (for_char_in_eq _ fallback Hfb), bind_Ok.
    now apply fit_width_short.
  - intros text. eexists. split; [apply (for_char_in_with_color_eq _ fallback Hfb)|].
    intros Hshort. unfold map_segment_text_to_segments_with_color.
    rewrite (for_char_in_with_color_eq _ fallback Hfb), bind_Ok.
    now apply fit_width_short.
Qed.

(** The theorem above on the text of a single one and width 4, with the
    Seven-segment table: three blank entries, then the value of the one. *)
Lemma C7_left_padding_witness :
  map_text_to_segments [49] 4 SEVEN_SEGMENTS true
  = Ok [SevenSegments 0 0 0 0 0 0 0 0 (chr 32);
        SevenSegments 0 0 0 0 0 0 0 0 (chr 32);
        SevenSegments 0 0 0 0 0 0 0 0 (chr 32);
        SevenSegments 0 0 0 0 0 1 1 0 (chr 49)].
Proof.
  destruct (C7_left_padding tt SEVEN_SEGMENTS
              (SevenSegments 0 0 0 0 0 0 0 0 (chr 63)) 4 eq_refl)
    as (_ & Htext & _ & _).
  destruct (Htext [49] true) as (pos & segments & Hscan & Hpad).
  vm_compute in Hscan. injection Hscan as <- <-.
  rewrite Hpad; [reflexivity|]. vm_compute. reflexivity.
Defined.

(** C1 — The claim is that every mapper returns exactly [display_width]
    elements, and nothing for width 0. Run on a one-character input with
    width 0, each of the three mappers returns the one element of its
    per-character result: the slice [segments[-0:]] is the whole list. The
    same holds for any input, since the width post-step is the identity at
    width 0. *)
Theorem C1_width_zero_keeps_input :
  map_text_to_segments [49] 0 SEVEN_SEGMENTS true
  = Ok [SevenSegments 0 0 0 0 0 1 1 0 (chr 49)]
  /\ map_segment_text_to_segments [Build_Cell 49 false tt] 0 SEVEN_SEGMENTS
     = Ok [SevenSegments 0 0 0 0 0 1 1 0 (chr 49)]
  /\ map_segment_text_to_segments_with_color tt [Build_Cell 49 false tt] 0 SEVEN_SEGMENTS
     = Ok [(SevenSegments 0 0 0 0 0 1 1 0 (chr 49), tt)]
  /\ (forall (A : Type) (space : result A) (segments : list A),
        fit_width 0 space segments = Ok segments).
Proof.
  repeat split; try (vm_compute; reflexivity).
  intros A space segments. apply fit_width_zero.
Qed.

(** ** Further properties of the mapper *)

(** The width post-step in closed form, for any width. *)
Lemma fit_width_eq {A} (display_width : Z) (sp : A) (segments : list A) :
  fit_width display_width (Ok sp) segments
  = Ok (replicate (Z.to_nat (display_width - len (remove_leading display_width segments))) sp
        ++ remove_leading display_width segments).
Proof.
  unfold fit_width. apply prepend_spaces_fill; [reflexivity|]. unfold len. lia.
Qed.

Lemma remove_leading_drop {A} (display_width : Z) (segments : list A) :
  exists n, remove_leading display_width segments = drop n segments.
Proof.
  unfold remove_leading, slice_from.
  destruct (display_width <? len segments); [|now exists 0%nat].
  destruct (- display_width <? 0); eauto.
Qed.

Lemma remove_leading_map {A B} (f : A -> B) (display_width : Z) (segments : list A) :
  remove_leading display_width (map f segments)
  = map f (remove_leading display_width segments).
Proof.
  unfold remove_leading, slice_from, len. rewrite !length_map.
  destruct (display_width <? _); [|reflexivity].
  destruct (- display_width <? 0); symmetry; apply fmap_drop.
Qed.

Lemma fit_width_map {A B} (f : A -> B) (display_width : Z) (sp : A) (segments out : list A) :
  fit_width display_width (Ok sp) segments = Ok out ->
  fit_width display_width (Ok (f sp)) (map f segments) = Ok (map f out).
Proof.
  rewrite !fit_width_eq. intros [= <-].
  rewrite remove_leading_map, map_app. unfold len. rewrite length_map.
  do 2 f_equal. symmetry. apply fmap_replicate.
Qed.

Lemma fit_width_negative {A} (display_width : Z) (space : result A) (segments : list A) :
  display_width < 0 ->
  fit_width display_width space segments
  = Ok (drop (Z.to_nat (- display_width)) segments).
Proof.
  intros Hw. unfold fit_width, remove_leading, slice_from.
  destruct (Z.ltb_spec display_width (len segments)) as [_|Hge]; [|unfold len in *; lia].
  destruct (Z.ltb_spec (- display_width) 0) as [Hlt|_]; [lia|].
  apply prepend_spaces_done. unfold len. lia.
Qed.

Lemma fit_width_Forall {A} (P : A -> Prop) (display_width : Z) (sp : A)
    (segments out : list A) :
  P sp -> Forall P segments ->
  fit_width display_width (Ok sp) segments = Ok out ->
  Forall P out.
Proof.
  intros Hsp Hsegs. rewrite fit_width_eq. intros [= <-].
  apply Forall_app. split.
  - apply Forall_replicate. assumption.
  - destruct (remove_leading_drop display_width segments) as [n ->].
    now apply Forall_drop.
Qed.

Section TextLoop.

Variable segment_mapping : gmap (option Z) Segment.
Variable fallback : Segment.
Hypothesis Hfallback : segment_mapping !! None = Some fallback.

(** From any cursor position the loop appends the cells of the rest of
    the text and stops with the cursor at the end. *)
Lemma scan_text_from (text : str) (embed_dots : bool) (fuel pos : nat)
    (segments : list Segment) :
  (pos <= length text)%nat ->
  (length text - pos <= fuel)%nat ->
  scan_text fuel text segment_mapping embed_dots (pos, segments)
  = Ok (length text,
        segments ++ text_cells segment_mapping fallback embed_dots (drop pos text)).
Proof using Hfallback.
  revert pos segments. induction fuel as [|fuel IH]; intros pos segments Hpos Hfuel.
  - assert (pos = length text) as -> by lia.
    simpl. rewrite Nat.ltb_irrefl, drop_all. simpl. now rewrite app_nil_r.
  - cbn [scan_text fst].
    destruct (Nat.ltb_spec pos (length text)) as [Hlt|Hge].
    + destruct (lookup_lt_is_Some_2 text pos Hlt) as [c Hc].
      rewrite (drop_S _ _ _ Hc). cbn [text_cells].
      unfold scan_char, getitem. cbv beta iota zeta.
      rewrite Hc, bind_Ok, (lookup_segment_fallback _ fallback), bind_Ok by assumption.
      destruct (embed_dots && negb (truthy (dp _))).
      * destruct (text !! S pos) as [next|] eqn:Hnext.
        -- pose proof (lookup_lt_Some _ _ _ Hnext) as Hlen.
           rewrite (drop_S _ _ _ Hnext). simpl default.
           destruct (next =? PERIOD).
           ++ rewrite copy_with_dp_on_eq, !bind_Ok, IH by lia.
              now rewrite <- app_assoc.
           ++ rewrite bind_Ok, IH by lia.
              now rewrite (drop_S _ _ _ Hnext), <- app_assoc.
        -- apply lookup_ge_None in Hnext. rewrite drop_ge by lia.
           simpl default. change (SPACE =? PERIOD) with false. cbv iota.
           rewrite bind_Ok, IH by lia. rewrite drop_ge by lia.
           cbn [text_cells]. now rewrite app_nil_r.
      * rewrite bind_Ok, IH by lia. now rewrite <- app_assoc.
    + assert (pos = length text) as -> by lia.
      rewrite drop_all. simpl. now rewrite app_nil_r.
Qed.

Lemma scan_text_cells (text : str) (embed_dots : bool) :
  scan_text (length text) text segment_mapping embed_dots (0%nat, [])
  = Ok (length text, text_cells segment_mapping fallback embed_dots text).
Proof using Hfallback.
  rewrite scan_text_from by lia. reflexivity.
Qed.

(** With [embed_dots] off there is one cell per character. *)
Lemma text_cells_plain (text : str) :
  text_cells segment_mapping fallback false text
  = map (fun c => default fallback (segment_mapping !! Some c)) text.
Proof.
  induction text as [|c rest IH]; simpl; [reflexivity|]. now rewrite IH.
Qed.

(** Merging never adds cells, and drops at most every second character. *)
Lemma text_cells_length (embed_dots : bool) (n : nat) (text : str) :
  (length text <= n)%nat ->
  (length (text_cells segment_mapping fallback embed_dots text) <= length text
   <= 2 * length (text_cells segment_mapping fallback embed_dots text))%nat.
Proof.
  revert text. induction n as [|n IH]; intros text Hn.
  - destruct text; simpl in *; lia.
  - destruct text as [|c rest]; [simpl; lia|].
    cbn [text_cells]. simpl in Hn.
    destruct (embed_dots && negb (truthy (dp _))).
    + destruct rest as [|next rest']; [simpl; lia|].
      destruct (next =? PERIOD).
      * specialize (IH rest'). simpl in *. lia.
      * specialize (IH (next :: rest')). simpl in *. lia.
    + specialize (IH rest). simpl in *. lia.
Qed.

Lemma lookup_from_table (code : Z) :
  from_table segment_mapping (default fallback (segment_mapping !! Some code)).
Proof using Hfallback.
  destruct (segment_mapping !! Some code) as [entry|] eqn:He; simpl.
  - exists (Some code), entry. auto.
  - exists None, fallback. auto.
Qed.

Lemma dot_on_from_table (code : Z) :
  from_table segment_mapping (with_dot_on (default fallback (segment_mapping !! Some code))).
Proof using Hfallback.
  destruct (segment_mapping !! Some code) as [entry|] eqn:He; simpl.
  - exists (Some code), entry. split; [assumption|]. right. apply copy_with_dp_on_eq.
  - exists None, fallback. split; [assumption|]. right. apply copy_with_dp_on_eq.
Qed.

Lemma text_cells_from_table (embed_dots : bool) (n : nat) (text : str) :
  (length text <= n)%nat ->
  Forall (from_table segment_mapping) (text_cells segment_mapping fallback embed_dots text).
Proof using Hfallback.
  revert text. induction n as [|n IH]; intros text Hn.
  - destruct text; simpl in *; [constructor|lia].
  - destruct text as [|c rest]; [constructor|].
    cbn [text_cells]. simpl in Hn.
    destruct (embed_dots && negb (truthy (dp _))).
    + destruct rest as [|next rest'].
      * constructor; [apply lookup_from_table|constructor].
      * destruct (next =? PERIOD).
        -- constructor; [apply dot_on_from_table|]. apply IH. simpl in *. lia.
        -- constructor; [apply lookup_from_table|]. apply IH. simpl in *. lia.
    + constructor; [apply lookup_from_table|]. apply IH. lia.
Qed.

End TextLoop.

Section MapperForms.

Context {Color : Type}.
Variable white : Color.
Variable segment_mapping : gmap (option Z) Segment.
Variable fallback : Segment.
Hypothesis Hfallback : segment_mapping !! None = Some fallback.

Local Abbreviation space := (space_segment_of segment_mapping fallback).
Local Abbreviation cell := (cell_segment (Color := Color) segment_mapping fallback).

Lemma map_text_to_segments_fit (text : str) (display_width : Z) (embed_dots : bool) :
  map_text_to_segments text display_width segment_mapping embed_dots
  = fit_width display_width (Ok space)
              (text_cells segment_mapping fallback embed_dots text).
Proof using Hfallback.
  unfold map_text_to_segments.
  rewrite (scan_text_cells _ fallback Hfallback), bind_Ok.
  now rewrite (space_segment _ fallback Hfallback).
Qed.

Lemma map_segment_text_to_segments_fit (text : list (Cell Color)) (display_width : Z) :
  map_segment_text_to_segments text display_width segment_mapping
  = fit_width display_width (Ok space) (map cell text).
Proof using Hfallback.
  unfold map_segment_text_to_segments.
  rewrite (for_char_in_eq _ fallback Hfallback), bind_Ok.
  now rewrite (space_segment _ fallback Hfallback).
Qed.

Lemma map_segment_text_to_segments_with_color_fit (text : list (Cell Color))
    (display_width : Z) :
  map_segment_text_to_segments_with_color white text display_width segment_mapping
  = fit_width display_width (Ok (space, white))
              (map (fun char => (cell char, color char)) text).
Proof using Hfallback.
  unfold map_segment_text_to_segments_with_color.
  rewrite (for_char_in_with_color_eq _ fallback Hfallback), bind_Ok.
  now rewrite (space_segment_white white _ fallback Hfallback).
Qed.

End MapperForms.

(** Right alignment at a positive width, in one formula. *)
Lemma fit_width_positive {A} (display_width : Z) (sp : A) (segments : list A) :
  0 < display_width ->
  fit_width display_width (Ok sp) segments
  = Ok (replicate (Z.to_nat display_width - length segments) sp
        ++ drop (length segments - Z.to_nat display_width) segments).
Proof.
  intros Hw.
  destruct (Z.lt_trichotomy (len segments) display_width) as [Hlt|[Heq|Hgt]].
  - rewrite (fit_width_short _ _ sp) by (reflexivity || assumption).
    unfold len in *.
    now replace (length segments - Z.to_nat display_width)%nat with 0%nat by lia.
  - rewrite fit_width_same by assumption. unfold len in *.
    replace (length segments - Z.to_nat display_width)%nat with 0%nat by lia.
    now replace (Z.to_nat display_width - length segments)%nat with 0%nat by lia.
  - rewrite fit_width_long by lia. unfold len in *.
    now replace (Z.to_nat display_width - length segments)%nat with 0%nat by lia.
Qed.

Lemma right_aligned_length {A} (w : nat) (sp : A) (segments : list A) :
  length (replicate (w - length segments) sp ++ drop (length segments - w) segments) = w.
Proof. rewrite length_app, length_replicate, length_drop. lia. Qed.

(** With no [None] entry and no cell the post-step raises when it has to
    pad and returns the empty list otherwise. *)
Lemma fit_width_empty_raise {A} (display_width : Z) (e : exn) :
  0 < display_width ->
  fit_width display_width (Raise e) (@nil A) = Raise e.
Proof.
  intros Hw. unfold fit_width. rewrite remove_leading_short by (unfold len; simpl; lia).
  destruct (Z.to_nat display_width) as [|fuel] eqn:Hfuel; [lia|].
  simpl. destruct (Z.ltb_spec (len (@nil A)) display_width) as [_|Hge];
    [reflexivity|unfold len in Hge; simpl in Hge; lia].
Qed.

Lemma fit_width_empty_nonpositive {A} (display_width : Z) (space : result A) :
  display_width <= 0 ->
  fit_width display_width space [] = Ok [].
Proof.
  intros Hw. destruct (Z.eq_dec display_width 0) as [->|Hne].
  - apply fit_width_zero.
  - rewrite fit_width_negative by lia. now rewrite drop_nil.
Qed.

(** C2 — In [map_text_to_segments] with [embed_dots] on, at every scanned
    character whose looked-up value is [v]: when the dot of [v] is off and
    the next character is a period, the period is consumed (the cursor
    moves by two) and the copy of [v] with its dot on is appended; when the
    dot is off and the next character is not a period (or the text ends),
    [v] itself is appended and the cursor moves by one; when the dot of [v]
    is already on, [v] is appended and the cursor moves by one, so that a
    following period is the character of the next turn. In each case the
    while loop goes on from the new cursor with the cell appended; run from
    the start it consumes the whole text and makes the cells [text_cells]
    names, and [map_text_to_segments] returns those cells fitted to the
    width. *)
Theorem C2_embed_dots (text : str) (segment_mapping : gmap (option Z) Segment)
    (pos : nat) (segments : list Segment) (c : Z) (v : Segment) :
  text !! pos = Some c ->
  lookup_segment segment_mapping c = Ok v ->
  (dp v = 0 -> text !! S pos = Some PERIOD ->
     exists v', copy_with_dp_on v = Ok v' /\ dp v' = 1
       /\ scan_char text segment_mapping true (pos, segments)
          = Ok (S (S pos), segments ++ [v'])
       /\ forall fuel,
            scan_text (S fuel) text segment_mapping true (pos, segments)
            = scan_text fuel text segment_mapping true (S (S pos), segments ++ [v']))
  /\ (dp v = 0 -> text !! S pos <> Some PERIOD ->
     scan_char text segment_mapping true (pos, segments)
     = Ok (S pos, segments ++ [v])
     /\ forall fuel,
          scan_text (S fuel) text segment_mapping true (pos, segments)
          = scan_text fuel text segment_mapping true (S pos, segments ++ [v]))
  /\ (dp v <> 0 ->
     scan_char text segment_mapping true (pos, segments)
     = Ok (S pos, segments ++ [v])
     /\ forall fuel,
          scan_text (S fuel) text segment_mapping true (pos, segments)
          = scan_text fuel text segment_mapping true (S pos, segments ++ [v]))
  /\ (exists fallback,
        segment_mapping !! None = Some fallback
        /\ scan_text (length text) text segment_mapping true (0%nat, [])
           = Ok (length text, text_cells segment_mapping fallback true text)
        /\ forall display_width,
             map_text_to_segments text display_width segment_mapping true
             = fit_width display_width
                         (Ok (default fallback (segment_mapping !! Some SPACE)))
                         (text_cells segment_mapping fallback true text)).
Proof.
  intros Hc Hv.
  assert (Hloop : forall fuel st',
             scan_char text segment_mapping true (pos, segments) = Ok st' ->
             scan_text (S fuel) text segment_mapping true (pos, segments)
             = scan_text fuel text segment_mapping true st').
  { intros fuel st' Hstep. cbn [scan_text fst].
    destruct (Nat.ltb_spec pos (length text)) as [_|Hge];
      [|apply lookup_lt_Some in Hc; lia].
    now rewrite Hstep, bind_Ok. }
  assert (Hstep : scan_char text segment_mapping true (pos, segments)
                  = if negb (truthy (dp v)) then
                      if default SPACE (text !! S pos) =? PERIOD then
                        mapping ← copy_with_dp_on v;
                        Ok (S (S pos), segments ++ [mapping])
                      else Ok (S pos, segments ++ [v])
                    else Ok (S pos, segments ++ [v])).
  { unfold scan_char, getitem. cbv beta iota zeta.
    now rewrite Hc, bind_Ok, Hv, bind_Ok. }
  unfold truthy in Hstep.
  remember (scan_char text segment_mapping true (pos, segments)) as step eqn:Estep.
  clear Estep. split; [|split; [|split]].
  - intros Hdp Hnext. exists (with_dot_on v).
    split; [apply copy_with_dp_on_eq|]. split; [apply dp_with_dot_on|].
    rewrite Hdp, Hnext in Hstep. simpl in Hstep.
    rewrite copy_with_dp_on_eq in Hstep. simpl in Hstep.
    split; [exact Hstep|]. intros fuel. now apply Hloop.
  - intros Hdp Hnext. rewrite Hdp in Hstep. simpl in Hstep.
    assert (Hnp : (default SPACE (text !! S pos) =? PERIOD) = false).
    { destruct (text !! S pos) as [next|]; simpl; [|reflexivity].
      destruct (Z.eqb_spec next PERIOD) as [->|Hne]; [congruence|reflexivity]. }
    rewrite Hnp in Hstep. split; [exact Hstep|]. intros fuel. now apply Hloop.
  - intros Hdp.
    destruct (Z.eqb_spec (dp v) 0) as [Heq|_]; [contradiction|]. simpl in Hstep.
    split; [exact Hstep|]. intros fuel. now apply Hloop.
  - unfold lookup_segment, dict_getitem in Hv.
    destruct (segment_mapping !! None) as [fallback|] eqn:Hfb; [|discriminate Hv].
    exists fallback. split; [reflexivity|]. split.
    + now apply scan_text_cells.
    + intros display_width. now rewrite (map_text_to_segments_fit _ fallback Hfb).
Qed.

(** The theorem above on the text of a one and a period, with the
    Seven-segment table: the period is merged into the digit, in the turn
    of the loop and in the result of [map_text_to_segments] at width 1. *)
Lemma C2_embed_dots_witness :
  scan_char [49; 46] SEVEN_SEGMENTS true (0%nat, [])
  = Ok (2%nat, [SevenSegments 1 0 0 0 0 1 1 0 (chr 49)])
  /\ map_text_to_segments [49; 46] 1 SEVEN_SEGMENTS true
     = Ok [SevenSegments 1 0 0 0 0 1 1 0 (chr 49)].
Proof.
  destruct (C2_embed_dots [49; 46] SEVEN_SEGMENTS 0 [] 49
              (SevenSegments 0 0 0 0 0 1 1 0 (chr 49)) eq_refl)
    as (Hmerge & _ & _ & fallback & Hfb & _ & Hmap); [vm_compute; reflexivity|].
  destruct (Hmerge eq_refl eq_refl) as (v' & Hcopy & _ & Hstep & _).
  vm_compute in Hcopy. injection Hcopy as <-.
  vm_compute in Hfb. injection Hfb as <-.
  split; [exact Hstep|]. rewrite Hmap. vm_compute. reflexivity.
Defined.

(** X1 — On a table with its [None] entry and for a positive width,
    [map_text_to_segments] returns the cells of the text (periods merged as
    [text_cells] says), right-aligned: spaces in front when there are fewer
    cells than the width, the trailing cells when there are more; the
    result has exactly [display_width] elements. *)
Theorem X1_map_text_to_segments_right_aligned
    (segment_mapping : gmap (option Z) Segment) (fallback : Segment)
    (text : str) (display_width : Z) (embed_dots : bool) :
  segment_mapping !! None = Some fallback ->
  0 < display_width ->
  let cells := text_cells segment_mapping fallback embed_dots text in
  let out := replicate (Z.to_nat display_width - length cells)
                       (space_segment_of segment_mapping fallback)
             ++ drop (length cells - Z.to_nat display_width) cells in
  map_text_to_segments text display_width segment_mapping embed_dots = Ok out
  /\ len out = display_width.
Proof.
  intros Hfb Hw cells out. split.
  - rewrite (map_text_to_segments_fit _ fallback Hfb).
    now apply fit_width_positive.
  - unfold out, len. rewrite right_aligned_length. lia.
Qed.

(** The theorem above on the text [1.5] with width 4 and the Seven-segment
    table: two blanks, the one with its dot, the five. *)
Lemma X1_map_text_to_segments_right_aligned_witness :
  map_text_to_segments [49; 46; 53] 4 SEVEN_SEGMENTS true
  = Ok [SevenSegments 0 0 0 0 0 0 0 0 (chr 32);
        SevenSegments 0 0 0 0 0 0 0 0 (chr 32);
        SevenSegments 1 0 0 0 0 1 1 0 (chr 49);
        SevenSegments 0 1 1 0 1 1 0 1 (chr 53)].
Proof.
  destruct (X1_map_text_to_segments_right_aligned SEVEN_SEGMENTS
              (SevenSegments 0 0 0 0 0 0 0 0 (chr 63)) [49; 46; 53] 4 true
              eq_refl eq_refl) as [Hout _].
  rewrite Hout. vm_compute. reflexivity.
Defined.

(** X2 — On a table with its [None] entry and for a positive width, the two
    cell mappers return one segment per cell (the entry of the cell's code,
    with its dot turned on when the cell has a dot), right-aligned and of
    exactly [display_width] elements; the colored mapper pairs each segment
    with the color of its cell and each space in front with white. *)
Theorem X2_cell_mappers_right_aligned {Color : Type} (white : Color)
    (segment_mapping : gmap (option Z) Segment) (fallback : Segment)
    (text : list (Cell Color)) (display_width : Z) :
  segment_mapping !! None = Some fallback ->
  0 < display_width ->
  let space := space_segment_of segment_mapping fallback in
  let cells := map (cell_segment segment_mapping fallback) text in
  let colored := map (fun char => (cell_segment segment_mapping fallback char, color char))
                     text in
  let n := Z.to_nat display_width in
  map_segment_text_to_segments text display_width segment_mapping
  = Ok (replicate (n - length text) space ++ drop (length text - n) cells)
  /\ map_segment_text_to_segments_with_color white text display_width segment_mapping
     = Ok (replicate (n - length text) (space, white) ++ drop (length text - n) colored)
  /\ length (replicate (n - length text) space ++ drop (length text - n) cells) = n.
Proof.
  intros Hfb Hw space cells colored n. repeat split.
  - rewrite (map_segment_text_to_segments_fit _ fallback Hfb).
    rewrite fit_width_positive by assumption. now rewrite length_map.
  - rewrite (map_segment_text_to_segments_with_color_fit white _ fallback Hfb).
    rewrite fit_width_positive by assumption. now rewrite length_map.
  - rewrite <- (length_map (cell_segment segment_mapping fallback) text).
    apply right_aligned_length.
Qed.

(** The theorem above on a one with a dot, with width 2 and the
    Seven-segment table. *)
Lemma X2_cell_mappers_right_aligned_witness :
  map_segment_text_to_segments_with_color 0%nat [Build_Cell 49 true 7%nat] 2 SEVEN_SEGMENTS
  = Ok [(SevenSegments 0 0 0 0 0 0 0 0 (chr 32), 0%nat);
        (SevenSegments 1 0 0 0 0 1 1 0 (chr 49), 7%nat)].
Proof.
  destruct (X2_cell_mappers_right_aligned 0%nat SEVEN_SEGMENTS
              (SevenSegments 0 0 0 0 0 0 0 0 (chr 63)) [Build_Cell 49 true 7%nat] 2
              eq_refl eq_refl) as (_ & Hout & _).
  rewrite Hout. vm_compute. reflexivity.
Defined.

(** X3 — For a negative width none of the mappers pads: the slice
    [segments[-display_width:]] then starts at the positive index
    [-display_width], so the first [-display_width] cells are dropped and
    the rest is returned. *)
Theorem X3_negative_width_drops_front {Color : Type} (white : Color)
    (segment_mapping : gmap (option Z) Segment) (fallback : Segment)
    (display_width : Z) :
  segment_mapping !! None = Some fallback ->
  display_width < 0 ->
  let n := Z.to_nat (- display_width) in
  (forall text embed_dots,
      map_text_to_segments text display_width segment_mapping embed_dots
      = Ok (drop n (text_cells segment_mapping fallback embed_dots text)))
  /\ (forall text : list (Cell Color),
      map_segment_text_to_segments text display_width segment_mapping
      = Ok (drop n (map (cell_segment segment_mapping fallback) text)))
  /\ (forall text : list (Cell Color),
      map_segment_text_to_segments_with_color white text display_width segment_mapping
      = Ok (drop n (map (fun char => (cell_segment segment_mapping fallback char,
                                      color char)) text))).
Proof.
  intros Hfb Hw n. repeat split.
  - intros text embed_dots. rewrite (map_text_to_segments_fit _ fallback Hfb).
    now apply fit_width_negative.
  - intros text. rewrite (map_segment_text_to_segments_fit _ fallback Hfb).
    now apply fit_width_negative.
  - intros text.
    rewrite (map_segment_text_to_segments_with_color_fit white _ fallback Hfb).
    now apply fit_width_negative.
Qed.

(** The theorem above on the text [123] with width -1: the one is dropped. *)
Lemma X3_negative_width_drops_front_witness :
  map_text_to_segments [49; 50; 51] (-1) SEVEN_SEGMENTS true
  = Ok [SevenSegments 0 1 0 1 1 0 1 1 (chr 50);
        SevenSegments 0 1 0 0 1 1 1 1 (chr 51)].
Proof.
  destruct (X3_negative_width_drops_front tt SEVEN_SEGMENTS
              (SevenSegments 0 0 0 0 0 0 0 0 (chr 63)) (-1) eq_refl eq_refl)
    as (Htext & _ & _).
  rewrite Htext. vm_compute. reflexivity.
Defined.

(** X4 — On a table without a [None] entry every mapper raises [KeyError]
    as soon as the text has a character, also when every character of the
    text has an entry, and on the empty text as soon as the width is
    positive; only the empty text with a width of 0 or less gives the empty
    list. *)
Theorem X4_missing_fallback_raises {Color : Type} (white : Color)
    (segment_mapping : gmap (option Z) Segment) (display_width : Z) :
  segment_mapping !! None = None ->
  (forall c text embed_dots,
      map_text_to_segments (c :: text) display_width segment_mapping embed_dots
      = Raise KeyError)
  /\ (forall (char : Cell Color) text,
      map_segment_text_to_segments (char :: text) display_width segment_mapping
      = Raise KeyError
      /\ map_segment_text_to_segments_with_color white (char :: text) display_width
                                                 segment_mapping
         = Raise KeyError)
  /\ (0 < display_width ->
      (forall embed_dots,
          map_text_to_segments [] display_width segment_mapping embed_dots
          = Raise KeyError)
      /\ map_segment_text_to_segments (@nil (Cell Color)) display_width segment_mapping
         = Raise KeyError
      /\ map_segment_text_to_segments_with_color white [] display_width segment_mapping
         = Raise KeyError)
  /\ (display_width <= 0 ->
      (forall embed_dots,
          map_text_to_segments [] display_width segment_mapping embed_dots = Ok [])
      /\ map_segment_text_to_segments (@nil (Cell Color)) display_width segment_mapping
         = Ok []
      /\ map_segment_text_to_segments_with_color white [] display_width segment_mapping
         = Ok []).
Proof.
  intros Hnone.
  pose proof (fun code => lookup_segment_no_fallback segment_mapping code Hnone)
    as Hraise.
  split; [|split; [|split]].
  - intros c text embed_dots. unfold map_text_to_segments.
    cbn [length scan_text fst Nat.ltb Nat.leb].
    unfold scan_char, getitem. cbn [lookup list_lookup]. rewrite bind_Ok.
    now rewrite !Hraise.
  - intros char text.
    unfold map_segment_text_to_segments, map_segment_text_to_segments_with_color.
    cbn [for_char_in for_char_in_with_color]. now rewrite !Hraise.
  - intros Hw.
    unfold map_text_to_segments, map_segment_text_to_segments,
      map_segment_text_to_segments_with_color.
    cbn [length scan_text fst Nat.ltb Nat.leb for_char_in for_char_in_with_color].
    rewrite !bind_Ok, !Hraise. cbn [snd mbind result_bind].
    repeat split; intros; now apply fit_width_empty_raise.
  - intros Hw.
    unfold map_text_to_segments, map_segment_text_to_segments,
      map_segment_text_to_segments_with_color.
    cbn [length scan_text fst Nat.ltb Nat.leb for_char_in for_char_in_with_color].
    rewrite !bind_Ok. cbn [snd].
    repeat split; intros; now apply fit_width_empty_nonpositive.
Qed.

(** The theorem above on a table that maps the digit one and nothing
    else: mapping the text [1] raises although the one has an entry. *)
Lemma X4_missing_fallback_raises_witness :
  map_text_to_segments [49] 1 {[Some 49 := SevenSegments 0 0 0 0 0 1 1 0 (chr 49)]} true
  = Raise KeyError.
Proof.
  destruct (X4_missing_fallback_raises tt
              {[Some 49 := SevenSegments 0 0 0 0 0 1 1 0 (chr 49)]} 1)
    as (Htext & _); [vm_compute; reflexivity|].
  apply Htext.
Defined.

Lemma text_cells_no_period (segment_mapping : gmap (option Z) Segment)
    (fallback : Segment) (text : str) :
  Forall (fun c => c <> PERIOD) text ->
  text_cells segment_mapping fallback true text
  = text_cells segment_mapping fallback false text.
Proof.
  induction 1 as [|c rest Hc Hrest IH]; [reflexivity|].
  cbn [text_cells]. rewrite IH.
  destruct (true && negb (truthy (dp _))); [|reflexivity].
  destruct Hrest as [|next rest' Hnext _]; [reflexivity|].
  destruct (Z.eqb_spec next PERIOD) as [Heq|_]; [contradiction|reflexivity].
Qed.

(** X5 — With [embed_dots] off, [map_text_to_segments] makes one cell per
    character, periods included, and gives what
    [map_segment_text_to_segments] gives on the same characters taken as
    cells without dots. *)
Theorem X5_plain_text_as_cells {Color : Type} (any : Color)
    (segment_mapping : gmap (option Z) Segment) (fallback : Segment)
    (text : str) (display_width : Z) :
  segment_mapping !! None = Some fallback ->
  scan_text (length text) text segment_mapping false (0%nat, [])
  = Ok (length text, map (fun c => default fallback (segment_mapping !! Some c)) text)
  /\ map_text_to_segments text display_width segment_mapping false
     = map_segment_text_to_segments (map (fun c => Build_Cell c false any) text)
                                    display_width segment_mapping.
Proof.
  intros Hfb. split.
  - rewrite (scan_text_cells _ fallback Hfb). now rewrite text_cells_plain.
  - rewrite (map_text_to_segments_fit _ fallback Hfb),
      (map_segment_text_to_segments_fit _ fallback Hfb).
    rewrite text_cells_plain, map_map. reflexivity.
Qed.

(** The theorem above on the text [1.] with width 2: the period keeps a
    cell of its own. *)
Lemma X5_plain_text_as_cells_witness :
  map_text_to_segments [49; 46] 2 SEVEN_SEGMENTS false
  = Ok [SevenSegments 0 0 0 0 0 1 1 0 (chr 49); SevenSegments 1 0 0 0 0 0 0 0 (chr 46)].
Proof.
  destruct (X5_plain_text_as_cells tt SEVEN_SEGMENTS
              (SevenSegments 0 0 0 0 0 0 0 0 (chr 63)) [49; 46] 2 eq_refl)
    as [_ Hcells].
  rewrite Hcells. vm_compute. reflexivity.
Defined.

(** X6 — The text loop always ends with its cursor at the end of the
    text; it makes at most one cell per character and at least one cell
    for every two characters. *)
Theorem X6_text_loop_cell_count (segment_mapping : gmap (option Z) Segment)
    (fallback : Segment) (text : str) (embed_dots : bool) :
  segment_mapping !! None = Some fallback ->
  exists cells,
    scan_text (length text) text segment_mapping embed_dots (0%nat, [])
    = Ok (length text, cells)
    /\ (length cells <= length text <= 2 * length cells)%nat.
Proof.
  intros Hfb. eexists. split; [apply (scan_text_cells _ fallback Hfb)|].
  now apply (text_cells_length _ _ _ (length text)).
Qed.

(** The theorem above on the text [1.2.]: four characters, two cells. *)
Lemma X6_text_loop_cell_count_witness :
  exists cells,
    scan_text 4 [49; 46; 50; 46] SEVEN_SEGMENTS true (0%nat, []) = Ok (4%nat, cells)
    /\ (length cells <= 4 <= 2 * length cells)%nat.
Proof.
  apply (X6_text_loop_cell_count SEVEN_SEGMENTS
           (SevenSegments 0 0 0 0 0 0 0 0 (chr 63)) [49; 46; 50; 46] true eq_refl).
Defined.

(** X7 — On a text without a period [embed_dots] makes no difference. *)
Theorem X7_embed_dots_without_period (segment_mapping : gmap (option Z) Segment)
    (fallback : Segment) (text : str) (display_width : Z) :
  segment_mapping !! None = Some fallback ->
  Forall (fun c => c <> PERIOD) text ->
  map_text_to_segments text display_width segment_mapping true
  = map_text_to_segments text display_width segment_mapping false.
Proof.
  intros Hfb Hno. rewrite !(map_text_to_segments_fit _ fallback Hfb).
  now rewrite text_cells_no_period.
Qed.

(** The theorem above on the text [12] with width 3. *)
Lemma X7_embed_dots_without_period_witness :
  map_text_to_segments [49; 50] 3 SEVEN_SEGMENTS true
  = map_text_to_segments [49; 50] 3 SEVEN_SEGMENTS false.
Proof.
  apply (X7_embed_dots_without_period SEVEN_SEGMENTS
           (SevenSegments 0 0 0 0 0 0 0 0 (chr 63)) [49; 50] 3 eq_refl).
  repeat constructor; discriminate.
Defined.

(** X8 — Whatever the width, every segment a mapper returns is an entry of
    the table or the copy of an entry with its dot turned on. *)
Theorem X8_output_from_table {Color : Type} (white : Color)
    (segment_mapping : gmap (option Z) Segment) (fallback : Segment)
    (display_width : Z) :
  segment_mapping !! None = Some fallback ->
  (forall text embed_dots out,
      map_text_to_segments text display_width segment_mapping embed_dots = Ok out ->
      Forall (from_table segment_mapping) out)
  /\ (forall (text : list (Cell Color)) out,
      map_segment_text_to_segments text display_width segment_mapping = Ok out ->
      Forall (from_table segment_mapping) out)
  /\ (forall (text : list (Cell Color)) out,
      map_segment_text_to_segments_with_color white text display_width segment_mapping
      = Ok out ->
      Forall (fun pair => from_table segment_mapping pair.1) out).
Proof.
  intros Hfb.
  assert (Hcell : forall char : Cell Color,
             from_table segment_mapping (cell_segment segment_mapping fallback char)).
  { intros char. unfold cell_segment.
    destruct (dot char);
      [apply (dot_on_from_table _ _ Hfb)|apply (lookup_from_table _ _ Hfb)]. }
  repeat split.
  - intros text embed_dots out.
    rewrite (map_text_to_segments_fit _ fallback Hfb).
    apply fit_width_Forall; [apply (lookup_from_table _ _ Hfb)|].
    now apply (text_cells_from_table _ _ Hfb _ (length text)).
  - intros text out. rewrite (map_segment_text_to_segments_fit _ fallback Hfb).
    apply fit_width_Forall; [apply (lookup_from_table _ _ Hfb)|].
    apply Forall_map, Forall_forall. intros char _. apply Hcell.
  - intros text out.
    rewrite (map_segment_text_to_segments_with_color_fit white _ fallback Hfb).
    apply fit_width_Forall; [apply (lookup_from_table _ _ Hfb)|].
    apply Forall_map, Forall_forall. intros char _. apply Hcell.
Qed.

(** The theorem above on the text [1.] with width 2 and the Seven-segment
    table. *)
Lemma X8_output_from_table_witness :
  Forall (from_table SEVEN_SEGMENTS)
         [SevenSegments 0 0 0 0 0 0 0 0 (chr 32); SevenSegments 1 0 0 0 0 1 1 0 (chr 49)].
Proof.
  destruct (X8_output_from_table tt SEVEN_SEGMENTS
              (SevenSegments 0 0 0 0 0 0 0 0 (chr 63)) 2 eq_refl) as (Htext & _ & _).
  apply (Htext [49; 46] true). vm_compute. reflexivity.
Defined.

(** X9 — The colored mapper returns the segments of the uncolored mapper,
    in the same positions, whatever the width; the colors beside them are
    the colors of the cells, cut or padded with white like the segments. *)
Theorem X9_colored_agrees_with_uncolored {Color : Type} (white : Color)
    (segment_mapping : gmap (option Z) Segment) (fallback : Segment)
    (text : list (Cell Color)) (display_width : Z) :
  segment_mapping !! None = Some fallback ->
  exists out,
    map_segment_text_to_segments_with_color white text display_width segment_mapping
    = Ok out
    /\ map_segment_text_to_segments text display_width segment_mapping
       = Ok (map fst out)
    /\ fit_width display_width (Ok white) (map color text) = Ok (map snd out).
Proof.
  intros Hfb.
  rewrite (map_segment_text_to_segments_with_color_fit white _ fallback Hfb),
    (map_segment_text_to_segments_fit _ fallback Hfb).
  eexists. split; [apply fit_width_eq|]. split.
  - rewrite <- (fit_width_map fst _ _ _ _ (fit_width_eq _ _ _)).
    now rewrite map_map.
  - rewrite <- (fit_width_map snd _ _ _ _ (fit_width_eq _ _ _)).
    now rewrite map_map.
Qed.

(** The theorem above on one colored cell with width 2. *)
Lemma X9_colored_agrees_with_uncolored_witness :
  exists out,
    map_segment_text_to_segments_with_color 0%nat [Build_Cell 49 false 7%nat] 2
                                            SEVEN_SEGMENTS = Ok out
    /\ map_segment_text_to_segments [Build_Cell 49 false 7%nat] 2 SEVEN_SEGMENTS
       = Ok (map fst out)
    /\ fit_width 2 (Ok 0%nat) (map color [Build_Cell 49 false 7%nat]) = Ok (map snd out).
Proof.
  apply (X9_colored_agrees_with_uncolored 0%nat SEVEN_SEGMENTS
           (SevenSegments 0 0 0 0 0 0 0 0 (chr 63)) [Build_Cell 49 false 7%nat] 2 eq_refl).
Defined.

(** ** Further properties of the encoders *)

Ltac split_flags H :=
  rewrite !Forall_cons in H;
  repeat match type of H with
         | is_flag _ /\ _ =>
             let Hf := fresh "Hflag" in destruct H as [Hf H]; destruct Hf as [->| ->]
         end.

(** Seven flags at bits 6 to 0. *)
Lemma byte_of_flags7 (b6 b5 b4 b3 b2 b1 b0 : Z) :
  Forall is_flag [b6; b5; b4; b3; b2; b1; b0] ->
  let byte := (b6 << 6) .| (b5 << 5) .| (b4 << 4) .| (b3 << 3)
              .| (b2 << 2) .| (b1 << 1) .| b0 in
  (0 <=? byte) && (byte <? 256) = true
  /\ bits_7_to_0 byte = false :: map lit [b6; b5; b4; b3; b2; b1; b0].
Proof. intros H. split_flags H; split; reflexivity. Qed.

(** Eight flags packed from bit 0 upwards. *)
Lemma byte_of_flags_lsb (b0 b1 b2 b3 b4 b5 b6 b7 : Z) :
  Forall is_flag [b0; b1; b2; b3; b4; b5; b6; b7] ->
  let byte := b0 .| (b1 << 1) .| (b2 << 2) .| (b3 << 3) .| (b4 << 4) .| (b5 << 5)
              .| (b6 << 6) .| (b7 << 7) in
  (0 <=? byte) && (byte <? 256) = true
  /\ bits_7_to_0 byte = map lit [b7; b6; b5; b4; b3; b2; b1; b0].
Proof. intros H. split_flags H; split; reflexivity. Qed.

(** Seven flags packed from bit 0 upwards. *)
Lemma byte_of_flags_lsb7 (b0 b1 b2 b3 b4 b5 b6 : Z) :
  Forall is_flag [b0; b1; b2; b3; b4; b5; b6] ->
  let byte := b0 .| (b1 << 1) .| (b2 << 2) .| (b3 << 3) .| (b4 << 4) .| (b5 << 5)
              .| (b6 << 6) in
  (0 <=? byte) && (byte <? 256) = true
  /\ bits_7_to_0 byte = false :: map lit [b6; b5; b4; b3; b2; b1; b0].
Proof. intros H. split_flags H; split; reflexivity. Qed.

(** Flags are recovered from their bits. *)
Lemma lit_inj (l l' : list Z) :
  Forall is_flag l -> Forall is_flag l' -> map lit l = map lit l' -> l = l'.
Proof.
  intros Hl. revert l'. induction Hl as [|x l Hx Hl IH]; intros l' Hl' Heq.
  - destruct l'; [reflexivity|discriminate].
  - destruct Hl' as [|x' l' Hx' Hl']; [discriminate|].
    simpl in Heq. injection Heq as Hhead Htail. f_equal; [|now apply IH].
    destruct Hx as [->| ->], Hx' as [->| ->]; (reflexivity || discriminate).
Qed.

Ltac flags_in H := rewrite !Forall_cons in H; rewrite !Forall_cons; tauto.

(** One byte from a list of one in-range value, two from two. *)
Lemma bytes_one (x : Z) : (0 <=? x) && (x <? 256) = true -> bytes [x] = Ok [x].
Proof. intros H. unfold bytes. cbn [forallb]. now rewrite H. Qed.

Lemma bytes_two (x y : Z) :
  (0 <=? x) && (x <? 256) = true -> (0 <=? y) && (y <? 256) = true ->
  bytes [x; y] = Ok [x; y].
Proof. intros Hx Hy. unfold bytes. cbn [forallb]. now rewrite Hx, Hy. Qed.

(** X10 — For a SevenSegments value whose flags are 0 or 1 each of the
    three encoders returns one byte: [get_gfedcba_encoding] holds g, f, e,
    d, c, b, a at bits 6 to 0 with bit 7 clear; [get_dpgfedcba_encoding]
    adds dp at bit 7; [get_dpgfeabcd_encoding] holds dp, g, f, e, a, b, c,
    d at bits 7 to 0. *)
Theorem X10_seven_encoders_layout (dp g f e d c b a : Z) (char : str) :
  Forall is_flag [dp; g; f; e; d; c; b; a] ->
  let self := SevenSegments dp g f e d c b a char in
  exists byte1 byte2 byte3,
    get_gfedcba_encoding self = Ok [byte1]
    /\ bits_7_to_0 byte1 = false :: map lit [g; f; e; d; c; b; a]
    /\ get_dpgfedcba_encoding self = Ok [byte2]
    /\ bits_7_to_0 byte2 = map lit [dp; g; f; e; d; c; b; a]
    /\ get_dpgfeabcd_encoding self = Ok [byte3]
    /\ bits_7_to_0 byte3 = map lit [dp; g; f; e; a; b; c; d].
Proof.
  intros H self.
  destruct (byte_of_flags7 g f e d c b a) as [Hr1 Hb1]; [flags_in H|].
  destruct (byte_of_flags dp g f e d c b a) as [Hr2 Hb2]; [flags_in H|].
  destruct (byte_of_flags dp g f e a b c d) as [Hr3 Hb3]; [flags_in H|].
  do 3 eexists. unfold self, get_gfedcba_encoding, get_dpgfedcba_encoding,
    get_dpgfeabcd_encoding.
  rewrite (bytes_one _ Hr1), (bytes_one _ Hr2), (bytes_one _ Hr3). auto 10.
Qed.

(** The theorem above on the Seven-segment entry of the question mark. *)
Lemma X10_seven_encoders_layout_witness :
  get_dpgfeabcd_encoding (SevenSegments 1 1 0 1 0 0 1 1 (chr 63)) = Ok [220].
Proof.
  destruct (X10_seven_encoders_layout 1 1 0 1 0 0 1 1 (chr 63))
    as (b1 & b2 & b3 & _ & _ & _ & _ & Henc & _).
  - repeat (constructor; [(left; reflexivity) || (right; reflexivity)|]). constructor.
  - rewrite Henc. vm_compute in Henc. injection Henc as <-. reflexivity.
Defined.

(** X11 — For a BcdSegments value whose flags are 0 or 1,
    [get_dpx4x3x2x1_encoding] returns one byte with dp at bit 7, x3 to x0
    at bits 3 to 0 and bits 6 to 4 clear; [get_x4x3x2x1_encoding] returns
    the same byte without the dot, a value below 16. *)
Theorem X11_bcd_encoders_layout (dp x3 x2 x1 x0 : Z) (char : str) :
  Forall is_flag [dp; x3; x2; x1; x0] ->
  let self := BcdSegments dp x3 x2 x1 x0 char in
  exists byte1 byte2,
    get_dpx4x3x2x1_encoding self = Ok [byte1]
    /\ bits_7_to_0 byte1 = [lit dp; false; false; false; lit x3; lit x2; lit x1; lit x0]
    /\ get_x4x3x2x1_encoding self = Ok [byte2]
    /\ bits_7_to_0 byte2 = [false; false; false; false; lit x3; lit x2; lit x1; lit x0]
    /\ 0 <= byte2 < 16.
Proof.
  intros H self. unfold self.
  exists ((dp << 7) .| (x3 << 3) .| (x2 << 2) .| (x1 << 1) .| x0),
         ((x3 << 3) .| (x2 << 2) .| (x1 << 1) .| x0).
  split_flags H; repeat split; first [reflexivity | now vm_compute].
Qed.

(** The theorem above on the BCD entry of the exclamation mark, a one with
    its dot. *)
Lemma X11_bcd_encoders_layout_witness :
  get_dpx4x3x2x1_encoding (BcdSegments 1 0 0 0 1 (chr 33)) = Ok [129].
Proof.
  destruct (X11_bcd_encoders_layout 1 0 0 0 1 (chr 33))
    as (b1 & b2 & Henc & _).
  - repeat (constructor; [(left; reflexivity) || (right; reflexivity)|]). constructor.
  - rewrite Henc. vm_compute in Henc. injection Henc as <-. reflexivity.
Defined.

(** X12 — For an EightSegments value whose segment flags are 0 or 1,
    [get_hgfedcba_encoding] returns one byte with h, g, f, e, d, c, b, a at
    bits 7 to 0; the dot is not part of it, whatever its value. *)
Theorem X12_eight_encoder_layout (dp h g f e d c b a : Z) (char : str) :
  Forall is_flag [h; g; f; e; d; c; b; a] ->
  exists byte,
    get_hgfedcba_encoding (EightSegments dp h g f e d c b a char) = Ok [byte]
    /\ bits_7_to_0 byte = map lit [h; g; f; e; d; c; b; a]
    /\ forall dp' char',
        get_hgfedcba_encoding (EightSegments dp' h g f e d c b a char') = Ok [byte].
Proof.
  intros H.
  destruct (byte_of_flags h g f e d c b a) as [Hr Hb]; [assumption|].
  eexists. unfold get_hgfedcba_encoding. rewrite (bytes_one _ Hr). auto.
Qed.

(** The theorem above on the Eight-segment entry of the digit one, which
    lights only the bar in the middle. *)
Lemma X12_eight_encoder_layout_witness :
  get_hgfedcba_encoding (EightSegments 0 1 0 0 0 0 0 0 0 (chr 49)) = Ok [128].
Proof.
  destruct (X12_eight_encoder_layout 0 1 0 0 0 0 0 0 0 (chr 49))
    as (byte & Henc & _).
  - repeat (constructor; [(left; reflexivity) || (right; reflexivity)|]). constructor.
  - rewrite Henc. vm_compute in Henc. injection Henc as <-. reflexivity.
Defined.

(** X13 — For a FourteenSegments value whose flags are 0 or 1,
    [get_pinmame_encoding] returns two bytes, g1, f, e, d, c, b, a at bits
    6 to 0 of byte 0 (bit 7 clear) and dp, l, m, n, g2, k, j, h at bits 7
    to 0 of byte 1; [get_vpe_encoding] returns two bytes, h, g1, f, e, d,
    c, b, a at bits 7 to 0 of byte 0 and dp, l, m, n, g2, k, j at bits 6 to
    0 of byte 1 (bit 7 clear). *)
Theorem X13_fourteen_pinmame_vpe_layout (dp l m n k j h g2 g1 f e d c b a : Z)
    (char : str) :
  Forall is_flag [dp; l; m; n; k; j; h; g2; g1; f; e; d; c; b; a] ->
  let self := FourteenSegments dp l m n k j h g2 g1 f e d c b a char in
  exists p0 p1 v0 v1,
    get_pinmame_encoding self = Ok [p0; p1]
    /\ bits_7_to_0 p0 = false :: map lit [g1; f; e; d; c; b; a]
    /\ bits_7_to_0 p1 = map lit [dp; l; m; n; g2; k; j; h]
    /\ get_vpe_encoding self = Ok [v0; v1]
    /\ bits_7_to_0 v0 = map lit [h; g1; f; e; d; c; b; a]
    /\ bits_7_to_0 v1 = false :: map lit [dp; l; m; n; g2; k; j].
Proof.
  intros H self.
  destruct (byte_of_flags7 g1 f e d c b a) as [Hr0 Hb0]; [flags_in H|].
  destruct (byte_of_flags dp l m n g2 k j h) as [Hr1 Hb1]; [flags_in H|].
  destruct (byte_of_flags_lsb a b c d e f g1 h) as [Hr2 Hb2]; [flags_in H|].
  destruct (byte_of_flags_lsb7 j k g2 n m l dp) as [Hr3 Hb3]; [flags_in H|].
  do 4 eexists. unfold self, get_pinmame_encoding, get_vpe_encoding.
  rewrite (bytes_two _ _ Hr0 Hr1), (bytes_two _ _ Hr2 Hr3). auto 10.
Qed.

(** The theorem above on the Fourteen-segment entry of the exclamation
    mark. *)
Lemma X13_fourteen_pinmame_vpe_layout_witness :
  get_pinmame_encoding (FourteenSegments 1 0 0 0 0 0 0 0 0 0 0 0 1 1 0 (chr 33))
  = Ok [6; 128]
  /\ get_vpe_encoding (FourteenSegments 1 0 0 0 0 0 0 0 0 0 0 0 1 1 0 (chr 33))
     = Ok [6; 64].
Proof.
  destruct (X13_fourteen_pinmame_vpe_layout 1 0 0 0 0 0 0 0 0 0 0 0 1 1 0 (chr 33))
    as (p0 & p1 & v0 & v1 & Hp & _ & _ & Hv & _).
  - repeat (constructor; [(left; reflexivity) || (right; reflexivity)|]). constructor.
  - rewrite Hp, Hv. vm_compute in Hp, Hv.
    injection Hp as <- <-. injection Hv as <- <-. split; reflexivity.
Defined.

(** X14 — For an AsciiSegment with a raw value from 0 to 127,
    [get_ascii_with_dp_encoding] returns one byte whose bit 7 tells whether
    the dot is on and whose low seven bits are the raw value, so both are
    recovered from the byte; [get_ascii_encoding] returns the raw value
    alone. *)
Theorem X14_ascii_with_dp_round_trip (dp ascii_value : Z) (char : str) :
  0 <= ascii_value < 128 ->
  let self := AsciiSegment dp ascii_value char in
  exists byte,
    get_ascii_with_dp_encoding self = Ok [byte]
    /\ 0 <= byte < 256
    /\ Z.testbit byte 7 = truthy dp
    /\ byte mod 128 = ascii_value
    /\ get_ascii_encoding self = Ok [ascii_value].
Proof.
  intros Hv self. unfold self, get_ascii_with_dp_encoding, get_ascii_encoding.
  exists (ascii_value + (if truthy dp then 128 else 0)).
  assert (Hb : 0 <= ascii_value + (if truthy dp then 128 else 0) < 256)
    by (destruct (truthy dp); lia).
  repeat split; try lia.
  - apply bytes_one. apply andb_true_iff. split; [apply Z.leb_le|apply Z.ltb_lt]; lia.
  - rewrite Z.testbit_eqb by lia. change (2 ^ 7) with 128.
    destruct (truthy dp).
    + replace ((ascii_value + 128) / 128) with 1
        by (apply (Z.div_unique _ _ _ ascii_value); lia).
      reflexivity.
    + rewrite Z.add_0_r, Z.div_small by lia. reflexivity.
  - destruct (truthy dp).
    + replace (ascii_value + 128) with (ascii_value + 1 * 128) by lia.
      rewrite Z.mod_add by lia. apply Z.mod_small. lia.
    + rewrite Z.add_0_r. apply Z.mod_small. lia.
  - apply bytes_one. apply andb_true_iff. split; [apply Z.leb_le|apply Z.ltb_lt]; lia.
Qed.

(** The theorem above on the letter A with its dot on. *)
Lemma X14_ascii_with_dp_round_trip_witness :
  get_ascii_with_dp_encoding (AsciiSegment 1 65 (chr 65)) = Ok [193].
Proof.
  destruct (X14_ascii_with_dp_round_trip 1 65 (chr 65)) as (byte & Henc & _); [lia|].
  rewrite Henc. vm_compute in Henc. injection Henc as <-. reflexivity.
Defined.

(** X15 — For an AsciiSegment with a raw value from 128 to 255 and its dot
    on, [get_ascii_with_dp_encoding] raises [ValueError]: the sum does not
    fit a byte, although [get_ascii_encoding] of the same value succeeds. *)
Theorem X15_ascii_with_dp_overflow (dp ascii_value : Z) (char : str) :
  128 <= ascii_value < 256 ->
  dp <> 0 ->
  get_ascii_with_dp_encoding (AsciiSegment dp ascii_value char) = Raise ValueError
  /\ get_ascii_encoding (AsciiSegment dp ascii_value char) = Ok [ascii_value].
Proof.
  intros Hv Hdp. unfold get_ascii_with_dp_encoding, get_ascii_encoding, truthy, bytes.
  cbn [forallb].
  destruct (Z.eqb_spec dp 0) as [Heq|_]; [contradiction|]. simpl negb. cbv iota.
  destruct (Z.ltb_spec (ascii_value + 128) 256) as [Hlt|_]; [lia|].
  destruct (Z.leb_spec 0 ascii_value) as [_|Hneg]; [|lia].
  destruct (Z.ltb_spec ascii_value 256) as [_|Hge]; [|lia].
  rewrite andb_false_r. split; reflexivity.
Qed.

(** The theorem above on the raw value 200 with its dot on. *)
Lemma X15_ascii_with_dp_overflow_witness :
  get_ascii_with_dp_encoding (AsciiSegment 1 200 (chr 200)) = Raise ValueError.
Proof.
  apply (X15_ascii_with_dp_overflow 1 200 (chr 200)); [lia|discriminate].
Defined.

Lemma bytes_one_eq (x y : Z) :
  (0 <=? x) && (x <? 256) = true -> (0 <=? y) && (y <? 256) = true ->
  bytes [x] = bytes [y] -> x = y.
Proof. intros Hx Hy. rewrite (bytes_one _ Hx), (bytes_one _ Hy). now intros [= ->]. Qed.

Lemma bytes_two_eq (x0 x1 y0 y1 : Z) :
  (0 <=? x0) && (x0 <? 256) = true -> (0 <=? x1) && (x1 <? 256) = true ->
  (0 <=? y0) && (y0 <? 256) = true -> (0 <=? y1) && (y1 <? 256) = true ->
  bytes [x0; x1] = bytes [y0; y1] -> x0 = y0 /\ x1 = y1.
Proof.
  intros Hx0 Hx1 Hy0 Hy1. rewrite (bytes_two _ _ Hx0 Hx1), (bytes_two _ _ Hy0 Hy1).
  now intros [= -> ->].
Qed.

Lemma bits_flags_eq (l l' : list Z) (x x' : Z) (clear_bits : list bool) :
  Forall is_flag l -> Forall is_flag l' ->
  bits_7_to_0 x = clear_bits ++ map lit l ->
  bits_7_to_0 x' = clear_bits ++ map lit l' ->
  x = x' -> l = l'.
Proof.
  intros Hl Hl' Hx Hx' <-. rewrite Hx in Hx'. apply app_inv_head in Hx'.
  now apply lit_inj.
Qed.

Lemma bcd_dpx_inj (dp x3 x2 x1 x0 dp' x3' x2' x1' x0' : Z) (char char' : str) :
  Forall is_flag [dp; x3; x2; x1; x0] -> Forall is_flag [dp'; x3'; x2'; x1'; x0'] ->
  get_dpx4x3x2x1_encoding (BcdSegments dp x3 x2 x1 x0 char)
  = get_dpx4x3x2x1_encoding (BcdSegments dp' x3' x2' x1' x0' char') ->
  [dp; x3; x2; x1; x0] = [dp'; x3'; x2'; x1'; x0'].
Proof.
  intros H H'. split_flags H; split_flags H'; intros Heq; vm_compute in Heq;
    first [reflexivity | discriminate Heq].
Qed.

Section SevenInjective.

Variables dp g f e d c b a dp' g' f' e' d' c' b' a' : Z.
Variables char char' : str.
Hypothesis H : Forall is_flag [dp; g; f; e; d; c; b; a].
Hypothesis H' : Forall is_flag [dp'; g'; f'; e'; d'; c'; b'; a'].

Lemma seven_dpgfedcba_inj :
  get_dpgfedcba_encoding (SevenSegments dp g f e d c b a char)
  = get_dpgfedcba_encoding (SevenSegments dp' g' f' e' d' c' b' a' char') ->
  [dp; g; f; e; d; c; b; a] = [dp'; g'; f'; e'; d'; c'; b'; a'].
Proof using H H'.
  destruct (byte_of_flags dp g f e d c b a H) as [Hr Hb].
  destruct (byte_of_flags dp' g' f' e' d' c' b' a' H') as [Hr' Hb'].
  intros Heq. apply (bytes_one_eq _ _ Hr Hr') in Heq.
  exact (bits_flags_eq _ _ _ _ [] H H' Hb Hb' Heq).
Qed.

Lemma seven_dpgfeabcd_inj :
  get_dpgfeabcd_encoding (SevenSegments dp g f e d c b a char)
  = get_dpgfeabcd_encoding (SevenSegments dp' g' f' e' d' c' b' a' char') ->
  [dp; g; f; e; d; c; b; a] = [dp'; g'; f'; e'; d'; c'; b'; a'].
Proof using H H'.
  assert (Hp : Forall is_flag [dp; g; f; e; a; b; c; d]) by flags_in H.
  assert (Hp' : Forall is_flag [dp'; g'; f'; e'; a'; b'; c'; d']) by flags_in H'.
  destruct (byte_of_flags dp g f e a b c d Hp) as [Hr Hb].
  destruct (byte_of_flags dp' g' f' e' a' b' c' d' Hp') as [Hr' Hb'].
  intros Heq. apply (bytes_one_eq _ _ Hr Hr') in Heq.
  pose proof (bits_flags_eq _ _ _ _ [] Hp Hp' Hb Hb' Heq) as Hflags.
  now injection Hflags as -> -> -> -> -> -> -> ->.
Qed.

End SevenInjective.

Section FourteenInjective.

Variables dp l m n k j h g2 g1 f e d c b a : Z.
Variables dp' l' m' n' k' j' h' g2' g1' f' e' d' c' b' a' : Z.
Variables char char' : str.
Hypothesis H : Forall is_flag [dp; l; m; n; k; j; h; g2; g1; f; e; d; c; b; a].
Hypothesis H' :
  Forall is_flag [dp'; l'; m'; n'; k'; j'; h'; g2'; g1'; f'; e'; d'; c'; b'; a'].

Local Abbreviation self := (FourteenSegments dp l m n k j h g2 g1 f e d c b a char).
Local Abbreviation other :=
  (FourteenSegments dp' l' m' n' k' j' h' g2' g1' f' e' d' c' b' a' char').

Lemma fourteen_pinmame_inj :
  get_pinmame_encoding self = get_pinmame_encoding other -> flags self = flags other.
Proof using H H'.
  assert (H0 : Forall is_flag [g1; f; e; d; c; b; a]) by flags_in H.
  assert (H1 : Forall is_flag [dp; l; m; n; g2; k; j; h]) by flags_in H.
  assert (H0' : Forall is_flag [g1'; f'; e'; d'; c'; b'; a']) by flags_in H'.
  assert (H1' : Forall is_flag [dp'; l'; m'; n'; g2'; k'; j'; h']) by flags_in H'.
  destruct (byte_of_flags7 _ _ _ _ _ _ _ H0) as [Hr0 Hb0].
  destruct (byte_of_flags _ _ _ _ _ _ _ _ H1) as [Hr1 Hb1].
  destruct (byte_of_flags7 _ _ _ _ _ _ _ H0') as [Hr0' Hb0'].
  destruct (byte_of_flags _ _ _ _ _ _ _ _ H1') as [Hr1' Hb1'].
  intros Heq. apply (bytes_two_eq _ _ _ _ Hr0 Hr1 Hr0' Hr1') in Heq as [Heq0 Heq1].
  pose proof (bits_flags_eq _ _ _ _ [false] H0 H0' Hb0 Hb0' Heq0) as Hf0.
  pose proof (bits_flags_eq _ _ _ _ [] H1 H1' Hb1 Hb1' Heq1) as Hf1.
  injection Hf0 as -> -> -> -> -> -> ->.
  now injection Hf1 as -> -> -> -> -> -> -> ->.
Qed.

Lemma fourteen_apc_inj :
  get_apc_encoding self = get_apc_encoding other -> flags self = flags other.
Proof using H H'.
  assert (H0 : Forall is_flag [dp; g1; f; e; a; b; c; d]) by flags_in H.
  assert (H1 : Forall is_flag [l; dp; n; m; k; g2; h; j]) by flags_in H.
  assert (H0' : Forall is_flag [dp'; g1'; f'; e'; a'; b'; c'; d']) by flags_in H'.
  assert (H1' : Forall is_flag [l'; dp'; n'; m'; k'; g2'; h'; j']) by flags_in H'.
  destruct (byte_of_flags _ _ _ _ _ _ _ _ H0) as [Hr0 Hb0].
  destruct (byte_of_flags _ _ _ _ _ _ _ _ H1) as [Hr1 Hb1].
  destruct (byte_of_flags _ _ _ _ _ _ _ _ H0') as [Hr0' Hb0'].
  destruct (byte_of_flags _ _ _ _ _ _ _ _ H1') as [Hr1' Hb1'].
  intros Heq. apply (bytes_two_eq _ _ _ _ Hr0 Hr1 Hr0' Hr1') in Heq as [Heq0 Heq1].
  pose proof (bits_flags_eq _ _ _ _ [] H0 H0' Hb0 Hb0' Heq0) as Hf0.
  pose proof (bits_flags_eq _ _ _ _ [] H1 H1' Hb1 Hb1' Heq1) as Hf1.
  injection Hf0 as -> -> -> -> -> -> -> ->.
  now injection Hf1 as -> -> -> -> -> -> ->.
Qed.

Lemma fourteen_vpe_inj :
  get_vpe_encoding self = get_vpe_encoding other -> flags self = flags other.
Proof using H H'.
  assert (H0 : Forall is_flag [a; b; c; d; e; f; g1; h]) by flags_in H.
  assert (H1 : Forall is_flag [j; k; g2; n; m; l; dp]) by flags_in H.
  assert (H0' : Forall is_flag [a'; b'; c'; d'; e'; f'; g1'; h']) by flags_in H'.
  assert (H1' : Forall is_flag [j'; k'; g2'; n'; m'; l'; dp']) by flags_in H'.
  destruct (byte_of_flags_lsb _ _ _ _ _ _ _ _ H0) as [Hr0 Hb0].
  destruct (byte_of_flags_lsb7 _ _ _ _ _ _ _ H1) as [Hr1 Hb1].
  destruct (byte_of_flags_lsb _ _ _ _ _ _ _ _ H0') as [Hr0' Hb0'].
  destruct (byte_of_flags_lsb7 _ _ _ _ _ _ _ H1') as [Hr1' Hb1'].
  intros Heq. apply (bytes_two_eq _ _ _ _ Hr0 Hr1 Hr0' Hr1') in Heq as [Heq0 Heq1].
  assert (G0 : Forall is_flag [h; g1; f; e; d; c; b; a]) by flags_in H.
  assert (G1 : Forall is_flag [dp; l; m; n; g2; k; j]) by flags_in H.
  assert (G0' : Forall is_flag [h'; g1'; f'; e'; d'; c'; b'; a']) by flags_in H'.
  assert (G1' : Forall is_flag [dp'; l'; m'; n'; g2'; k'; j']) by flags_in H'.
  pose proof (bits_flags_eq _ _ _ _ [] G0 G0' Hb0 Hb0' Heq0) as Hf0.
  pose proof (bits_flags_eq _ _ _ _ [false] G1 G1' Hb1 Hb1' Heq1) as Hf1.
  injection Hf0 as -> -> -> -> -> -> -> ->.
  now injection Hf1 as -> -> -> -> -> -> ->.
Qed.

End FourteenInjective.

(** X16 — The encoders that carry every flag lose nothing: two values of
    their class whose flags are 0 or 1 and whose bytes agree have the same
    flags. This holds for [get_dpx4x3x2x1_encoding],
    [get_dpgfedcba_encoding], [get_dpgfeabcd_encoding],
    [get_pinmame_encoding], [get_apc_encoding] and [get_vpe_encoding]. *)
Theorem X16_full_encoders_injective (v v' : Segment) :
  class_of v = class_of v' ->
  Forall is_flag (flags v) ->
  Forall is_flag (flags v') ->
  (class_of v = CBcd ->
     get_dpx4x3x2x1_encoding v = get_dpx4x3x2x1_encoding v' -> flags v = flags v')
  /\ (class_of v = CSeven ->
     (get_dpgfedcba_encoding v = get_dpgfedcba_encoding v' -> flags v = flags v')
     /\ (get_dpgfeabcd_encoding v = get_dpgfeabcd_encoding v' -> flags v = flags v'))
  /\ (class_of v = CFourteen ->
     (get_pinmame_encoding v = get_pinmame_encoding v' -> flags v = flags v')
     /\ (get_apc_encoding v = get_apc_encoding v' -> flags v = flags v')
     /\ (get_vpe_encoding v = get_vpe_encoding v' -> flags v = flags v')).
Proof.
  intros Hclass Hv Hv'.
  destruct v, v'; try discriminate Hclass; cbn [flags] in *;
    (split; [|split]); intros Hc; try discriminate Hc.
  - now apply bcd_dpx_inj.
  - split; [now apply seven_dpgfedcba_inj|now apply seven_dpgfeabcd_inj].
  - split; [|split].
    + now apply fourteen_pinmame_inj.
    + now apply fourteen_apc_inj.
    + now apply fourteen_vpe_inj.
Qed.

(** The theorem above on two Seven-segment values with different labels
    and the same byte: their flags are the same. *)
Lemma X16_full_encoders_injective_witness :
  flags (SevenSegments 0 0 1 1 1 1 1 0 (chr 85))
  = flags (SevenSegments 0 0 1 1 1 1 1 0 (chr 86)).
Proof.
  destruct (X16_full_encoders_injective
              (SevenSegments 0 0 1 1 1 1 1 0 (chr 85))
              (SevenSegments 0 0 1 1 1 1 1 0 (chr 86)) eq_refl)
    as (_ & Hseven & _).
  - repeat (constructor; [(left; reflexivity) || (right; reflexivity)|]). constructor.
  - repeat (constructor; [(left; reflexivity) || (right; reflexivity)|]). constructor.
  - apply (Hseven eq_refl). reflexivity.
Defined.

(** X17 — The encoders without a dot bit give the same bytes (or the same
    exception) on a value and on its copy with the dot on; in particular
    the dot of an Eight-segment cell never reaches its bytes. *)
Theorem X17_dotless_encoders_ignore_dot (v : Segment) :
  exists v',
    copy_with_dp_on v = Ok v'
    /\ get_x4x3x2x1_encoding v' = get_x4x3x2x1_encoding v
    /\ get_gfedcba_encoding v' = get_gfedcba_encoding v
    /\ get_hgfedcba_encoding v' = get_hgfedcba_encoding v
    /\ get_ascii_encoding v' = get_ascii_encoding v.
Proof.
  exists (with_dot_on v). split; [apply copy_with_dp_on_eq|].
  destruct v; repeat split; reflexivity.
Qed.

(** X18 — For a SevenSegments value whose flags are 0 or 1, the byte of
    [get_dpgfedcba_encoding] and of [get_dpgfeabcd_encoding] on the copy
    with the dot on is the byte on the value itself with bit 7 set; the
    same holds for [get_dpx4x3x2x1_encoding] on a BcdSegments value. *)
Theorem X18_dot_copy_sets_bit_7 (v : Segment) :
  Forall is_flag (flags v) ->
  exists v',
    copy_with_dp_on v = Ok v'
    /\ (class_of v = CSeven ->
        exists byte1 byte2,
          get_dpgfedcba_encoding v = Ok [byte1]
          /\ get_dpgfedcba_encoding v' = Ok [Z.lor byte1 128]
          /\ get_dpgfeabcd_encoding v = Ok [byte2]
          /\ get_dpgfeabcd_encoding v' = Ok [Z.lor byte2 128])
    /\ (class_of v = CBcd ->
        exists byte,
          get_dpx4x3x2x1_encoding v = Ok [byte]
          /\ get_dpx4x3x2x1_encoding v' = Ok [Z.lor byte 128]).
Proof.
  intros H. exists (with_dot_on v). split; [apply copy_with_dp_on_eq|].
  destruct v; cbn [flags] in H; (split; intros Hc; try discriminate Hc).
  - exists ((dp0 << 7) .| (x3 << 3) .| (x2 << 2) .| (x1 << 1) .| x0).
    split_flags H; split; reflexivity.
  - exists ((dp0 << 7) .| (g << 6) .| (f << 5) .| (e << 4) .| (d << 3) .| (c << 2)
            .| (b << 1) .| a),
           ((dp0 << 7) .| (g << 6) .| (f << 5) .| (e << 4) .| (a << 3) .| (b << 2)
            .| (c << 1) .| d).
    split_flags H; repeat split; reflexivity.
Qed.

(** The theorem above on the Seven-segment entry of the digit one. *)
Lemma X18_dot_copy_sets_bit_7_witness :
  get_dpgfedcba_encoding (SevenSegments 1 0 0 0 0 1 1 0 (chr 49)) = Ok [Z.lor 6 128].
Proof.
  destruct (X18_dot_copy_sets_bit_7 (SevenSegments 0 0 0 0 0 1 1 0 (chr 49)))
    as (v' & Hcopy & Hseven & _).
  - repeat (constructor; [(left; reflexivity) || (right; reflexivity)|]). constructor.
  - destruct (Hseven eq_refl) as (byte1 & byte2 & Henc & Henc' & _).
    vm_compute in Hcopy. injection Hcopy as <-.
    vm_compute in Henc. injection Henc as <-. exact Henc'.
Defined.

(** X19 — A value and its copy with the dot on compare equal exactly when
    the dot of the value is already the int 1. *)
Theorem X19_copy_equal_iff_dot_on (v v' : Segment) :
  copy_with_dp_on v = Ok v' ->
  (__eq__ v v' = true <-> dp v = 1).
Proof.
  rewrite copy_with_dp_on_eq. intros [= <-]. rewrite eq_iff_same.
  destruct v; simpl; split; congruence.
Qed.

(** The theorem above on the Seven-segment entry of the period, whose dot
    is on in the table. *)
Lemma X19_copy_equal_iff_dot_on_witness :
  __eq__ (SevenSegments 1 0 0 0 0 0 0 0 (chr 46)) (SevenSegments 1 0 0 0 0 0 0 0 (chr 46))
  = true.
Proof.
  apply (X19_copy_equal_iff_dot_on (SevenSegments 1 0 0 0 0 0 0 0 (chr 46)));
    [vm_compute|]; reflexivity.
Defined.

(** ** Further properties of the tables *)

Lemma flag_valued_flags (self : Segment) :
  flag_valued self = true -> Forall is_flag (flags self).
Proof.
  unfold flag_valued. rewrite forallb_forall, Forall_forall.
  intros H x Hx. apply list_elem_of_In, H in Hx.
  apply orb_true_iff in Hx as [Hx|Hx]; apply Z.eqb_eq in Hx; [now left|now right].
Qed.

Lemma of_class_eq (cls : class) (self : Segment) :
  of_class cls self = true -> class_of self = cls.
Proof. destruct cls, self; simpl; congruence. Qed.

Lemma table_entries_ok (cls : class) (table : gmap (option Z) Segment) :
  forallb (fun entry => entry_ok cls entry.1 entry.2) (map_to_list table) = true ->
  forall key entry,
    table !! key = Some entry ->
    class_of entry = cls /\ Forall is_flag (flags entry).
Proof.
  rewrite forallb_forall. intros H key entry Hentry.
  apply elem_of_map_to_list, list_elem_of_In, H in Hentry.
  apply andb_true_iff in Hentry as [Hc Hf].
  split; [now apply of_class_eq|now apply flag_valued_flags].
Qed.

Lemma tables_checked :
  (forall key entry, BCD_SEGMENTS !! key = Some entry ->
     class_of entry = CBcd /\ Forall is_flag (flags entry))
  /\ (forall key entry, SEVEN_SEGMENTS !! key = Some entry ->
     class_of entry = CSeven /\ Forall is_flag (flags entry))
  /\ (forall key entry, EIGHT_SEGMENTS !! key = Some entry ->
     class_of entry = CEight /\ Forall is_flag (flags entry))
  /\ (forall key entry, FOURTEEN_SEGMENTS !! key = Some entry ->
     class_of entry = CFourteen /\ Forall is_flag (flags entry))
  /\ (forall key entry, SIXTEEN_SEGMENTS !! key = Some entry ->
     class_of entry = CSixteen /\ Forall is_flag (flags entry)).
Proof.
  split; [|split; [|split; [|split]]]; intros key entry Hentry;
    refine (table_entries_ok _ _ _ key entry Hentry); vm_compute; reflexivity.
Qed.

(** X20 — Every entry of the BCD, Seven, Eight, Fourteen and Sixteen
    tables, the [None] entry included, is an object of the table's class
    whose dot and segment flags are all 0 or 1. *)
Theorem X20_tables_well_formed :
  (forall key entry, BCD_SEGMENTS !! key = Some entry ->
     class_of entry = CBcd /\ Forall is_flag (flags entry))
  /\ (forall key entry, SEVEN_SEGMENTS !! key = Some entry ->
     class_of entry = CSeven /\ Forall is_flag (flags entry))
  /\ (forall key entry, EIGHT_SEGMENTS !! key = Some entry ->
     class_of entry = CEight /\ Forall is_flag (flags entry))
  /\ (forall key entry, FOURTEEN_SEGMENTS !! key = Some entry ->
     class_of entry = CFourteen /\ Forall is_flag (flags entry))
  /\ (forall key entry, SIXTEEN_SEGMENTS !! key = Some entry ->
     class_of entry = CSixteen /\ Forall is_flag (flags entry)).
Proof.
  split; [|split; [|split; [|split]]]; intros key entry Hentry;
    refine (table_entries_ok _ _ _ key entry Hentry); vm_compute; reflexivity.
Qed.

Lemma with_dot_on_flags (v : Segment) :
  Forall is_flag (flags v) -> Forall is_flag (flags (with_dot_on v)).
Proof.
  destruct v; cbn [flags with_dot_on]; rewrite !Forall_cons;
    intros [_ H]; (split; [now right|exact H]).
Qed.

Lemma with_dot_on_class (v : Segment) : class_of (with_dot_on v) = class_of v.
Proof. destruct v; reflexivity. Qed.

Lemma from_table_flags (cls : class) (table : gmap (option Z) Segment) :
  (forall key entry, table !! key = Some entry ->
     class_of entry = cls /\ Forall is_flag (flags entry)) ->
  forall v, from_table table v -> class_of v = cls /\ Forall is_flag (flags v).
Proof.
  intros Htable v (key & entry & Hentry & [->|Hcopy]); [now apply (Htable key)|].
  rewrite copy_with_dp_on_eq in Hcopy. injection Hcopy as <-.
  destruct (Htable key entry Hentry) as [Hc Hf].
  split; [now rewrite with_dot_on_class|now apply with_dot_on_flags].
Qed.

Lemma in_range (x : Z) : (0 <=? x) && (x <? 256) = true -> 0 <= x < 256.
Proof. intros H. apply andb_true_iff in H as [H0 H1]. lia. Qed.

Lemma encodes_one (encoder : Segment -> result (list Z)) (v : Segment) (x : Z) :
  encoder v = bytes [x] -> (0 <=? x) && (x <? 256) = true -> encodes_to 1 encoder v.
Proof.
  intros Henc Hx. exists [x]. rewrite Henc, (bytes_one _ Hx).
  repeat split. repeat constructor; now apply in_range.
Qed.

Lemma encodes_two (encoder : Segment -> result (list Z)) (v : Segment) (x y : Z) :
  encoder v = bytes [x; y] ->
  (0 <=? x) && (x <? 256) = true -> (0 <=? y) && (y <? 256) = true ->
  encodes_to 2 encoder v.
Proof.
  intros Henc Hx Hy. exists [x; y]. rewrite Henc, (bytes_two _ _ Hx Hy).
  repeat split. repeat constructor; now apply in_range.
Qed.

Lemma ascii_entries (key : option Z) (entry : Segment) :
  ASCII_SEGMENTS !! key = Some entry ->
  exists c, 0 <= c < 128 /\ entry = AsciiSegment 0 c (chr c).
Proof.
  destruct key as [c|].
  - rewrite ascii_lookup. destruct (decide (0 <= c < 128)); [|discriminate].
    intros [= <-]. eauto.
  - destruct tables_have_fallback as (_ & _ & _ & _ & _ & ->).
    intros [= <-]. exists 32. split; [lia|reflexivity].
Qed.

(** X21 — Every segment that is an entry of a table, or the copy of an
    entry with its dot on, is accepted by every encoder of its class: one
    byte from the BCD, Seven, Eight and Ascii encoders, two bytes from the
    Fourteen encoders. No text can make an encoder raise on what the
    mappers return from these tables. *)
Theorem X21_table_segments_encode :
  (forall v, from_table BCD_SEGMENTS v ->
     encodes_to 1 get_dpx4x3x2x1_encoding v /\ encodes_to 1 get_x4x3x2x1_encoding v)
  /\ (forall v, from_table SEVEN_SEGMENTS v ->
     encodes_to 1 get_gfedcba_encoding v /\ encodes_to 1 get_dpgfedcba_encoding v
     /\ encodes_to 1 get_dpgfeabcd_encoding v)
  /\ (forall v, from_table EIGHT_SEGMENTS v -> encodes_to 1 get_hgfedcba_encoding v)
  /\ (forall v, from_table FOURTEEN_SEGMENTS v ->
     encodes_to 2 get_pinmame_encoding v /\ encodes_to 2 get_apc_encoding v
     /\ encodes_to 2 get_vpe_encoding v)
  /\ (forall v, from_table ASCII_SEGMENTS v ->
     encodes_to 1 get_ascii_encoding v /\ encodes_to 1 get_ascii_with_dp_encoding v).
Proof.
  destruct tables_checked as (Hbcd & Hseven & Height & Hfourteen & _).
  split; [|split; [|split; [|split]]]; intros v Hv.
  - destruct (from_table_flags _ _ Hbcd v Hv) as [Hc H].
    destruct v; try discriminate Hc. cbn [flags] in H.
    split_flags H; split; eapply encodes_one; reflexivity.
  - destruct (from_table_flags _ _ Hseven v Hv) as [Hc H].
    destruct v; try discriminate Hc. cbn [flags] in H.
    repeat split; eapply encodes_one; try reflexivity.
    + apply byte_of_flags7. flags_in H.
    + apply byte_of_flags. flags_in H.
    + apply byte_of_flags. flags_in H.
  - destruct (from_table_flags _ _ Height v Hv) as [Hc H].
    destruct v; try discriminate Hc. cbn [flags] in H.
    eapply encodes_one; [reflexivity|]. apply byte_of_flags. flags_in H.
  - destruct (from_table_flags _ _ Hfourteen v Hv) as [Hc H].
    destruct v; try discriminate Hc. cbn [flags] in H.
    repeat split; eapply encodes_two; try reflexivity.
    + apply byte_of_flags7. flags_in H.
    + apply byte_of_flags. flags_in H.
    + apply byte_of_flags. flags_in H.
    + apply byte_of_flags. flags_in H.
    + apply byte_of_flags_lsb. flags_in H.
    + apply byte_of_flags_lsb7. flags_in H.
  - destruct Hv as (key & entry & Hentry & Hv).
    destruct (ascii_entries key entry Hentry) as (c & Hc & ->).
    assert (Hr : (0 <=? c) && (c <? 256) = true)
      by (apply andb_true_iff; split; [apply Z.leb_le|apply Z.ltb_lt]; lia).
    assert (Hr' : (0 <=? c + 128) && (c + 128 <? 256) = true)
      by (apply andb_true_iff; split; [apply Z.leb_le|apply Z.ltb_lt]; lia).
    destruct Hv as [->|Hcopy].
    + split; eapply encodes_one; try reflexivity; try exact Hr.
      simpl. now rewrite Z.add_0_r.
    + rewrite copy_with_dp_on_eq in Hcopy. injection Hcopy as <-.
      split; eapply encodes_one; try reflexivity; assumption.
Qed.

Lemma table_labels (label : Z -> str) (table : gmap (option Z) Segment) :
  forallb (fun entry => label_ok label entry.1 entry.2) (map_to_list table) = true ->
  forall code entry, table !! Some code = Some entry -> char entry = label code.
Proof.
  rewrite forallb_forall. intros H code entry Hentry.
  apply elem_of_map_to_list, list_elem_of_In, H in Hentry.
  now apply bool_decide_eq_true in Hentry.
Qed.

(** X22 — In the BCD and Ascii tables the label of every entry is the
    character of its key. In the Seven, Eight, Fourteen and Sixteen tables
    this holds for every key but 92, the backslash, whose entry is labelled
    with the double quote (34), like the entry of key 34. *)
Theorem X22_table_labels :
  (forall code entry, BCD_SEGMENTS !! Some code = Some entry -> char entry = chr code)
  /\ (forall code entry, ASCII_SEGMENTS !! Some code = Some entry -> char entry = chr code)
  /\ (forall code entry, SEVEN_SEGMENTS !! Some code = Some entry ->
        char entry = font_label code)
  /\ (forall code entry, EIGHT_SEGMENTS !! Some code = Some entry ->
        char entry = font_label code)
  /\ (forall code entry, FOURTEEN_SEGMENTS !! Some code = Some entry ->
        char entry = font_label code)
  /\ (forall code entry, SIXTEEN_SEGMENTS !! Some code = Some entry ->
        char entry = font_label code)
  /\ font_label 92 = chr 34
  /\ (forall code, code <> 92 -> font_label code = chr code).
Proof.
  split; [|split; [|split; [|split; [|split; [|split; [|split]]]]]];
    try (intros code entry Hentry;
         refine (table_labels _ _ _ code entry Hentry); vm_compute; reflexivity).
  - reflexivity.
  - intros code Hcode. unfold font_label.
    destruct (Z.eqb_spec code 92); [contradiction|reflexivity].
Qed.
